(** * us-stocks-screener: vendor-date resolution, caching and validation

    A shallow embedding of the Python package [us_symbols]
    ([normalize.py], [utils.py], [vendor_yahoo.py], [ipo_nasdaq.py], the
    screener fallback of [sources.py] and the cache handling and merging
    of [cli.py]) together with the properties its specification states
    and further properties of the code.

    Conventions of the embedding.
    - Python [str] values are Rocq [string]s; the text handled by the
      program is ticker text, so characters are ASCII and [upper] /
      [strip] act on the ASCII letters and the ASCII white space that
      Python's [str.upper] / [str.strip] act on.
    - A calendar date is its proleptic ordinal ([datetime.date.toordinal]),
      an integer; the order on dates is the order on ordinals.
    - Durations handed to [throttle] are exact rationals: the program only
      scales them by powers of two and compares them with zero.  [pause]
      is a [float], so that [pause * (2 ** attempt)] raises
      [OverflowError] from attempt 1024 on, where the power no longer
      converts to a float; [time.sleep] is taken to accept every
      duration it is given.  The sample fraction of the cache validation
      is a binary64 float, because there the rounding of the product
      decides the result.
    - An element of the iterable handed to the resolver is a string,
      another object with a truth value, or an object whose truth value
      cannot be taken.
    - A CSV file is modelled by its cells, not by its text: where it is
      read, by the cells [pandas.read_csv] yields; where it is written,
      by the values written, and [read_back] gives the cells a later
      read finds for them, a symbol among pandas' missing-value texts
      coming back as a missing value.  A date cell is empty, a date in
      the form the program itself writes ([YYYY-MM-DD]), or text that no
      date parser accepts; for such columns the parse of a whole column
      in [cli.py] and the parse of each cell in [vendor_yahoo.py] agree.
      [min] of a date column skips missing values.
    - A call of [yf.download] either raises or returns a frame; the
      vendor is a state with a transition per call, so that successive
      calls may answer differently.
    - The cache directory of [read_text_cached] and [read_json_cached] is
      a map from paths to the texts written; creating a directory and
      reading or writing a file succeed, a line feed is written as it is,
      and reading a text translates line ends as Python's text mode
      does.  [json.loads], [json.dumps], an HTTP request and the date
      parser of [ipo_nasdaq.py] are parameters of the embedding. *)

From Stdlib Require Import ZArith QArith List String Ascii Bool Lia.
From Stdlib Require Import Sorted OrderedTypeEx.
From Stdlib Require Import PrimFloat SpecFloat FloatOps Uint63.
From Stdlib Require DecimalString DecimalZ.
Import ListNotations.

Local Open Scope string_scope.
Local Open Scope Z_scope.

(* ================================================================== *)
(** * Python strings *)

Module PyStr.

(** ASCII white space as recognised by [str.isspace]:
    TAB, LF, VT, FF, CR, FS, GS, RS, US and SPACE. *)
Definition isspace (c : ascii) : bool :=
  let n := nat_of_ascii c in
  (((9 <=? n) && (n <=? 13)) || ((28 <=? n) && (n <=? 32)))%nat.

Definition upper_char (c : ascii) : ascii :=
  let n := nat_of_ascii c in
  if ((97 <=? n) && (n <=? 122))%nat then ascii_of_nat (n - 32) else c.

(** [s.upper()] *)
Fixpoint upper (s : string) : string :=
  match s with
  | EmptyString => EmptyString
  | String c r => String (upper_char c) (upper r)
  end.

(** [s.lstrip()] *)
Fixpoint lstrip (s : string) : string :=
  match s with
  | EmptyString => EmptyString
  | String c r => if isspace c then lstrip r else s
  end.

(** [s.rstrip()] *)
Fixpoint rstrip (s : string) : string :=
  match s with
  | EmptyString => EmptyString
  | String c r =>
      match rstrip r with
      | EmptyString => if isspace c then EmptyString else String c EmptyString
      | r' => String c r'
      end
  end.

(** [s.strip()] *)
Definition strip (s : string) : string := rstrip (lstrip s).

(** [c in s] for a one-character [c] *)
Fixpoint contains (c : ascii) (s : string) : bool :=
  match s with
  | EmptyString => false
  | String d r => Ascii.eqb c d || contains c r
  end.

(** [s.split(c, 1)] when [c in s]: the text before the first [c] and
    the text after it. *)
Fixpoint split_once (c : ascii) (s : string) : string * string :=
  match s with
  | EmptyString => (EmptyString, EmptyString)
  | String d r =>
      if Ascii.eqb c d then (EmptyString, r)
      else let (b, t) := split_once c r in (String d b, t)
  end.

(** [s.replace(a, b)] for one-character [a] and [b] *)
Fixpoint replace (a b : ascii) (s : string) : string :=
  match s with
  | EmptyString => EmptyString
  | String d r => String (if Ascii.eqb d a then b else d) (replace a b r)
  end.

(** [s.endswith(suf)] *)
Definition endswith (s suf : string) : bool :=
  let n := String.length s in
  let m := String.length suf in
  ((m <=? n)%nat && (substring (n - m) m s =? suf))%string.

(** Truth value of a string: non-empty. *)
Definition truthy (s : string) : bool :=
  match s with EmptyString => false | _ => true end.

(** A string that does not begin with white space. *)
Definition starts_clean (s : string) : Prop :=
  match s with EmptyString => True | String c _ => isspace c = false end.

End PyStr.

(* ================================================================== *)
(** * normalize.py *)

Module Normalize.
Import PyStr.

Definition unit_suffixes : list string := ["/WS"; "/W"; "/WT"; "/RT"; "/U"].

(** The [for suf, rep in (...)] loop of [to_yahoo_symbol]: the first
    suffix that [s] ends with returns from the function. *)
Fixpoint suffix_loop (s : string) (sufs : list string) : option string :=
  match sufs with
  | [] => None
  | suf :: rest =>
      if endswith s suf
      then Some (replace "." "-" (replace "/" "-" s))
      else suffix_loop s rest
  end.

Definition to_yahoo_symbol (symbol : string) : string :=
  let s := upper (strip symbol) in
  if contains "^" s then
    let (base, suf) := split_once "^" s in
    let suf := strip suf in
    if truthy suf then base ++ "-P" ++ suf else base
  else
    match suffix_loop s unit_suffixes with
    | Some r => r
    | None => replace "/" "-" (replace "." "-" s)
    end.

Definition from_yahoo_symbol (symbol : string) : string :=
  replace "-" "." symbol.

(** The three rules of the specification (section 4.1), written from
    its words and applied to a ticker, for comparison with
    [to_yahoo_symbol]. *)
Definition slashes_and_dots_to_hyphen (t : string) : string :=
  replace "." "-" (replace "/" "-" t).

Definition dots_and_slashes_to_hyphen (t : string) : string :=
  replace "/" "-" (replace "." "-" t).

Definition toVendorForm (ticker : string) : string :=
  if contains "^" ticker then
    let (base, suffix) := split_once "^" ticker in
    let suffix := strip (upper suffix) in
    match suffix with
    | EmptyString => base
    | _ => base ++ "-P" ++ suffix
    end
  else if existsb (endswith ticker) unit_suffixes then
    slashes_and_dots_to_hyphen ticker
  else
    dots_and_slashes_to_hyphen ticker.

End Normalize.

(* ================================================================== *)
(** * Python values used by the resolver *)

(** A calendar date, as its ordinal. *)
Definition date := Z.

(** An element of the [tickers] iterable handed to the resolver that
    has a truth value: a string, or any other object, of which only the
    truth value is observed. *)
Inductive pyobj :=
| PyStr (s : string)
| PyOther (truth : bool).

(** An element of an arbitrary iterable: an object with a truth value,
    or one whose truth value cannot be taken, [bool(t)] raising [e] (a
    [TypeError] for [pandas.NA], a [ValueError] for a numpy array). *)
Inductive element :=
| HasTruth (t : pyobj)
| NoTruth (e : string).

(** What a function call yields: a value, or an exception that
    propagates to the caller. *)
Inductive result (A : Type) :=
| Returned (a : A)
| Raised (e : string).
Arguments Returned {A} a.
Arguments Raised {A} e.

(** A property of what a call yields when it returns. *)
Definition on_return {A} (P : A -> Prop) (r : result A) : Prop :=
  match r with
  | Returned a => P a
  | Raised _ => True
  end.

(** Insertion-ordered dictionaries with string keys, as Python's [dict]:
    assigning to a present key keeps its position, a new key goes last. *)
Module PyDict.
Section Dict.
Context {V : Type}.

Definition dict := list (string * V).

Fixpoint get (k : string) (d : dict) : option V :=
  match d with
  | [] => None
  | (k', v) :: r => if (k' =? k)%string then Some v else get k r
  end.

Definition mem (k : string) (d : dict) : bool :=
  match get k d with Some _ => true | None => false end.

(** [d[k] = v] *)
Fixpoint set (k : string) (v : V) (d : dict) : dict :=
  match d with
  | [] => [(k, v)]
  | (k', v') :: r =>
      if (k' =? k)%string then (k, v) :: r else (k', v') :: set k v r
  end.

Definition keys (d : dict) : list string := map fst d.
End Dict.
Arguments dict V : clear implicits.

(** [list(dict.fromkeys(l))]: the distinct elements of [l] in order of
    first occurrence. *)
Definition fromkeys (l : list string) : list string :=
  keys (fold_left (fun d k => set k tt d) l []).

(** A dictionary whose keys are pairwise distinct and all taken from
    [allowed]. *)
Definition keys_within {V} (allowed : list string) (d : dict V) : Prop :=
  NoDup (keys d) /\ incl (keys d) allowed.

End PyDict.

(* ================================================================== *)
(** * utils.py and the data vendor *)

(** The [Close] column of a price frame: the bar dates in ascending
    order, each with its closing price or no value. *)
Definition closes := list (date * option Z).

(** [c = col.dropna()] followed by [c.index[0]] when [len(c) > 0]. *)
Fixpoint first_valid (c : closes) : option date :=
  match c with
  | [] => None
  | (d, Some _) :: _ => Some d
  | (_, None) :: r => first_valid r
  end.

(** A frame returned by a multi-symbol download. *)
Inductive frame :=
| MultiFrame (cols : list (string * closes))
    (** columns grouped by vendor symbol; [df[ysym]["Close"]] raises
        [KeyError] for a symbol without group *)
| FlatFrame (close : closes).
    (** plain columns *)

(** Outcome of one [yf.download] call. *)
Inductive outcome (A : Type) :=
| Data (a : A)
| RateLimit   (** exception whose text has "Rate limited",
                  "Too Many Requests" or "HTTP Error 429" *)
| OtherError. (** any other exception *)
Arguments Data {A} a.
Arguments RateLimit {A}.
Arguments OtherError {A}.

(** What the process does to the outside, in order. *)
Inductive event :=
| Download (ybatch : list string)
| DownloadOne (ysym : string)
| Sleep (seconds : Q).

Module Utils.
(** [throttle(seconds)]: sleeps only for a positive duration, which
    [time.sleep] is taken to accept. *)
Definition throttle (seconds : Q) (log : list event) : list event :=
  if Qle_bool seconds 0 then log else log ++ [Sleep seconds].
End Utils.

(* ================================================================== *)
(** * vendor_yahoo.py *)

Module VendorYahoo.
Import PyStr PyDict Utils.

(** The rows of a two-column frame [Symbol, EarliestVendorDate]. *)
Definition table := list (string * date).

(** Line 25: keep the truthy strings, strip and uppercase them, drop
    repetitions. *)
Definition keep_str (t : pyobj) : option string :=
  match t with
  | PyStr s => if truthy s then Some (upper (strip s)) else None
  | PyOther _ => None
  end.

Fixpoint clean_tickers (tickers : list pyobj) : list string :=
  match tickers with
  | [] => []
  | t :: r =>
      match keep_str t with
      | Some s => s :: clean_tickers r
      | None => clean_tickers r
      end
  end.

Definition normalize_tickers (tickers : list pyobj) : list string :=
  fromkeys (clean_tickers tickers).

(** The entries of an iterable that are non-empty strings, for
    comparison with [clean_tickers]. *)
Fixpoint nonempty_strings (tickers : list pyobj) : list string :=
  match tickers with
  | [] => []
  | PyStr EmptyString :: r => nonempty_strings r
  | PyStr s :: r => s :: nonempty_strings r
  | PyOther _ :: r => nonempty_strings r
  end.

(** [range(0, n, step)]: an error for a zero step, empty for a negative
    one. *)
Definition py_range0 (n : nat) (step : Z) : result (list nat) :=
  if step =? 0 then Raised "ValueError"
  else if step <? 0 then Returned []
  else
    let s := Z.to_nat step in
    Returned (map (fun j => (j * s)%nat) (seq 0 ((n + s - 1) / s))).

(** [l[i : i + size]] for [size > 0] *)
Definition slice {A} (l : list A) (i : nat) (size : Z) : list A :=
  firstn (Z.to_nat size) (skipn i l).

(** [pause * (2 ** attempt)] in exact arithmetic. *)
Definition wait_of (pause : Q) (attempt : nat) : Q :=
  pause * inject_Z (2 ^ Z.of_nat attempt).

(** [pause * (2 ** attempt)] as Python computes it: [pause] is a float,
    so the integer [2 ** attempt] is converted to a float first, which
    raises [OverflowError] from [2 ** 1024] on; below that the product
    is the exact one. *)
Definition backoff (pause : Q) (attempt : nat) : result Q :=
  if (1024 <=? attempt)%nat then Raised "OverflowError"
  else Returned (wait_of pause attempt).


Section Vendor.
(** The data vendor: a state and the two ways [yf.download] is
    called, with a list of symbols and with one symbol (of which the
    caller reads the [Close] column inside the same [try]). *)
Variable World : Type.
Variable download : World -> list string -> outcome frame * World.
Variable download_one : World -> string -> outcome closes * World.

(** State threaded through the resolver. *)
Record state := mkState { world : World; log : list event }.

Definition sleep (seconds : Q) (st : state) : state :=
  mkState (world st) (throttle seconds (log st)).

Definition call_download (ybatch : list string) (st : state)
  : outcome frame * state :=
  let (o, w) := download (world st) ybatch in
  (o, mkState w (log st ++ [Download ybatch])).

Definition call_download_one (ysym : string) (st : state)
  : outcome closes * state :=
  let (o, w) := download_one (world st) ysym in
  (o, mkState w (log st ++ [DownloadOne ysym])).

(** Lines 35-58, the loop [while attempt <= max_retries and df is
    None].  [remaining] is the number of iterations the counter still
    allows, [max_retries + 1 - attempt]; the result is the final
    [df], or the exception that line 52 raises inside the handler. *)
Fixpoint batch_fetch (pause : Q) (ybatch : list string)
    (remaining attempt : nat) (st : state)
  : result (option frame) * state :=
  match remaining with
  | O => (Returned None, st)
  | S remaining' =>
      let (o, st1) := call_download ybatch st in
      match o with
      | Data df => (Returned (Some df), st1)
      | RateLimit =>
          match backoff pause attempt with
          | Raised e => (Raised e, st1)
          | Returned wait =>
              batch_fetch pause ybatch remaining' (S attempt) (sleep wait st1)
          end
      | OtherError => (Returned None, st1)
      end
  end.


(** Lines 63-71: the loop over [zip(batch, ybatch)] on a grouped
    frame. *)
Fixpoint take_multi (cols : list (string * closes))
    (pairs : list (string * string)) (results : dict date) : dict date :=
  match pairs with
  | [] => results
  | (orig, ysym) :: r =>
      let results' :=
        match get ysym cols with
        | Some c =>
            match first_valid c with
            | Some d => set orig d results
            | None => results
            end
        | None => results
        end in
      take_multi cols r results'
  end.

(** Lines 60-76 *)
Definition take_frame (df : option frame) (batch ybatch : list string)
    (results : dict date) : dict date :=
  match df with
  | Some (MultiFrame cols) => take_multi cols (combine batch ybatch) results
  | Some (FlatFrame c) =>
      match batch with
      | [t] =>
          match first_valid c with
          | Some d => set t d results
          | None => results
          end
      | _ => results
      end
  | None => results
  end.

(** Lines 83-106, the loop [while attempt_i <= max_retries and t not
    in results]; line 101 raises as line 52 does. *)
Fixpoint single_fetch (pause : Q) (t ysym : string)
    (remaining attempt_i : nat) (results : dict date) (st : state)
  : result (dict date) * state :=
  match remaining with
  | O => (Returned results, st)
  | S remaining' =>
      if mem t results then (Returned results, st)
      else
        let (o, st1) := call_download_one ysym st in
        match o with
        | Data c =>
            match first_valid c with
            | Some d => (Returned (set t d results), st1)
            | None => (Returned results, st1)
            end
        | RateLimit =>
            match backoff pause attempt_i with
            | Raised e => (Raised e, st1)
            | Returned wait =>
                single_fetch pause t ysym remaining' (S attempt_i) results
                  (sleep wait st1)
            end
        | OtherError => (Returned results, st1)
        end
  end.

(** Lines 80-107: the fallback loop over [missing]. *)
Fixpoint fallback (pause : Q) (max_retries : Z) (missing : list string)
    (results : dict date) (st : state) : result (dict date) * state :=
  match missing with
  | [] => (Returned results, st)
  | t :: r =>
      let ysym := Normalize.to_yahoo_symbol t in
      match single_fetch pause t ysym (Z.to_nat (max_retries + 1)) 0
              results st with
      | (Raised e, st1) => (Raised e, st1)
      | (Returned results1, st1) =>
          fallback pause max_retries r results1 (sleep (1 # 10) st1)
      end
  end.

(** One iteration of the loop over batches, lines 32-112. *)
Definition process_batch (pause : Q) (max_retries : Z)
    (batch : list string) (results : dict date) (st : state)
  : result (dict date) * state :=
  let ybatch := map Normalize.to_yahoo_symbol batch in
  match batch_fetch pause ybatch (Z.to_nat (max_retries + 1)) 0 st with
  | (Raised e, st1) => (Raised e, st1)
  | (Returned df, st1) =>
      let results1 := take_frame df batch ybatch results in
      let missing := filter (fun t => negb (mem t results1)) batch in
      match fallback pause max_retries missing results1 st1 with
      | (Raised e, st2) => (Raised e, st2)
      | (Returned results2, st2) => (Returned results2, sleep pause st2)
      end
  end.

Fixpoint batches_loop (pause : Q) (max_retries : Z)
    (batches : list (list string)) (results : dict date) (st : state)
  : result (dict date) * state :=
  match batches with
  | [] => (Returned results, st)
  | batch :: r =>
      match process_batch pause max_retries batch results st with
      | (Raised e, st1) => (Raised e, st1)
      | (Returned results1, st1) =>
          batches_loop pause max_retries r results1 st1
      end
  end.

(** Lines 25-121 for an iterable whose entries all have a truth
    value. *)
Definition earliest_vendor_dates (tickers : list pyobj) (batch_size : Z)
    (pause : Q) (max_retries : Z) (st : state) : result table * state :=
  let tickers := normalize_tickers tickers in
  match py_range0 (List.length tickers) batch_size with
  | Raised e => (Raised e, st)
  | Returned starts =>
      let batches := map (fun i => slice tickers i batch_size) starts in
      batches_loop pause max_retries batches [] st
  end.

(** The filter of line 25 takes the truth value of every entry in turn:
    the first entry without one ends the call with its exception. *)
Fixpoint truth_values (tickers : list element) : result (list pyobj) :=
  match tickers with
  | [] => Returned []
  | NoTruth e :: _ => Raised e
  | HasTruth t :: r =>
      match truth_values r with
      | Raised e => Raised e
      | Returned ts => Returned (t :: ts)
      end
  end.

End Vendor.

(** ** The cache file *)

(** A cell of the [EarliestVendorDate] column.  A date is held in the
    form the program writes it, [YYYY-MM-DD]; text in another date
    format is not part of the model. *)
Inductive date_cell :=
| NoValue                (** empty cell, read as NaN *)
| DateText (d : date)    (** the date [d], as [YYYY-MM-DD] *)
| BadText.               (** text that [pd.to_datetime] rejects *)

(** A row: the [Symbol] cell ([None] when pandas reads it as a missing
    value) and the date cell. *)
Definition csv_row := (option string * date_cell)%type.

(** A cache file.  Where the code reads one, the cells are those that
    [pd.read_csv] yields; where it writes one ([to_csv]), they are the
    values written, and [read_back] turns these into the cells of a
    later read. *)
Inductive csv :=
| Unreadable                    (** [pd.read_csv] raises *)
| OtherColumns                  (** parses, but lacks one of the two columns *)
| Rows (rows : list csv_row).

(** [str(x)] of a [Symbol] cell; a missing value prints as [nan]. *)
Definition str_of_cell (c : option string) : string :=
  match c with Some s => s | None => "nan" end.

(** Lines 143-149.  The loop fills [cached] row by row; an exception
    leaves the loop, and the handler assigns [cache_df] only. *)
Fixpoint load_rows (rows : list csv_row) (cached : dict date) : dict date :=
  match rows with
  | [] => cached
  | (sym, cell) :: rest =>
      let s := upper (str_of_cell sym) in
      match cell with
      | NoValue => load_rows rest cached
      | DateText d => load_rows rest (set s d cached)
      | BadText => cached
      end
  end.

(** Lines 139-149.  [cache_path] tells whether a path was given, [file]
    is the file at that path, if it exists. *)
Definition load_cache (cache_path : bool) (file : option csv)
    (force_recheck : bool) : dict date :=
  if cache_path && negb force_recheck then
    match file with
    | Some (Rows rows) => load_rows rows []
    | Some OtherColumns => []
    | Some Unreadable => []
    | None => []
    end
  else [].

(** Line 137 *)
Definition strip_upper_all (tickers : list string) : list string :=
  map (fun t => upper (strip t)) (filter truthy tickers).

(** Line 151 *)
Definition to_fetch (tickers : list string) (cached : dict date)
    (force_recheck : bool) : list string :=
  filter (fun t => force_recheck || negb (mem t cached)) tickers.

(** [sorted] on rows with pairwise distinct symbols: insertion by
    symbol, in code-point order. *)
Fixpoint insert_row {V} (r : string * V) (l : list (string * V))
  : list (string * V) :=
  match l with
  | [] => [r]
  | r' :: l' =>
      if String.leb (fst r) (fst r') then r :: l else r' :: insert_row r l'
  end.

Definition sorted_rows {V} (l : list (string * V)) : list (string * V) :=
  fold_right insert_row [] l.

(** Lines 161-166 *)
Definition merge_maps (cached : dict date) (fetched : table)
  : dict (option date) :=
  let merged_map :=
    fold_left (fun m sd => set (fst sd) (Some (snd sd)) m) cached [] in
  fold_left (fun m row => set (upper (fst row)) (Some (snd row)) m)
    fetched merged_map.

(** [dropna(subset=["EarliestVendorDate"])] *)
Fixpoint dropna (rows : list (string * option date)) : table :=
  match rows with
  | [] => []
  | (s, Some d) :: r => (s, d) :: dropna r
  | (_, None) :: r => dropna r
  end.

(** [result_df.to_csv(cache_path, index=False)]: the file written, by
    the cells written to it.  What a later [pd.read_csv] finds in that
    file is [read_back] of it. *)
Definition to_csv (t : table) : csv :=
  Rows (map (fun sd => (Some (fst sd), DateText (snd sd))) t).

(** The texts that [pd.read_csv] reads as a missing value: its default
    [na_values], which a [dtype] for the column does not switch off. *)
Definition na_values : list string :=
  [EmptyString; "#N/A"; "#N/A N/A"; "#NA"; "-1.#IND"; "-1.#QNAN"; "-NaN";
   "-nan"; "1.#IND"; "1.#QNAN"; "<NA>"; "N/A"; "NA"; "NULL"; "NaN"; "None";
   "n/a"; "nan"; "null"].

(** The [Symbol] cell that [pd.read_csv] reads from a written symbol. *)
Definition read_symbol (s : string) : option string :=
  if existsb (String.eqb s) na_values then None else Some s.

(** Written rows as [pd.read_csv] reads them: a symbol that is one of
    [na_values] comes back as a missing value, every other cell as it
    was written. *)
Definition read_back_rows (rows : list csv_row) : list csv_row :=
  map (fun r =>
         (match fst r with
          | Some s => read_symbol s
          | None => None
          end, snd r)) rows.

(** A written file as [pd.read_csv] reads it. *)
Definition read_back (file : csv) : csv :=
  match file with
  | Rows rows => Rows (read_back_rows rows)
  | other => other
  end.

(** [result_df[result_df["Symbol"].isin(tickers)]] *)
Definition isin (tickers : list string) (t : table) : table :=
  filter (fun sd => existsb (String.eqb (fst sd)) tickers) t.

Section Cached.
Variable World : Type.
Variable download : World -> list string -> outcome frame * World.
Variable download_one : World -> string -> outcome closes * World.

Let st := state World.

(** Lines 154-158 *)
Definition fetch (to_fetch : list string) (batch_size : Z) (pause : Q)
    (max_retries : Z) (s : st) : result table * st :=
  match to_fetch with
  | [] => (Returned [], s)
  | _ =>
      earliest_vendor_dates World download download_one
        (map PyStr to_fetch) batch_size pause max_retries s
  end.

(** A completed call: the returned frame and the cache file it
    leaves behind. *)
Record run := mkRun { returned : table; file_after : option csv }.

Definition earliest_vendor_dates_with_cache (tickers : list string)
    (cache_path : bool) (file : option csv) (batch_size : Z) (pause : Q)
    (max_retries : Z) (force_recheck : bool) (s : st) : result run * st :=
  let tickers := strip_upper_all tickers in
  let cached := load_cache cache_path file force_recheck in
  let to_fetch := to_fetch tickers cached force_recheck in
  let (fetched_df, s1) := fetch to_fetch batch_size pause max_retries s in
  match fetched_df with
  | Raised e => (Raised e, s1)
  | Returned fetched =>
      let merged_map := merge_maps cached fetched in
      let all_rows := sorted_rows merged_map in
      let result_df := dropna all_rows in
      let file' := if cache_path then Some (to_csv result_df) else file in
      (Returned (mkRun (isin tickers result_df) file'), s1)
  end.
End Cached.

End VendorYahoo.

(* ================================================================== *)
(** * cli.py: cache seeding, cache validation, universe cache *)

Module Cli.
Import PyStr PyDict VendorYahoo.

(** ** Grouping by symbol *)

(** The smaller of two dates, where a missing value never wins. *)
Definition opt_min (a b : option date) : option date :=
  match a, b with
  | Some x, Some y => Some (Z.min x y)
  | Some x, None => Some x
  | None, b => b
  end.

(** Insertion of a key into a sorted key list. *)
Fixpoint insert_key (k : string) (l : list string) : list string :=
  match l with
  | [] => [k]
  | k' :: l' => if String.leb k k' then k :: l else k' :: insert_key k l'
  end.

(** The group keys of [groupby("Symbol")]: the distinct symbols, in
    sorted order. *)
Definition group_keys (symbols : list string) : list string :=
  fold_right insert_key [] (fromkeys symbols).

(** [min] of the date column within the group of [k]. *)
Definition group_min_of (k : string) (rows : list (string * option date))
  : option date :=
  fold_right opt_min None
    (map snd (filter (fun r => (fst r =? k)%string) rows)).

(** A table without missing dates as rows with an optional date. *)
Definition lift (t : table) : list (string * option date) :=
  map (fun r => (fst r, Some (snd r))) t.

(** [t.groupby("Symbol", as_index=False)["EarliestVendorDate"].min()]
    on a table without missing dates. *)
Definition groupby_min (t : table) : table :=
  flat_map
    (fun k => match group_min_of k (lift t) with
              | Some d => [(k, d)]
              | None => []
              end)
    (group_keys (map fst t)).

(** The smallest date that the rows of [t] give for symbol [k], if any:
    the per-symbol minimum the specification speaks of, written by
    recursion on the rows. *)
Fixpoint min_date_seen (k : string) (t : table) : option date :=
  match t with
  | [] => None
  | (s, d) :: r =>
      if (s =? k)%string then opt_min (Some d) (min_date_seen k r)
      else min_date_seen k r
  end.

(** Lists of symbols in strictly ascending code-point order. *)
Definition ascending (l : list string) : Prop :=
  StronglySorted (fun a b => String.ltb a b = true) l.

(** ** Seeding the vendor cache from the universe cache (lines 95-120) *)

(** [pd.to_datetime(..., errors="coerce").dt.date], cell by cell.  The
    code parses the column as a whole, with the format of its first
    value; on a column whose dates all have the form [YYYY-MM-DD] that
    is the parse of each cell, a cell that does not parse becoming
    [NaT]. *)
Definition coerce (c : date_cell) : option date :=
  match c with DateText d => Some d | _ => None end.

(** Lines 103-106: rows of the universe cache with a symbol and a date. *)
Fixpoint clean_universe (rows : list csv_row) : table :=
  match rows with
  | [] => []
  | (Some s, DateText d) :: r => (upper s, d) :: clean_universe r
  | _ :: r => clean_universe r
  end.

(** Lines 111-113: rows of the vendor cache with a date, the column
    parsed as [coerce] describes; a missing symbol is kept as the text
    [NAN]. *)
Fixpoint clean_vendor (rows : list csv_row) : table :=
  match rows with
  | [] => []
  | (sym, DateText d) :: r => (upper (str_of_cell sym), d) :: clean_vendor r
  | _ :: r => clean_vendor r
  end.

(** Line 114: [pd.concat([u, v]).dropna().groupby(...).min()] *)
Definition merge_min (u v : table) : table := groupby_min (u ++ v)%list.

(** The vendor cache file after the seeding step. *)
Definition seed_vendor_cache (ucache_path vcache_path force_recheck : bool)
    (ucache vcache : option csv) : option csv :=
  if ucache_path && vcache_path && negb force_recheck then
    match ucache with
    | Some (Rows urows) =>
        let u := groupby_min (clean_universe urows) in
        match vcache with
        | Some (Rows vrows) =>
            let v := groupby_min (clean_vendor vrows) in
            Some (to_csv (merge_min u v))
        | Some OtherColumns => Some (to_csv u)
        | Some Unreadable => vcache
        | None => Some (to_csv u)
        end
    | _ => vcache
    end
  else vcache.

(** A written symbol that [pd.read_csv], called without a [dtype] as in
    lines 100 and 109, reads back as the text written: it starts with a
    letter and is none of the texts read as a missing value, as a number
    or as a truth value. *)
Definition reads_as_text (s : string) : bool :=
  match s with
  | EmptyString => false
  | String c _ =>
      let n := nat_of_ascii (upper_char c) in ((65 <=? n) && (n <=? 90))%nat
  end
  && negb (existsb (String.eqb s) na_values)
  && negb (existsb (String.eqb (upper s))
             ["NAN"; "INF"; "INFINITY"; "TRUE"; "FALSE"]).

(** ** The universe cache (lines 223-267) *)

Record urow := mkURow {
  Symbol : option string;
  SecurityName : option string;
  Exchange : option string;
  CIK : option string;
  ListedCurrently : option bool;
  EarliestVendorDate : date_cell;
  IPODate : date_cell
}.

(** [first_nonnull] *)
Fixpoint first_nonnull {A} (series : list (option A)) : option A :=
  match series with
  | [] => None
  | Some v :: _ => Some v
  | None :: r => first_nonnull r
  end.

(** A row of the aggregate. *)
Record unified_row := mkUnified {
  uSymbol : string;
  uSecurityName : option string;
  uExchange : option string;
  uCIK : option string;
  uListedCurrently : option bool;
  uEarliestVendorDate : option date;
  uIPODate : option date
}.

(** Line 240 *)
Definition key_of (r : urow) : string := upper (str_of_cell (Symbol r)).

Definition aggregate (k : string) (group : list urow) : unified_row :=
  mkUnified k
    (first_nonnull (map SecurityName group))
    (first_nonnull (map Exchange group))
    (first_nonnull (map CIK group))
    (first_nonnull (map ListedCurrently group))
    (fold_right opt_min None (map (fun r => coerce (EarliestVendorDate r)) group))
    (fold_right opt_min None (map (fun r => coerce (IPODate r)) group)).

(** Lines 236-262: [combo.groupby("Symbol", as_index=False).agg(...)] *)
Definition unify (prev cur : list urow) : list unified_row :=
  let combo := (prev ++ cur)%list in
  map (fun k => aggregate k (filter (fun r => (key_of r =? k)%string) combo))
    (group_keys (map key_of combo)).

(** The smallest [EarliestVendorDate] that the rows of a universe table
    give for symbol [k], if any. *)
Fixpoint earliest_seen (k : string) (rows : list urow) : option date :=
  match rows with
  | [] => None
  | r :: rest =>
      if (key_of r =? k)%string
      then opt_min (coerce (EarliestVendorDate r)) (earliest_seen k rest)
      else earliest_seen k rest
  end.

(** The [EarliestVendorDate] recorded for a symbol by an aggregate. *)
Fixpoint unified_date (k : string) (rows : list unified_row) : option date :=
  match rows with
  | [] => None
  | r :: rest =>
      if (uSymbol r =? k)%string then uEarliestVendorDate r
      else unified_date k rest
  end.

(** ** Validation of a sample of the cache (lines 121-165) *)

(** [float(n)] of a length. *)
Definition float_of_len (n : nat) : float :=
  PrimFloat.of_uint63 (Uint63.of_Z (Z.of_nat n)).

(** [int(math.ceil(x))]: an error for an infinity or a NaN. *)
Definition py_ceil (x : float) : result Z :=
  match Prim2SF x with
  | S754_zero _ => Returned 0
  | S754_infinity _ => Raised "OverflowError"
  | S754_nan => Raised "ValueError"
  | S754_finite sign m e =>
      let num := Z.pos m in
      if 0 <=? e then
        Returned ((if sign then -1 else 1) * (num * 2 ^ e))
      else
        let den := 2 ^ (- e) in
        if sign then Returned (- (num / den))
        else Returned (- ((- num) / den))
  end.

(** The rational number a finite binary64 value stands for: the ceiling
    above is that of this number. *)
Definition float_value (x : float) : option Q :=
  match Prim2SF x with
  | S754_zero _ => Some 0%Q
  | S754_finite sign m e =>
      let v :=
        if 0 <=? e then inject_Z (Z.pos m * 2 ^ e)
        else Z.pos m # Z.to_pos (2 ^ (- e)) in
      Some (if sign then (- v)%Q else v)
  | _ => None
  end.

(** Lines 141-142 *)
Definition sample_size (n : nat) (validate_cache_sample : float)
    (validate_cache_min : Z) : result Z :=
  match py_ceil (float_of_len n * validate_cache_sample)%float with
  | Raised e => Raised e
  | Returned c =>
      let k := Z.max c validate_cache_min in
      Returned (Z.min k (Z.of_nat n))
  end.

(** A row of the mismatch report: [Symbol, FreshDate, CachedDate]. *)
Definition mismatch := (string * date * date)%type.

(** Line 150: [fresh.merge(vdf[...], on="Symbol", how="left")] *)
Definition left_merge (fresh : table) (vdf : list (string * option date))
  : list (string * date * option date) :=
  flat_map
    (fun f =>
       match filter (fun v => (fst v =? fst f)%string) vdf with
       | [] => [(fst f, snd f, None)]
       | ms => map (fun v => (fst f, snd f, snd v)) ms
       end)
    fresh.

(** Line 152 *)
Fixpoint mismatches (rows : list (string * date * option date))
  : list mismatch :=
  match rows with
  | [] => []
  | (s, f, Some c) :: r =>
      if f =? c then mismatches r else (s, f, c) :: mismatches r
  | (_, _, None) :: r => mismatches r
  end.

Record args := mkArgs {
  skip_validate : bool;
  force_recheck : bool;
  validate_cache_sample : float;
  validate_cache_min : Z;
  batch_size : Z;
  pause : Q;
  max_retries : Z
}.

(** Lines 135-136: the symbol as upper-case text, the date coerced. *)
Definition vdf_of (rows : list csv_row) : list (string * option date) :=
  map (fun r => (upper (str_of_cell (fst r)), coerce (snd r))) rows.

(** Lines 137-139: the cached symbols with a date that are in the
    universe, in the order of the cache. *)
Definition candidates_of (rows : list csv_row) (universe : list string)
  : list string :=
  let cached_map :=
    fold_left (fun m sd => set (fst sd) (snd sd) m) (dropna (vdf_of rows)) [] in
  let universe_syms := map upper universe in
  filter (fun c => existsb (String.eqb c) universe_syms) (keys cached_map).

(** Lines 148-149 *)
Definition upper_symbols (fresh : table) : table :=
  map (fun r => (upper (fst r), snd r)) fresh.

Section Validate.
Variable World : Type.
Variable download : World -> list string -> outcome frame * World.
Variable download_one : World -> string -> outcome closes * World.
(** [random.sample(population, k)] *)
Variable random_sample : list string -> nat -> list string.

(** The body of the [try], after [vdf] has been read: the report
    written, if one is. *)
Definition validate_rows (a : args) (rows : list csv_row)
    (universe : list string) (s : state World)
  : option (list mismatch) * state World :=
  let vdf := vdf_of rows in
  let candidates := candidates_of rows universe in
  match candidates with
  | [] => (None, s)
  | _ =>
      match sample_size (List.length candidates) (validate_cache_sample a)
              (validate_cache_min a) with
      | Raised _ => (None, s)
      | Returned k =>
          let sample := random_sample candidates (Z.to_nat k) in
          let (fresh, s1) :=
            earliest_vendor_dates World download download_one
              (map PyStr sample) (Z.min (batch_size a) 50) (pause a)
              (max_retries a) s in
          match fresh with
          | Raised _ => (None, s1)
          | Returned [] => (None, s1)
          | Returned fresh =>
              let merged_chk := left_merge (upper_symbols fresh) vdf in
              (Some (mismatches merged_chk), s1)
          end
      end
  end.

(** Lines 122-165.  [None]: no report file is written. *)
Definition validate_cache (a : args) (vcache_path : bool)
    (vcache : option csv) (universe : list string) (s : state World)
  : option (list mismatch) * state World :=
  if negb (skip_validate a) && vcache_path
     && (match vcache with Some _ => true | None => false end)
     && negb (force_recheck a)
     && (0 <? validate_cache_sample a)%float
  then
    match vcache with
    | Some (Rows rows) => validate_rows a rows universe s
    | _ => (None, s)
    end
  else (None, s).
End Validate.

End Cli.

(* ================================================================== *)
(** * A scripted vendor *)

(** A vendor that answers its calls from two fixed lists, one per kind of
    call, and fails once a list is used up.  It provides the concrete
    runs on which the statements below are exercised. *)
Module Scripted.
Import VendorYahoo.

Definition world := (list (outcome frame) * list (outcome closes))%type.

Definition download (w : world) (ybatch : list string)
  : outcome frame * world :=
  match fst w with
  | [] => (OtherError, w)
  | o :: r => (o, (r, snd w))
  end.

Definition download_one (w : world) (ysym : string)
  : outcome closes * world :=
  match snd w with
  | [] => (OtherError, w)
  | o :: r => (o, (fst w, r))
  end.

Definition start (w : world) : VendorYahoo.state world :=
  VendorYahoo.mkState world w [].

(** [random.sample] that happens to draw the first [k] elements. *)
Definition first_k (population : list string) (k : nat) : list string :=
  firstn k population.

(** 2000-01-01 and 1999-01-01 as ordinals. *)
Definition d2000 : date := 730120.
Definition d1999 : date := 729755.

(** Monthly closes starting in January 2000, the first bar without a
    close. *)
Definition bars2000 : closes :=
  [(730089, None); (d2000, Some 11150); (730151, Some 10460)].

Definition bars1999 : closes := [(d1999, Some 7000000)].

(** An input with padding, mixed case, a repetition, an empty string and
    a non-string, and a vendor that knows two of its three symbols. *)
Definition mixed_input : list pyobj :=
  [PyStr " aapl "; PyStr "AAPL"; PyOther true; PyStr ""; PyStr "brk.b";
   PyStr "zzzz"].

Definition two_known : world :=
  ([Data (MultiFrame [("AAPL", bars2000); ("BRK-B", bars1999)])], [Data []]).

(** A vendor cache that knows AAPL, and a vendor that answers one grouped
    download with BRK-B only. *)
Definition cache_aapl : csv := Rows [(Some "AAPL", DateText d2000)].

Definition knows_brk : world :=
  ([Data (MultiFrame [("BRK-B", bars1999)])], []).

(** A vendor that fails every call. *)
Definition down : world := ([], []).

(** A vendor cache whose second row has a date that does not parse. *)
Definition cache_bad_row : csv :=
  Rows [(Some "AAPL", DateText d2000); (Some "MSFT", BadText);
        (Some "IBM", DateText d1999)].


(** A vendor that signals a rate limit on every grouped download of a
    run with three retries. *)
Definition limited_four_times : world :=
  ([RateLimit; RateLimit; RateLimit; RateLimit], [Data bars2000]).



(** The defaults of the command line: a sample of 5 percent
    ([0x1.999999999999ap-5] is the binary64 value of [0.05]) and at least
    20 symbols, batches of 50, a pause of 1.5 seconds, 3 retries. *)
Definition default_args : Cli.args :=
  Cli.mkArgs false false 0x1.999999999999ap-5%float 20 50 (3 # 2) 3.

Definition knows_aapl : world :=
  ([Data (MultiFrame [("AAPL", bars2000)])], []).

(** The vendor now reports an earlier first bar for AAPL. *)
Definition aapl_backfilled : world :=
  ([Data (MultiFrame [("AAPL", bars1999)])], []).

(** Two cache tables that disagree on AAPL. *)
Definition table_a : table := [("MSFT", 725000); ("AAPL", d2000)].
Definition table_b : table := [("AAPL", d1999); ("IBM", 720000)].

End Scripted.


(* ================================================================== *)
(** * Observations on strings and logs *)

Module Observe.
Import PyStr.

(** A character that is neither white space nor changed by, or the
    result of, uppercasing. *)
Definition plain (a : ascii) : Prop :=
  isspace a = false /\ forall c, Ascii.eqb (upper_char c) a = Ascii.eqb c a.

(** The number of [yf.download] calls a log records. *)
Fixpoint vendor_calls (log : list event) : nat :=
  match log with
  | [] => 0
  | Download _ :: r => S (vendor_calls r)
  | DownloadOne _ :: r => S (vendor_calls r)
  | Sleep _ :: r => vendor_calls r
  end.

End Observe.

(* ================================================================== *)
(** * A vendor that knows every symbol *)

(** A stateless vendor whose grouped download returns, for every symbol
    asked, the same monthly closes, the first one missing. *)
Module Generous.

Definition world := unit.

Definition bars : closes := [(730089, None); (730120, Some 11150)].

Definition download (w : world) (ybatch : list string)
  : outcome frame * world :=
  (Data (MultiFrame (map (fun y => (y, bars)) ybatch)), w).

Definition download_one (w : world) (ysym : string)
  : outcome closes * world :=
  (OtherError, w).

Definition start : VendorYahoo.state world :=
  VendorYahoo.mkState world tt [].

End Generous.

(* ================================================================== *)
(** * cli.py: the report of unresolved symbols *)

Module CliReports.
Import VendorYahoo Cli.

(** Line 182, on the [Symbol] column:
    [symbols_df.loc[~symbols_df["Symbol"].isin(earliest_df["Symbol"])]]. *)
Definition missing_symbols (symbols : list string) (earliest_df : table)
  : list string :=
  filter (fun s => negb (existsb (String.eqb s) (map fst earliest_df))) symbols.

(** The row of a universe aggregate for a symbol. *)
Fixpoint find_unified (k : string) (rows : list unified_row)
  : option unified_row :=
  match rows with
  | [] => None
  | r :: rest => if (uSymbol r =? k)%string then Some r else find_unified k rest
  end.

(** The rows of a universe table for a symbol, in table order. *)
Definition rows_of (k : string) (rows : list urow) : list urow :=
  filter (fun r => (key_of r =? k)%string) rows.

(** [a or b] on optional values: the first that is present. *)
Definition or_else {A} (a b : option A) : option A :=
  match a with Some v => Some v | None => b end.

End CliReports.

(* ================================================================== *)
(** * JSON values as Python sees them *)

Module Json.

(** What [json.loads] and [Response.json] return: [None], a [bool], a
    number (of which only being zero or not is observed), a [str], a
    [list] or a [dict] (its items, with distinct keys). *)
#[warnings="-register-all"]
Inductive json :=
| JNull
| JBool (b : bool)
| JNum (n : Z)
| JStr (s : string)
| JArr (items : list json)
| JObj (members : list (string * json)).

(** Truth value *)
Definition truthy (j : json) : bool :=
  match j with
  | JNull => false
  | JBool b => b
  | JNum n => negb (n =? 0)
  | JStr s => PyStr.truthy s
  | JArr items => match items with [] => false | _ => true end
  | JObj members => match members with [] => false | _ => true end
  end.

(** [a or b] *)
Definition py_or (a b : json) : json := if truthy a then a else b.

Fixpoint lookup (key : string) (members : list (string * json)) : option json :=
  match members with
  | [] => None
  | (k, v) :: r => if (k =? key)%string then Some v else lookup key r
  end.

(** [x.get(key, default)]: only a [dict] has the method. *)
Definition get (x : json) (key : string) (default : json) : result json :=
  match x with
  | JObj members =>
      match lookup key members with
      | Some v => Returned v
      | None => Returned default
      end
  | _ => Raised "AttributeError"
  end.

Fixpoint chars (s : string) : list json :=
  match s with
  | EmptyString => []
  | String c r => JStr (String c EmptyString) :: chars r
  end.

(** The values [for row in x] goes through: the items of a list, the
    keys of a dict, the characters of a string; other values are not
    iterable. *)
Definition iterate (x : json) : result (list json) :=
  match x with
  | JArr items => Returned items
  | JObj members => Returned (map (fun kv => JStr (fst kv)) members)
  | JStr s => Returned (chars s)
  | _ => Raised "TypeError"
  end.

(** The receiver of [.strip()]: a string, or an [AttributeError]. *)
Definition text (x : json) : result string :=
  match x with
  | JStr s => Returned s
  | _ => Raised "AttributeError"
  end.

End Json.

(* ================================================================== *)
(** * utils.py: cached reads *)

Module FileCache.
Import Json.

(** The files below the cache directory: the text of each existing
    file, by path. *)
Definition files := string -> option string.

(** [path.write_text(text)]: the characters written, a line feed as it
    is (the line separator of a POSIX system). *)
Definition write_text (fs : files) (path text : string) : files :=
  fun p => if (p =? path)%string then Some text else fs p.

(** The newline translation of a file opened for reading in text mode:
    a carriage return followed by a line feed, and a carriage return
    alone, are read as one line feed. *)
Fixpoint universal_newlines (s : string) : string :=
  match s with
  | EmptyString => EmptyString
  | String c r =>
      if Ascii.eqb c "013"%char then
        String "010"%char
          match r with
          | EmptyString => EmptyString
          | String d r' =>
              if Ascii.eqb d "010"%char then universal_newlines r'
              else universal_newlines r
          end
      else String c (universal_newlines r)
  end.

(** [path.read_text()] of a file that may not exist. *)
Definition read_text (fs : files) (path : string) : option string :=
  match fs path with
  | Some text => Some (universal_newlines text)
  | None => None
  end.

Section Fetch.
Variable World : Type.

(** [json.loads] and [json.dumps] *)
Variable loads : string -> result json.
Variable dumps : json -> string.

Definition read_text_cached (cache_file : string) (refresh : bool)
    (fetch_fn : option (World -> result string * World))
    (fs : files) (w : World) : result string * files * World :=
  let miss :=
    match fetch_fn with
    | None => (Raised "ValueError", fs, w)
    | Some fetch =>
        let (r, w') := fetch w in
        match r with
        | Raised e => (Raised e, fs, w')
        | Returned text => (Returned text, write_text fs cache_file text, w')
        end
    end in
  match read_text fs cache_file with
  | Some text => if negb refresh then (Returned text, fs, w) else miss
  | None => miss
  end.

(** [fetch_fn] returns any value; a [str] is stored as it is and parsed,
    another value is stored serialised and returned as it is.  A line
    end of either form is white space to [json.loads], and neither form
    may occur inside a JSON string, so the text is parsed as it is
    stored. *)
Definition read_json_cached (cache_file : string) (refresh : bool)
    (fetch_fn : option (World -> result json * World))
    (fs : files) (w : World) : result json * files * World :=
  let miss :=
    match fetch_fn with
    | None => (Raised "ValueError", fs, w)
    | Some fetch =>
        let (r, w') := fetch w in
        match r with
        | Raised e => (Raised e, fs, w')
        | Returned (JStr data) =>
            (loads data, write_text fs cache_file data, w')
        | Returned data =>
            (Returned data, write_text fs cache_file (dumps data), w')
        end
    end in
  match fs cache_file with
  | Some text => if negb refresh then (loads text, fs, w) else miss
  | None => miss
  end.

End Fetch.
End FileCache.

(* ================================================================== *)
(** * ipo_nasdaq.py *)

Module IpoNasdaq.
Import PyStr Json FileCache.

(** [f"{n}"] of an [int] *)
Definition str_of_int (n : Z) : string :=
  DecimalString.NilZero.string_of_int (Z.to_int n).

(** [f"{n:02d}"]: a zero in front of a single digit. *)
Definition pad2 (n : Z) : string :=
  let s := str_of_int n in
  if (String.length s <? 2)%nat then String "0" s else s.

(** The text [f"{year}-{month:02d}"] *)
Definition month_tag (year month : Z) : string :=
  str_of_int year ++ "-" ++ pad2 month.

(** Line 29 *)
Definition cache_file (cache_dir : string) (year month : Z) : string :=
  cache_dir ++ "/nasdaq_ipo/" ++ month_tag year month ++ ".json".

(** Line 22 *)
Definition month_url (year month : Z) : string :=
  "https://api.nasdaq.com/api/ipo/calendar?date=" ++ month_tag year month.

(** Sequencing of calls that may raise. *)
Definition bind {A B} (r : result A) (k : A -> result B) : result B :=
  match r with
  | Returned a => k a
  | Raised e => Raised e
  end.

Local Notation "x <- r ;; k" := (bind r (fun x => k))
  (at level 61, r at next level, right associativity).

(** [row.get(k1) or row.get(k2) or ... or ""]: the keys are looked up in
    turn until a value is true. *)
Fixpoint first_true (row : json) (keys : list string) : result json :=
  match keys with
  | [] => Returned (JStr EmptyString)
  | k :: rest =>
      v <- get row k JNull ;;
      if truthy v then Returned v else first_true row rest
  end.

Record ipo_row := mkIpoRow {
  Symbol : string;
  IPODate : string;
  Company : string
}.

(** Lines 39-43, the body of the loop: the row appended, if any. *)
Definition row_of (row : json) : result (option ipo_row) :=
  s <- first_true row ["symbol"; "proposedTickerSymbol"] ;;
  s <- text s ;;
  let sym := upper (strip s) in
  d <- first_true row ["priced"; "date"] ;;
  d <- text d ;;
  let date := strip d in
  c <- first_true row ["companyName"] ;;
  c <- text c ;;
  let comp := strip c in
  Returned (if PyStr.truthy sym && PyStr.truthy date
            then Some (mkIpoRow sym date comp) else None).

(** Lines 38-45: an exception leaves the loop with the rows appended so
    far. *)
Fixpoint rows_loop (priced : list json) (rows : list ipo_row)
  : list ipo_row :=
  match priced with
  | [] => rows
  | row :: rest =>
      match row_of row with
      | Raised _ => rows
      | Returned None => rows_loop rest rows
      | Returned (Some r) => rows_loop rest (rows ++ [r])%list
      end
  end.

(** Line 37 and the start of the iteration of line 38. *)
Definition priced_rows (j : json) : result (list json) :=
  data <- get j "data" (JObj []) ;;
  priced <- get data "priced" (JObj []) ;;
  rows <- get priced "rows" (JArr []) ;;
  iterate (py_or rows (JArr [])).

(** Lines 35-46 *)
Definition listed_rows (j : json) : list ipo_row :=
  match priced_rows j with
  | Raised _ => []
  | Returned priced => rows_loop priced []
  end.

(** [range(a, b)] *)
Definition py_range (a b : Z) : list Z :=
  map (fun i => a + Z.of_nat i) (seq 0 (Z.to_nat (b - a))).

(** [a or b] on an optional [int] *)
Definition int_or (a : option Z) (b : Z) : Z :=
  match a with
  | Some v => if v =? 0 then b else v
  | None => b
  end.

(** A row of the returned frame: [Symbol], [IPODate], [Company]. *)
Definition frame_row := (string * date * string)%type.

(** [df.dropna(subset=["IPODate"])] *)
Fixpoint dropna (rows : list (ipo_row * option date)) : list frame_row :=
  match rows with
  | [] => []
  | (r, Some d) :: rest => (Symbol r, d, Company r) :: dropna rest
  | (_, None) :: rest => dropna rest
  end.

Definition same_key (a b : string * date) : bool :=
  (fst a =? fst b)%string && (snd a =? snd b).

(** [df.drop_duplicates(["Symbol", "IPODate"])]: a row is kept unless an
    earlier row has its symbol and date. *)
Fixpoint drop_duplicates (seen : list (string * date))
    (rows : list frame_row) : list frame_row :=
  match rows with
  | [] => []
  | r :: rest =>
      if existsb (same_key (fst r)) seen then drop_duplicates seen rest
      else r :: drop_duplicates (fst r :: seen) rest
  end.

Section Calendar.
Variable World : Type.

(** [json.loads] and [json.dumps] *)
Variable loads : string -> result json.
Variable dumps : json -> string.

(** [requests.get(url, ...)], [raise_for_status()] and [r.json()] *)
Variable get_json : World -> string -> result json * World.

(** [pd.to_datetime(column, errors="coerce").dt.date] *)
Variable to_datetime : list string -> list (option date).

(** The remote side, and the URLs requested so far. *)
Definition web := (World * list string)%type.

(** Lines 21-25 *)
Definition _fetch_month_json (year month : Z) (w : web)
  : result json * web :=
  let url := month_url year month in
  let (r, w') := get_json (fst w) url in
  (r, (w', (snd w ++ [url])%list)).

(** Lines 28-46 *)
Definition fetch_nasdaq_ipo_month (year month : Z) (refresh : bool)
    (cache_dir : string) (fs : files) (w : web)
  : result (list ipo_row) * files * web :=
  let '(r, fs', w') :=
    read_json_cached web loads dumps (cache_file cache_dir year month)
      refresh (Some (_fetch_month_json year month)) fs w in
  match r with
  | Raised e => (Raised e, fs', w')
  | Returned j => (Returned (listed_rows j), fs', w')
  end.

(** The cache files, the remote side and the pauses made. *)
Record state := mkState {
  disk : files;
  net : web;
  slept : list event
}.

(** Lines 61-66, for one year. *)
Fixpoint months_loop (year y m : Z) (months : list Z) (refresh : bool)
    (cache_dir : string) (all_rows : list ipo_row) (st : state)
  : result (list ipo_row) * state :=
  match months with
  | [] => (Returned all_rows, st)
  | month :: rest =>
      if (year =? y) && (m <? month) then (Returned all_rows, st)
      else
        let '(r, fs', w') :=
          fetch_nasdaq_ipo_month year month refresh cache_dir
            (disk st) (net st) in
        match r with
        | Raised e => (Raised e, mkState fs' w' (slept st))
        | Returned rows =>
            months_loop year y m rest refresh cache_dir
              (all_rows ++ rows)%list
              (mkState fs' w' (Utils.throttle (1 # 2) (slept st)))
        end
  end.

(** Lines 60-66 *)
Fixpoint years_loop (years : list Z) (y m : Z) (refresh : bool)
    (cache_dir : string) (all_rows : list ipo_row) (st : state)
  : result (list ipo_row) * state :=
  match years with
  | [] => (Returned all_rows, st)
  | year :: rest =>
      match months_loop year y m (py_range 1 13) refresh cache_dir
              all_rows st with
      | (Raised e, st') => (Raised e, st')
      | (Returned all_rows', st') =>
          years_loop rest y m refresh cache_dir all_rows' st'
      end
  end.

(** Lines 67-72 *)
Definition to_frame (all_rows : list ipo_row) : list frame_row :=
  drop_duplicates []
    (dropna (combine all_rows (to_datetime (map IPODate all_rows)))).

(** Lines 49-72; [today_year] and [today_month] are what
    [dt.date.today()] gives. *)
Definition fetch_nasdaq_ipo_range (start_year : Z)
    (end_year end_month : option Z) (refresh : bool) (cache_dir : string)
    (today_year today_month : Z) (st : state)
  : result (list frame_row) * state :=
  let y := int_or end_year today_year in
  let m := int_or end_month today_month in
  match years_loop (py_range start_year (y + 1)) y m refresh cache_dir
          [] st with
  | (Raised e, st') => (Raised e, st')
  | (Returned all_rows, st') => (Returned (to_frame all_rows), st')
  end.

End Calendar.

(** A document of the shape line 37 reads, with the given rows. *)
Definition document (priced : list json) : json :=
  JObj [("data", JObj [("priced", JObj [("rows", JArr priced)])])].

End IpoNasdaq.

(* ================================================================== *)
(** * A scripted IPO calendar *)

(** A stateless server that has a calendar for January 2020 and answers
    every other request with an HTTP error, and a codec that knows the
    two documents used here. *)
Module Calendar.
Import Json IpoNasdaq.

Definition world := unit.

Definition row (sym date comp : string) : json :=
  JObj [("symbol", JStr sym); ("priced", JStr date);
        ("companyName", JStr comp)].

Definition january_rows : list json :=
  [ row " abcd " "01/15/2020" "Abcd Corp ";
    JObj [("proposedTickerSymbol", JStr "efgh");
          ("date", JStr "01/22/2020")];
    row "abcd" "01/15/2020" "Abcd Corp" ].

Definition january : json :=
  document (january_rows ++ JNum 7 :: [row "late" "01/30/2020" "Late Inc"]).

Definition january_text : string := "january-2020".

Definition get_json (w : world) (url : string) : result json * world :=
  if (url =? month_url 2020 1)%string then (Returned january, w)
  else (Raised "HTTPError", w).

Definition dumps (j : json) : string :=
  match j with
  | JObj (_ :: _) => january_text
  | _ => "null"
  end.

Definition loads (s : string) : result json :=
  if (s =? january_text)%string then Returned january
  else if (s =? "null")%string then Returned JNull
  else Raised "JSONDecodeError".

Definition to_datetime (col : list string) : list (option date) :=
  map (fun s => if (s =? "01/15/2020")%string then Some 737439
                else if (s =? "01/22/2020")%string then Some 737446
                else None) col.

Definition no_files : FileCache.files := fun _ => None.

Definition start : state world := mkState world no_files (tt, []) [].

(** The state after January 2020 was fetched from the server once. *)
Definition after_january : state world :=
  mkState world
    (FileCache.write_text no_files (cache_file "data/cache" 2020 1)
       january_text)
    (tt, [month_url 2020 1]) [Sleep (1 # 2)].

Definition january_frame : list frame_row :=
  [("ABCD", 737439, "Abcd Corp"); ("EFGH", 737446, EmptyString)].

End Calendar.

(* ================================================================== *)
(** * Observations on the IPO calendar *)

Module IpoObserve.
Import PyStr IpoNasdaq.

(** What line 42 and the [strip] and [upper] calls of lines 39-41 give
    for a row that is appended. *)
Definition clean_row (r : ipo_row) : Prop :=
  PyStr.truthy (Symbol r) = true /\ upper (strip (Symbol r)) = Symbol r /\
  PyStr.truthy (IPODate r) = true /\ strip (IPODate r) = IPODate r /\
  strip (Company r) = Company r.

(** The months the inner loop of lines 61-66 reaches in [year] before
    its [break]. *)
Fixpoint until_break (year y m : Z) (months : list Z) : list Z :=
  match months with
  | [] => []
  | month :: rest =>
      if (year =? y) && (m <? month) then []
      else month :: until_break year y m rest
  end.

(** The (year, month) pairs the loops of lines 60-66 go through, in
    order, when no call raises. *)
Definition months_asked (start_year y m : Z) : list (Z * Z) :=
  flat_map
    (fun year => map (pair year) (until_break year y m (py_range 1 13)))
    (py_range start_year (y + 1)).

(** The URLs requested so far. *)
Definition requests {World} (st : state World) : list string :=
  snd (net World st).

End IpoObserve.

(* ================================================================== *)
(** * cli.py: the merged table (lines 186-215) *)

Module CliMerge.

(** A row of [symbols_df] after step 2; [ListedCurrently] is [True] in
    every row (line 81). *)
Record listing := mkListing {
  lSymbol : string;
  lSecurityName : option string;
  lExchange : option string;
  lCIK : option string
}.

(** A row of [merged]. *)
Record merged_row := mkMerged {
  Symbol : string;
  SecurityName : option string;
  Exchange : option string;
  CIK : option string;
  ListedCurrently : bool;
  EarliestVendorDate : option date;
  IPODate : option date
}.

Definition listed_row (l : listing) (vendor : option date) : merged_row :=
  mkMerged (lSymbol l) (lSecurityName l) (lExchange l) (lCIK l) true
    vendor None.

(** Line 186: [symbols_df.merge(earliest_df, on="Symbol", how="left")] *)
Definition merge_vendor (symbols_df : list listing)
    (earliest_df : VendorYahoo.table) : list merged_row :=
  flat_map
    (fun l =>
       match filter (fun v => (fst v =? lSymbol l)%string) earliest_df with
       | [] => [listed_row l None]
       | ms => map (fun v => listed_row l (Some (snd v))) ms
       end)
    symbols_df.

Definition set_ipo (r : merged_row) (d : option date) : merged_row :=
  mkMerged (Symbol r) (SecurityName r) (Exchange r) (CIK r)
    (ListedCurrently r) (EarliestVendorDate r) d.

Definition ipo_symbol (i : IpoNasdaq.frame_row) : string := fst (fst i).
Definition ipo_date (i : IpoNasdaq.frame_row) : date := snd (fst i).
Definition ipo_company (i : IpoNasdaq.frame_row) : string := snd i.

(** [df.drop_duplicates("Symbol")] on rows of the IPO frame: a row is
    kept unless an earlier row has its symbol. *)
Fixpoint first_per_symbol (seen : list string)
    (rows : list IpoNasdaq.frame_row) : list IpoNasdaq.frame_row :=
  match rows with
  | [] => []
  | i :: rest =>
      if existsb (String.eqb (ipo_symbol i)) seen
      then first_per_symbol seen rest
      else i :: first_per_symbol (ipo_symbol i :: seen) rest
  end.

(** Line 202 *)
Definition add_ipo_dates (merged : list merged_row)
    (ipo_df : list IpoNasdaq.frame_row) : list merged_row :=
  let firsts := first_per_symbol [] ipo_df in
  flat_map
    (fun r =>
       match filter (fun i => (ipo_symbol i =? Symbol r)%string) firsts with
       | [] => [set_ipo r None]
       | ms => map (fun i => set_ipo r (Some (ipo_date i))) ms
       end)
    merged.

(** Lines 205-211: the rows for IPO symbols that [merged] does not have. *)
Definition ipo_only (merged : list merged_row)
    (ipo_df : list IpoNasdaq.frame_row) : list merged_row :=
  map
    (fun i =>
       mkMerged (ipo_symbol i) (Some (ipo_company i)) None None false None
         (Some (ipo_date i)))
    (first_per_symbol []
       (filter
          (fun i =>
             negb (existsb (String.eqb (ipo_symbol i)) (map Symbol merged)))
          ipo_df)).

(** Lines 192-215: [ipo] is what [fetch_nasdaq_ipo_range] gave; when it
    raised, [merged] stays as it was. *)
Definition enrich (merged : list merged_row)
    (ipo : result (list IpoNasdaq.frame_row)) : list merged_row :=
  match ipo with
  | Raised _ => merged
  | Returned ipo_df =>
      let merged1 := add_ipo_dates merged ipo_df in
      (merged1 ++ ipo_only merged1 ipo_df)%list
  end.

(** The first date a table gives for a symbol. *)
Definition date_in (t : VendorYahoo.table) (s : string) : option date :=
  PyDict.get s t.

End CliMerge.

(* ================================================================== *)
(** * sources.py: the screener fallback *)

Module Sources.
Import PyStr Json FileCache.

Local Notation "x <- r ;; k" := (IpoNasdaq.bind r (fun x => k))
  (at level 61, r at next level, right associativity).

(** [sub in s] *)
Fixpoint has (sub s : string) : bool :=
  String.prefix sub s ||
  match s with
  | EmptyString => false
  | String _ r => has sub r
  end.

(** Lines 236-240 *)
Definition excl_terms : list string :=
  ["WARRANT"; "WARRANTS"; "WTS"; "WARRANT UNIT"; "UNIT"; "UNITS";
   "RIGHT"; "RIGHTS"; "PREFERRED"; "PFD"; "DEPOSITARY SHARE";
   "DEPOSITARY SHS"; "NOTE"; "NOTES"; "BOND"; "BONDS"; "DEBENTURE";
   "DEBENTURES"; "TRUST PREFERRED"].

(** Line 232 *)
Definition etf_name (nm : string) : bool :=
  has " ETF" nm || endswith nm "ETF" || has " ETN" nm || endswith nm "ETN".

(** Line 236 *)
Definition excluded_name (nm : string) : bool :=
  existsb (fun x => has x nm) excl_terms.

Record rec := mkRec {
  Symbol : string;
  SecurityName : string;
  Exchange : string
}.

(** Lines 226-242, the body of the loop: the record appended, if any. *)
Definition rec_of (include_etf common_only : bool) (ex_name : string)
    (row : json) : result (option rec) :=
  s <- IpoNasdaq.first_true row ["symbol"; "Symbol"] ;;
  s <- text s ;;
  let sym := upper (strip s) in
  n <- IpoNasdaq.first_true row ["name"; "companyName"; "securityName"] ;;
  n <- text n ;;
  let name := strip n in
  Returned
    (if negb (PyStr.truthy sym) then None
     else if negb include_etf && etf_name (upper name) then None
     else if common_only && excluded_name (upper name) then None
     else Some (mkRec sym name ex_name)).

(** Lines 224-242: an exception in a row leaves the function. *)
Fixpoint recs_loop (include_etf common_only : bool) (ex_name : string)
    (rows : list json) (recs : list rec) : result (list rec) :=
  match rows with
  | [] => Returned recs
  | row :: rest =>
      o <- rec_of include_etf common_only ex_name row ;;
      recs_loop include_etf common_only ex_name rest
        (match o with Some r => (recs ++ [r])%list | None => recs end)
  end.

(** Lines 208-221: the rows of either known shape; the inner [try] only
    prints. *)
Definition rows_of (j : json) : json :=
  match
    (data <- get j "data" (JObj []) ;;
     r1 <- get data "rows" JNull ;;
     if truthy r1 then Returned r1
     else
       table <- get data "table" (JObj []) ;;
       r2 <- get table "rows" JNull ;;
       Returned (py_or r2 (JArr [])))
  with
  | Raised _ => JArr []
  | Returned rows => rows
  end.

(** Line 192 *)
Definition exchanges : list (string * string) :=
  [("nasdaq", "NASDAQ"); ("nyse", "NYSE"); ("amex", "AMEX")].

(** Line 200 *)
Definition screener_url (ex_param : string) : string :=
  "https://api.nasdaq.com/api/screener/stocks?tableonly=true&limit=20000&exchange="
  ++ ex_param.

(** Line 207 *)
Definition screener_file (cache_dir ex_param : string) : string :=
  cache_dir ++ "/screener_" ++ ex_param ++ ".json".

(** [df.drop_duplicates("Symbol")] *)
Fixpoint drop_duplicates (seen : list string) (rows : list rec) : list rec :=
  match rows with
  | [] => []
  | r :: rest =>
      if existsb (String.eqb (Symbol r)) seen then drop_duplicates seen rest
      else r :: drop_duplicates (Symbol r :: seen) rest
  end.

Section Screener.
Variable World : Type.
Variable loads : string -> result json.
Variable dumps : json -> string.
Variable get_json : World -> string -> result json * World.

(** Lines 202-205 *)
Definition fetch (url : string) (w : IpoNasdaq.web World)
  : result json * IpoNasdaq.web World :=
  let (r, w') := get_json (fst w) url in
  (r, (w', (snd w ++ [url])%list)).

(** Lines 198-244 *)
Fixpoint exchanges_loop (exs : list (string * string))
    (include_etf common_only refresh : bool) (cache_dir : string)
    (frames : list (list rec)) (fs : files) (w : IpoNasdaq.web World)
  : result (list (list rec)) * files * IpoNasdaq.web World :=
  match exs with
  | [] => (Returned frames, fs, w)
  | (ex_param, ex_name) :: rest =>
      let url := screener_url ex_param in
      let '(r, fs', w') :=
        read_json_cached (IpoNasdaq.web World) loads dumps
          (screener_file cache_dir ex_param) refresh (Some (fetch url))
          fs w in
      match r with
      | Raised e => (Raised e, fs', w')
      | Returned j =>
          let rows := rows_of j in
          if negb (truthy rows) then
            exchanges_loop rest include_etf common_only refresh cache_dir
              frames fs' w'
          else
            match
              (items <- iterate rows ;;
               recs_loop include_etf common_only ex_name items [])
            with
            | Raised e => (Raised e, fs', w')
            | Returned recs =>
                exchanges_loop rest include_etf common_only refresh
                  cache_dir
                  (match recs with
                   | [] => frames
                   | _ => (frames ++ [recs])%list
                   end)
                  fs' w'
            end
      end
  end.

(** Lines 186-250 *)
Definition load_nasdaq_screener (include_etf common_only refresh : bool)
    (cache_dir : string) (fs : files) (w : IpoNasdaq.web World)
  : result (list rec) * files * IpoNasdaq.web World :=
  let '(r, fs', w') :=
    exchanges_loop exchanges include_etf common_only refresh cache_dir []
      fs w in
  match r with
  | Raised e => (Raised e, fs', w')
  | Returned [] => (Raised "RuntimeError", fs', w')
  | Returned frames =>
      (Returned (drop_duplicates [] (List.concat frames)), fs', w')
  end.

(** cli.py, line 74: the call of the fallback, with the flags
    [--exclude-etf] and [--common-only]. *)
Definition screener_fallback (exclude_etf common_only refresh : bool)
    (cache_dir : string) (fs : files) (w : IpoNasdaq.web World)
  : result (list rec) * files * IpoNasdaq.web World :=
  load_nasdaq_screener (negb exclude_etf) (negb common_only) refresh
    cache_dir fs w.

End Screener.

(** The exclusion terms that contain no other exclusion term. *)
Definition core_terms : list string :=
  ["WARRANT"; "WTS"; "UNIT"; "RIGHT"; "PREFERRED"; "PFD";
   "DEPOSITARY SHARE"; "DEPOSITARY SHS"; "NOTE"; "BOND"; "DEBENTURE"].

End Sources.

(* ================================================================== *)
(** * Observations on the screener fallback *)

Module SourcesObserve.
Import PyStr Sources.

(** A record as lines 226-242 append it for the given arguments, with an
    exchange name among [allowed]. *)
Definition good (include_etf common_only : bool) (allowed : list string)
    (r : rec) : Prop :=
  Symbol r <> EmptyString /\ upper (strip (Symbol r)) = Symbol r /\
  strip (SecurityName r) = SecurityName r /\
  In (Exchange r) allowed /\
  (include_etf = false -> etf_name (upper (SecurityName r)) = false) /\
  (common_only = true -> excluded_name (upper (SecurityName r)) = false).

End SourcesObserve.

(* ================================================================== *)
(** * A cached screener *)

(** Cache files that list three securities on NASDAQ, two on NYSE (one
    of them also on NASDAQ) and nothing on AMEX, and a server that is
    down. *)
Module Screens.
Import Json Sources.

Definition security (sym name : string) : json :=
  JObj [("symbol", JStr sym); ("name", JStr name)].

Definition nasdaq : json :=
  JObj [("data", JObj [("rows",
    JArr [security "aapl" "Apple Inc. Common Stock";
          security "ual" "United Airlines Holdings";
          security "qqq" "Invesco QQQ ETF"])])].

Definition nyse : json :=
  JObj [("data", JObj [("table", JObj [("rows",
    JArr [security "AAPL" "Apple Inc.";
          security "IBM" "International Business Machines"])])])].

Definition amex : json := JObj [("data", JNull)].

Definition get_json (w : unit) (url : string) : result json * unit :=
  (Raised "ConnectionError", w).

Definition loads (s : string) : result json :=
  if (s =? "nasdaq rows")%string then Returned nasdaq
  else if (s =? "nyse rows")%string then Returned nyse
  else if (s =? "amex rows")%string then Returned amex
  else Raised "JSONDecodeError".

Definition dumps (j : json) : string := "null".

Definition cached : FileCache.files :=
  fun p =>
    if (p =? screener_file "data/cache" "nasdaq")%string
    then Some "nasdaq rows"
    else if (p =? screener_file "data/cache" "nyse")%string
    then Some "nyse rows"
    else if (p =? screener_file "data/cache" "amex")%string
    then Some "amex rows"
    else None.

Definition offline : IpoNasdaq.web unit := (tt, []).

End Screens.

(* ================================================================== *)
(** * Properties of the string operations *)

Module PyStrFacts.
Import PyStr.

Ltac by_cases_on_char c :=
  destruct c as [[] [] [] [] [] [] [] []]; vm_compute; reflexivity.

Lemma isspace_upper_char (c : ascii) : isspace (upper_char c) = isspace c.
Proof. by_cases_on_char c. Qed.

Lemma upper_char_idem (c : ascii) : upper_char (upper_char c) = upper_char c.
Proof. by_cases_on_char c. Qed.

Lemma caret_upper_char (c : ascii) :
  Ascii.eqb "^" (upper_char c) = Ascii.eqb "^" c.
Proof. by_cases_on_char c. Qed.

Lemma upper_idem (s : string) : upper (upper s) = upper s.
Proof.
  induction s as [|c r IH]; simpl; [reflexivity|].
  now rewrite upper_char_idem, IH.
Qed.

Lemma lstrip_upper (s : string) : lstrip (upper s) = upper (lstrip s).
Proof.
  induction s as [|c r IH]; simpl; [reflexivity|].
  rewrite isspace_upper_char. destruct (isspace c); [exact IH | reflexivity].
Qed.

Lemma rstrip_upper (s : string) : rstrip (upper s) = upper (rstrip s).
Proof.
  induction s as [|c r IH]; simpl; [reflexivity|].
  rewrite IH, isspace_upper_char.
  destruct (rstrip r); simpl; [destruct (isspace c)|]; reflexivity.
Qed.

Lemma strip_upper (s : string) : strip (upper s) = upper (strip s).
Proof. unfold strip. now rewrite lstrip_upper, rstrip_upper. Qed.

Lemma rstrip_idem (s : string) : rstrip (rstrip s) = rstrip s.
Proof.
  induction s as [|c r IH]; simpl; [reflexivity|].
  destruct (rstrip r) as [|c' r'] eqn:E.
  - destruct (isspace c) eqn:Ec; simpl; [reflexivity | now rewrite Ec].
  - simpl in *. now rewrite IH.
Qed.

Lemma lstrip_starts_clean (s : string) : starts_clean (lstrip s).
Proof.
  induction s as [|c r IH]; simpl; [exact I|].
  destruct (isspace c) eqn:E; [exact IH | exact E].
Qed.

Lemma lstrip_clean (s : string) : starts_clean s -> lstrip s = s.
Proof. destruct s; simpl; [reflexivity|]. now intros ->. Qed.

Lemma rstrip_starts_clean (s : string) :
  starts_clean s -> starts_clean (rstrip s).
Proof.
  destruct s as [|c r]; simpl; [exact id|]. intros E.
  destruct (rstrip r); [rewrite E|]; exact E.
Qed.

Lemma strip_idem (s : string) : strip (strip s) = strip s.
Proof.
  unfold strip.
  rewrite (lstrip_clean (rstrip (lstrip s))).
  - apply rstrip_idem.
  - apply rstrip_starts_clean, lstrip_starts_clean.
Qed.

(** The normal form of a ticker is a fixed point of normalisation. *)
Lemma upper_strip_idem (s : string) :
  upper (strip (upper (strip s))) = upper (strip s).
Proof. now rewrite strip_upper, strip_idem, upper_idem. Qed.

Lemma contains_caret_upper (s : string) :
  contains "^" (upper s) = contains "^" s.
Proof.
  induction s as [|c r IH]; cbn [contains upper]; [reflexivity|].
  now rewrite caret_upper_char, IH.
Qed.

Lemma split_caret_upper (s : string) :
  split_once "^" (upper s) =
  (upper (fst (split_once "^" s)), upper (snd (split_once "^" s))).
Proof.
  induction s as [|c r IH]; cbn [split_once upper fst snd]; [reflexivity|].
  rewrite caret_upper_char.
  destruct (Ascii.eqb "^" c); [reflexivity|].
  rewrite IH. now destruct (split_once "^" r).
Qed.

Lemma replace_comm (a b x : ascii) (s : string) :
  replace a x (replace b x s) = replace b x (replace a x s).
Proof.
  induction s as [|c r IH]; simpl; [reflexivity|].
  rewrite IH. f_equal.
  destruct (Ascii.eqb_spec c a), (Ascii.eqb_spec c b); subst;
    repeat match goal with
      | |- context [Ascii.eqb ?u ?v] => destruct (Ascii.eqb_spec u v)
      end; congruence.
Qed.
End PyStrFacts.

(* ================================================================== *)
(** * The notation adapter *)

Module NormalizeFacts.
Import PyStr PyStrFacts Normalize.

Lemma suffix_loop_spec (s : string) (sufs : list string) :
  suffix_loop s sufs =
  if existsb (endswith s) sufs
  then Some (slashes_and_dots_to_hyphen s) else None.
Proof.
  induction sufs as [|suf rest IH]; simpl; [reflexivity|].
  destruct (endswith s suf); [reflexivity | exact IH].
Qed.

(** On a ticker in normal form the code computes the three rules. *)
Lemma to_yahoo_symbol_rules (symbol : string) :
  to_yahoo_symbol symbol = toVendorForm (upper (strip symbol)).
Proof.
  unfold to_yahoo_symbol, toVendorForm.
  set (s := strip symbol).
  destruct (contains "^" (upper s)).
  - rewrite split_caret_upper.
    destruct (split_once "^" s) as [b t]; simpl.
    rewrite upper_idem.
    destruct (strip (upper t)); reflexivity.
  - rewrite suffix_loop_spec.
    destruct (existsb (endswith (upper s)) unit_suffixes); reflexivity.
Qed.
End NormalizeFacts.

(** C9. [to_yahoo_symbol] is a total function that applies the three
    rules of the specification, in their order, to the stripped and
    uppercased ticker (the ticker itself when it is already in that
    form): caret to ["-P"] and suffix, or the base alone for an empty
    suffix; else a unit/right/warrant ending gets every slash and dot
    replaced by a hyphen; else every dot and slash is replaced.  It maps
    BRK.B to BRK-B, NLY^F to NLY-PF and ABC/WS to ABC-WS. *)
Theorem C9_to_yahoo_symbol_rules :
  (forall ticker : string,
      Normalize.to_yahoo_symbol ticker
      = Normalize.toVendorForm (PyStr.upper (PyStr.strip ticker)))
  /\ (forall ticker : string,
      PyStr.upper (PyStr.strip ticker) = ticker ->
      Normalize.to_yahoo_symbol ticker = Normalize.toVendorForm ticker)
  /\ Normalize.to_yahoo_symbol "BRK.B" = "BRK-B"
  /\ Normalize.to_yahoo_symbol "NLY^F" = "NLY-PF"
  /\ Normalize.to_yahoo_symbol "ABC/WS" = "ABC-WS".
Proof.
  split; [exact NormalizeFacts.to_yahoo_symbol_rules|].
  split; [|repeat split; reflexivity].
  intros ticker H. rewrite NormalizeFacts.to_yahoo_symbol_rules. now rewrite H.
Qed.

(* ================================================================== *)
(** * Dictionaries *)

Module PyDictFacts.
Import PyDict.

Section Facts.
Context {V : Type}.
Implicit Types (d : dict V) (k : string) (v : V).


Lemma get_set_other k k' v d : k <> k' -> get k' (set k v d) = get k' d.
Proof.
  intros N. induction d as [|[k0 v0] r IH]; simpl.
  - destruct (String.eqb_spec k k'); [contradiction | reflexivity].
  - destruct (String.eqb_spec k0 k) as [->|N0]; simpl.
    + destruct (String.eqb_spec k k'); [contradiction | reflexivity].
    + destruct (String.eqb_spec k0 k'); [reflexivity | exact IH].
Qed.

Lemma mem_In_keys k d : mem k d = true <-> In k (keys d).
Proof.
  unfold mem, keys. induction d as [|[k' v'] r IH]; simpl.
  - split; [discriminate | contradiction].
  - destruct (String.eqb_spec k' k) as [->|N].
    + split; auto.
    + rewrite IH. split; [auto | intros [E|H]; [contradiction | exact H]].
Qed.

Lemma mem_false_keys k d : mem k d = false <-> ~ In k (keys d).
Proof.
  rewrite <- mem_In_keys. destruct (mem k d); split; congruence.
Qed.

Lemma get_Some_In_keys k v d : get k d = Some v -> In k (keys d).
Proof.
  intros H. apply mem_In_keys. unfold mem. now rewrite H.
Qed.

Lemma get_In k v d : get k d = Some v -> In (k, v) d.
Proof.
  induction d as [|[k' v'] r IH]; simpl; [discriminate|].
  destruct (String.eqb_spec k' k) as [->|N].
  - intros [= ->]. now left.
  - intros H. right. now apply IH.
Qed.

Lemma In_get k v d : NoDup (keys d) -> In (k, v) d -> get k d = Some v.
Proof.
  unfold keys. induction d as [|[k' v'] r IH]; simpl; [contradiction|].
  intros ND [E|H].
  - injection E as -> ->. now rewrite String.eqb_refl.
  - inversion ND as [|? ? NI ND']; subst.
    destruct (String.eqb_spec k' k) as [->|N].
    + exfalso. apply NI. change k with (fst (k, v)). now apply in_map.
    + now apply IH.
Qed.

Lemma keys_set k v d :
  keys (set k v d) = if mem k d then keys d else (keys d ++ [k])%list.
Proof.
  unfold mem, keys. induction d as [|[k' v'] r IH]; simpl; [reflexivity|].
  destruct (String.eqb_spec k' k) as [->|N]; simpl; [reflexivity|].
  rewrite IH. now destruct (get k r).
Qed.

Lemma In_keys_set k k' v d :
  In k' (keys (set k v d)) <-> k' = k \/ In k' (keys d).
Proof.
  rewrite keys_set. destruct (mem k d) eqn:M.
  - apply mem_In_keys in M. split; [auto | intros [->|H]; assumption].
  - rewrite in_app_iff. simpl. intuition.
Qed.

Lemma NoDup_keys_set k v d : NoDup (keys d) -> NoDup (keys (set k v d)).
Proof.
  intros ND. rewrite keys_set. destruct (mem k d) eqn:M; [exact ND|].
  apply mem_false_keys in M.
  apply NoDup_app; [exact ND | repeat constructor; intros [] | ].
  intros x Hx [<-|[]]. contradiction.
Qed.

End Facts.

(** Folding assignments over a list of rows: keys stay distinct, and a
    key that no row assigns keeps its value. *)
Section Folds.
Context {A V : Type}.
Variable key : A -> string.
Variable val : A -> V.

Let assign (m : dict V) (a : A) : dict V := set (key a) (val a) m.

Lemma NoDup_keys_fold (l : list A) (m : dict V) :
  NoDup (keys m) -> NoDup (keys (fold_left assign l m)).
Proof.
  revert m. induction l as [|a r IH]; simpl; intros m ND; [exact ND|].
  apply IH. now apply NoDup_keys_set.
Qed.

Lemma get_fold_untouched (l : list A) (m : dict V) (k : string) :
  ~ In k (map key l) -> get k (fold_left assign l m) = get k m.
Proof.
  revert m. induction l as [|a r IH]; simpl; intros m NI; [reflexivity|].
  rewrite IH by tauto. apply get_set_other. tauto.
Qed.

Lemma In_keys_fold (l : list A) (m : dict V) (k : string) :
  In k (keys (fold_left assign l m)) <-> In k (map key l) \/ In k (keys m).
Proof.
  revert m. induction l as [|a r IH]; simpl; intros m; [tauto|].
  rewrite IH. unfold assign. rewrite In_keys_set. intuition.
Qed.

(** Rows with distinct keys are copied as they are. *)
Lemma fold_assign_NoDup (l : list A) (m : dict V) :
  NoDup (map key l) ->
  (forall a, In a l -> ~ In (key a) (keys m)) ->
  fold_left assign l m = (m ++ map (fun a => (key a, val a)) l)%list.
Proof.
  revert m. induction l as [|a r IH]; simpl; intros m ND NI.
  - now rewrite app_nil_r.
  - inversion ND as [|? ? Ha ND']; subst.
    assert (E : assign m a = (m ++ [(key a, val a)])%list).
    { unfold assign. specialize (NI a (or_introl eq_refl)).
      clear - NI. induction m as [|[k' v'] m IH]; simpl; [reflexivity|].
      simpl in NI. destruct (String.eqb_spec k' (key a)); [tauto|].
      f_equal. apply IH. tauto. }
    rewrite IH; [| exact ND' |].
    + rewrite E, <- app_assoc. reflexivity.
    + intros b Hb. rewrite E. unfold keys. rewrite map_app, in_app_iff. simpl.
      intros [H|[H|[]]].
      * apply (NI b); [now right | exact H].
      * apply Ha. rewrite H. now apply in_map.
Qed.
End Folds.

End PyDictFacts.

(* ================================================================== *)
(** * The resolver: normalisation of its input *)

Module NormalizeTickersFacts.
Import PyStr PyDict PyDictFacts VendorYahoo.





Lemma NoDup_fromkeys (l : list string) : NoDup (fromkeys l).
Proof.
  unfold fromkeys.
  apply (NoDup_keys_fold (fun k : string => k) (fun _ => tt)). constructor.
Qed.

Lemma In_fromkeys (l : list string) (s : string) :
  In s (fromkeys l) <-> In s l.
Proof.
  unfold fromkeys.
  rewrite (In_keys_fold (fun k : string => k) (fun _ => tt)).
  rewrite map_id. simpl. tauto.
Qed.

(** Line 25 keeps the non-empty strings and normalises each. *)
Lemma clean_tickers_map (tickers : list pyobj) :
  clean_tickers tickers
  = map (fun s => upper (strip s)) (nonempty_strings tickers).
Proof.
  induction tickers as [|t r IH]; simpl; [reflexivity|].
  destruct t as [[|c s]|b]; simpl; now rewrite IH.
Qed.

Lemma In_nonempty_strings (tickers : list pyobj) (e : string) :
  In e (nonempty_strings tickers) <-> In (PyStr e) tickers /\ e <> EmptyString.
Proof.
  induction tickers as [|t r IH]; simpl; [tauto|].
  destruct t as [[|c s]|b]; simpl; rewrite IH.
  - split; [tauto | intros [[H|H] N]; [congruence | tauto]].
  - split.
    + intros [<-|[H N]]; [split; [auto | discriminate] | tauto].
    + intros [[H|H] N]; [left; congruence | tauto].
  - split; [tauto | intros [[H|H] N]; [discriminate | tauto]].
Qed.

Lemma In_normalize_tickers (tickers : list pyobj) (s : string) :
  In s (normalize_tickers tickers) <->
  exists e, In (PyStr e) tickers /\ e <> EmptyString /\ s = upper (strip e).
Proof.
  unfold normalize_tickers.
  rewrite In_fromkeys, clean_tickers_map, in_map_iff.
  split.
  - intros (e & <- & H). apply In_nonempty_strings in H. now exists e.
  - intros (e & H & N & ->). exists e. split; [reflexivity|].
    now apply In_nonempty_strings.
Qed.

End NormalizeTickersFacts.

(* ================================================================== *)
(** * The resolver: what it returns *)

Module ResolverFacts.
Import PyStr PyDict PyDictFacts VendorYahoo NormalizeTickersFacts.

Lemma keys_within_set {V} (allowed : list string) (k : string) (v : V)
    (d : dict V) :
  In k allowed -> keys_within allowed d -> keys_within allowed (set k v d).
Proof.
  intros Hk [ND Hin]. split; [now apply NoDup_keys_set|].
  intros x Hx. apply In_keys_set in Hx. destruct Hx as [->|Hx]; auto.
Qed.

Lemma keys_within_nil {V} (allowed : list string) :
  keys_within allowed (@nil (string * V)).
Proof. split; [constructor | intros x []]. Qed.

Lemma In_firstn {A} (n : nat) (l : list A) (x : A) :
  In x (firstn n l) -> In x l.
Proof.
  revert l. induction n as [|n IH]; intros [|a l]; simpl; try tauto.
  intros [H|H]; [now left | right; now apply IH].
Qed.

Lemma In_skipn {A} (n : nat) (l : list A) (x : A) :
  In x (skipn n l) -> In x l.
Proof.
  revert l. induction n as [|n IH]; intros [|a l]; simpl; try tauto.
  intros H. right. now apply IH.
Qed.

Lemma slice_incl {A} (l : list A) (i : nat) (size : Z) : incl (slice l i size) l.
Proof.
  unfold slice. intros x Hx.
  apply In_firstn in Hx. now apply In_skipn in Hx.
Qed.

Section Vendor.
Variable World : Type.
Variable download : World -> list string -> outcome frame * World.
Variable download_one : World -> string -> outcome closes * World.
Variable allowed : list string.

Lemma take_multi_within cols pairs results :
  (forall p, In p pairs -> In (fst p) allowed) ->
  keys_within allowed results ->
  keys_within allowed (take_multi cols pairs results).
Proof.
  revert results. induction pairs as [|[orig ysym] r IH]; simpl; intros results Hp K.
  - exact K.
  - apply IH; [intros p Hin; apply Hp; now right|].
    destruct (get ysym cols) as [c|]; [|exact K].
    destruct (first_valid c); [|exact K].
    apply keys_within_set; [|exact K]. apply (Hp (orig, ysym)). now left.
Qed.

Lemma take_frame_within df batch ybatch results :
  incl batch allowed ->
  keys_within allowed results ->
  keys_within allowed (take_frame df batch ybatch results).
Proof.
  intros Hb K. destruct df as [[cols|c]|]; simpl; [| |exact K].
  - apply take_multi_within; [|exact K].
    intros [o y] Hin. apply Hb. simpl. eapply in_combine_l; eauto.
  - destruct batch as [|t [|t' r]]; try exact K.
    destruct (first_valid c); [|exact K].
    apply keys_within_set; [|exact K]. apply Hb. now left.
Qed.

Lemma single_fetch_within pause t ysym remaining attempt_i results st :
  In t allowed ->
  keys_within allowed results ->
  on_return (keys_within allowed)
    (fst (single_fetch World download_one pause t ysym remaining attempt_i
            results st)).
Proof.
  intros Ht. revert attempt_i st.
  induction remaining as [|n IH]; simpl; intros attempt_i st K; [exact K|].
  destruct (mem t results); [exact K|].
  unfold call_download_one.
  destruct (download_one (world World st) ysym) as [[c| |] w]; simpl.
  - destruct (first_valid c); simpl; [now apply keys_within_set | exact K].
  - destruct (backoff pause attempt_i); [now apply IH | exact I].
  - exact K.
Qed.

Lemma fallback_within pause max_retries missing results st :
  incl missing allowed ->
  keys_within allowed results ->
  on_return (keys_within allowed)
    (fst (fallback World download_one pause max_retries missing results st)).
Proof.
  revert results st.
  induction missing as [|t r IH]; simpl; intros results st Hm K; [exact K|].
  pose proof (single_fetch_within pause t (Normalize.to_yahoo_symbol t)
                (Z.to_nat (max_retries + 1)) 0 results st
                (Hm t (or_introl eq_refl)) K) as K1.
  destruct (single_fetch World download_one pause t
              (Normalize.to_yahoo_symbol t) (Z.to_nat (max_retries + 1)) 0
              results st) as [[results1|e] st1]; [|exact I].
  apply IH; [intros x Hx; apply Hm; now right | exact K1].
Qed.

Lemma process_batch_within pause max_retries batch results st :
  incl batch allowed ->
  keys_within allowed results ->
  on_return (keys_within allowed)
    (fst (process_batch World download download_one pause max_retries batch
            results st)).
Proof.
  intros Hb K. unfold process_batch.
  destruct (batch_fetch World download pause
              (map Normalize.to_yahoo_symbol batch)
              (Z.to_nat (max_retries + 1)) 0 st) as [[df|e] st1]; [|exact I].
  set (results1 := take_frame df batch (map Normalize.to_yahoo_symbol batch) results).
  assert (K1 : keys_within allowed results1)
    by (now apply take_frame_within).
  set (missing := filter (fun t => negb (mem t results1)) batch).
  assert (Hm : incl missing allowed).
  { intros x Hx. apply Hb. unfold missing in Hx. now apply filter_In in Hx. }
  pose proof (fallback_within pause max_retries missing results1 st1 Hm K1) as K2.
  destruct (fallback World download_one pause max_retries missing results1 st1)
    as [[results2|e] st2]; [exact K2 | exact I].
Qed.

Lemma batches_loop_within pause max_retries batches results st :
  (forall b, In b batches -> incl b allowed) ->
  keys_within allowed results ->
  on_return (keys_within allowed)
    (fst (batches_loop World download download_one pause max_retries batches
            results st)).
Proof.
  revert results st.
  induction batches as [|b r IH]; simpl; intros results st Hb K; [exact K|].
  pose proof (process_batch_within pause max_retries b results st
                (Hb b (or_introl eq_refl)) K) as K1.
  destruct (process_batch World download download_one pause max_retries b
              results st) as [[results1|e] st1]; [|exact I].
  apply IH; [intros x Hx; apply Hb; now right | exact K1].
Qed.

(** ** When the loops return *)








End Vendor.

Section Returns.
Variable World : Type.
Variable download : World -> list string -> outcome frame * World.
Variable download_one : World -> string -> outcome closes * World.

(** What the resolver returns has pairwise distinct symbols, all among
    its normalised input. *)
Lemma earliest_vendor_dates_result tickers batch_size pause max_retries st :
  on_return (keys_within (normalize_tickers tickers))
    (fst (earliest_vendor_dates World download download_one tickers
            batch_size pause max_retries st)).
Proof.
  unfold earliest_vendor_dates, py_range0.
  destruct (Z.eqb_spec batch_size 0) as [E|N]; [exact I|].
  destruct (batch_size <? 0).
  - simpl. apply keys_within_nil.
  - apply batches_loop_within; [|apply keys_within_nil].
    intros b Hb. apply in_map_iff in Hb.
    destruct Hb as (i & <- & _). apply slice_incl.
Qed.


(** It raises [ValueError] for a zero batch size, before any call. *)
Lemma earliest_vendor_dates_zero_batch tickers pause max_retries st :
  earliest_vendor_dates World download download_one tickers 0 pause
    max_retries st = (Raised "ValueError", st).
Proof. reflexivity. Qed.

End Returns.
End ResolverFacts.

(** The scripted run of the resolver on [mixed_input]: one grouped
    download, one fallback download for the unknown symbol, and the two
    pauses. *)
Example resolver_run_mixed_input :
  VendorYahoo.earliest_vendor_dates Scripted.world Scripted.download
    Scripted.download_one Scripted.mixed_input 50 1 3
    (Scripted.start Scripted.two_known)
  = (Returned [("AAPL", Scripted.d2000); ("BRK.B", Scripted.d1999)],
     VendorYahoo.mkState Scripted.world ([], [])
       [Download ["AAPL"; "BRK-B"; "ZZZZ"]; DownloadOne "ZZZZ";
        Sleep (1 # 10); Sleep 1]).
Proof. vm_compute. reflexivity. Qed.


Module EntryFacts.
Import VendorYahoo.


Lemma truth_values_all (tickers : list pyobj) :
  truth_values (map HasTruth tickers) = Returned tickers.
Proof.
  induction tickers as [|t r IH]; simpl; [reflexivity | now rewrite IH].
Qed.

End EntryFacts.



(* ================================================================== *)
(** * Resolution through the cache *)

Module CacheFacts.
Import PyStr PyStrFacts PyDict PyDictFacts VendorYahoo NormalizeTickersFacts.
Import ResolverFacts.

Lemma NoDup_keys_load_rows rows cached :
  NoDup (keys cached) -> NoDup (keys (load_rows rows cached)).
Proof.
  revert cached. induction rows as [|[sym cell] r IH]; simpl; intros cached ND.
  - exact ND.
  - destruct cell; [now apply IH | | exact ND].
    apply IH. now apply NoDup_keys_set.
Qed.

Lemma NoDup_keys_load_cache cache_path file force_recheck :
  NoDup (keys (load_cache cache_path file force_recheck)).
Proof.
  unfold load_cache.
  destruct (cache_path && negb force_recheck); [|constructor].
  destruct file as [[| |rows]|]; try constructor.
  apply NoDup_keys_load_rows. constructor.
Qed.

(** With [force_recheck] the cache is not read. *)
Lemma load_cache_forced cache_path file : load_cache cache_path file true = [].
Proof. unfold load_cache. now rewrite andb_false_r. Qed.

Lemma to_fetch_forced tickers cached : to_fetch tickers cached true = tickers.
Proof.
  unfold to_fetch. simpl. induction tickers as [|t r IH]; simpl; congruence.
Qed.

Lemma In_to_fetch tickers cached force_recheck t :
  In t (to_fetch tickers cached force_recheck) <->
  In t tickers /\ (force_recheck = true \/ mem t cached = false).
Proof.
  unfold to_fetch. rewrite filter_In.
  destruct force_recheck, (mem t cached); simpl; intuition congruence.
Qed.

(** The tickers of line 137 are in normal form. *)
Lemma strip_upper_all_normal tickers u :
  In u (strip_upper_all tickers) -> upper (strip u) = u /\ upper u = u.
Proof.
  unfold strip_upper_all. rewrite in_map_iff. intros (t & <- & _).
  split; [apply upper_strip_idem | apply upper_idem].
Qed.

Lemma In_sorted_rows {V} (l : list (string * V)) (x : string * V) :
  In x (sorted_rows l) <-> In x l.
Proof.
  assert (Ins : forall r m, In x (insert_row r m) <-> x = r \/ In x m).
  { intros r m. induction m as [|r' m IH]; simpl; [intuition|].
    destruct (String.leb (fst r) (fst r')); simpl; [intuition|].
    rewrite IH. intuition. }
  unfold sorted_rows. induction l as [|a l IH]; simpl; [tauto|].
  rewrite Ins, IH. intuition.
Qed.

Lemma In_dropna (rows : list (string * option date)) s d :
  In (s, d) (dropna rows) <-> In (s, Some d) rows.
Proof.
  induction rows as [|[s' [d'|]] r IH]; simpl; [tauto| |].
  - rewrite IH. split; (intros [E|H]; [left; congruence | now right]).
  - rewrite IH. split; [now right | intros [E|H]; [discriminate | exact H]].
Qed.

Lemma In_isin tickers (t : table) s d :
  In (s, d) (isin tickers t) <-> In (s, d) t /\ In s tickers.
Proof.
  unfold isin. rewrite filter_In, existsb_exists. simpl.
  split; intros [H1 H2]; split; try exact H1.
  - destruct H2 as (x & Hx & E). apply String.eqb_eq in E. now subst.
  - exists s. split; [exact H2 | apply String.eqb_refl].
Qed.

(** ** The merged map *)

Lemma NoDup_keys_merge_maps cached fetched :
  NoDup (keys (merge_maps cached fetched)).
Proof.
  unfold merge_maps.
  apply (NoDup_keys_fold (fun row : string * date => upper (fst row))
           (fun row => Some (snd row))).
  apply (NoDup_keys_fold (fun sd : string * date => fst sd)
           (fun sd => Some (snd sd))).
  constructor.
Qed.

Lemma get_copy (cached : dict date) k :
  NoDup (keys cached) ->
  get k (fold_left (fun m sd => set (fst sd) (Some (snd sd)) m) cached [])
  = option_map Some (get k cached).
Proof.
  intros ND.
  rewrite (fold_assign_NoDup (fun sd : string * date => fst sd)
             (fun sd => Some (snd sd)) cached [] ND) by (intros a _ []).
  simpl. clear ND.
  induction cached as [|[k' v] r IH]; simpl; [reflexivity|].
  destruct (k' =? k)%string; [reflexivity | exact IH].
Qed.

(** A symbol that no fetched row names keeps its cached date. *)
Lemma get_merge_maps_kept cached fetched k :
  NoDup (keys cached) ->
  ~ In k (map (fun row => upper (fst row)) fetched) ->
  get k (merge_maps cached fetched) = option_map Some (get k cached).
Proof.
  intros ND NI. unfold merge_maps.
  rewrite (get_fold_untouched (fun row : string * date => upper (fst row))
             (fun row => Some (snd row))) by exact NI.
  now apply get_copy.
Qed.

Section Vendor.
Variable World : Type.
Variable download : World -> list string -> outcome frame * World.
Variable download_one : World -> string -> outcome closes * World.

(** The symbols of the fetched rows are symbols that were to be
    fetched, and uppercasing leaves them as they are. *)
Lemma fetch_keys tf batch_size pause max_retries st fetched st' :
  fetch World download download_one tf batch_size pause max_retries st
  = (Returned fetched, st') ->
  (forall u, In u tf -> upper (strip u) = u /\ upper u = u) ->
  forall k, In k (map (fun row => upper (fst row)) fetched) -> In k tf.
Proof.
  intros E Hn k Hk.
  apply in_map_iff in Hk. destruct Hk as ([k0 d0] & <- & Hrow). simpl.
  assert (Hk0 : In k0 tf).
  { unfold fetch in E. destruct tf as [|u0 tf0].
    - injection E as <- _. destruct Hrow.
    - pose proof (earliest_vendor_dates_result World download download_one
                    (map PyStr (u0 :: tf0)) batch_size pause max_retries st)
        as K.
      rewrite E in K. simpl fst in K. destruct K as [_ Hin].
      assert (Hin0 : In k0 (normalize_tickers (map PyStr (u0 :: tf0)))).
      { apply Hin. unfold keys. change k0 with (fst (k0, d0)).
        now apply in_map. }
      apply In_normalize_tickers in Hin0.
      destruct Hin0 as (e & He & _ & ->).
      apply in_map_iff in He. destruct He as (u & [= ->] & Hu).
      now rewrite (proj1 (Hn e Hu)). }
  now rewrite (proj2 (Hn k0 Hk0)).
Qed.

End Vendor.
End CacheFacts.

(** A run on a cache that knows AAPL: only BRK.B is requested from the
    vendor, and the cache file is rewritten with both symbols. *)
Example cached_run_hit_and_miss :
  VendorYahoo.earliest_vendor_dates_with_cache Scripted.world
    Scripted.download Scripted.download_one ["aapl"; "BRK.B"] true
    (Some Scripted.cache_aapl) 50 1 3 false (Scripted.start Scripted.knows_brk)
  = (Returned
       (VendorYahoo.mkRun
          [("AAPL", Scripted.d2000); ("BRK.B", Scripted.d1999)]
          (Some (VendorYahoo.Rows
                   [(Some "AAPL", VendorYahoo.DateText Scripted.d2000);
                    (Some "BRK.B", VendorYahoo.DateText Scripted.d1999)]))),
     VendorYahoo.mkState Scripted.world ([], [])
       [Download ["BRK-B"]; Sleep 1]).
Proof. vm_compute. reflexivity. Qed.

(** C3. Without [force_recheck], a symbol of the loaded cache that is
    among the input tickers is not fetched and is returned with exactly
    its cached date; a returned row carries either the cached date of
    its symbol or belongs to a symbol that was fetched. *)
Theorem C3_cache_hits_keep_cached_date :
  forall (World : Type)
         (download : World -> list string -> outcome frame * World)
         (download_one : World -> string -> outcome closes * World)
         (tickers : list string) (cache_path : bool)
         (file : option VendorYahoo.csv) (batch_size : Z) (pause : Q)
         (max_retries : Z) (st st' : VendorYahoo.state World)
         (r : VendorYahoo.run),
    VendorYahoo.earliest_vendor_dates_with_cache World download download_one
      tickers cache_path file batch_size pause max_retries false st
    = (Returned r, st') ->
    let tickers' := VendorYahoo.strip_upper_all tickers in
    let cached := VendorYahoo.load_cache cache_path file false in
    let fetch_list := VendorYahoo.to_fetch tickers' cached false in
    (forall S d,
        PyDict.get S cached = Some d -> In S tickers' ->
        ~ In S fetch_list
        /\ In (S, d) (VendorYahoo.returned r)
        /\ forall d', In (S, d') (VendorYahoo.returned r) -> d' = d)
    /\ (forall S d',
        In (S, d') (VendorYahoo.returned r) ->
        PyDict.get S cached = Some d' \/ In S fetch_list).
Proof.
  intros World download download_one tickers cache_path file batch_size pause
    max_retries st st' r H tickers' cached fetch_list.
  unfold VendorYahoo.earliest_vendor_dates_with_cache in H.
  fold tickers' cached fetch_list in H.
  destruct (VendorYahoo.fetch World download download_one fetch_list
              batch_size pause max_retries st) as [[fetched|e] s1] eqn:EF;
    [|discriminate].
  injection H as <- _.
  cbn [VendorYahoo.returned].
  pose proof (CacheFacts.NoDup_keys_load_cache cache_path file false) as NDc.
  fold cached in NDc.
  pose proof (CacheFacts.NoDup_keys_merge_maps cached fetched) as NDm.
  assert (Hnorm : forall u, In u fetch_list ->
            PyStr.upper (PyStr.strip u) = u /\ PyStr.upper u = u).
  { intros u Hu. apply CacheFacts.In_to_fetch in Hu.
    apply (CacheFacts.strip_upper_all_normal tickers). tauto. }
  pose proof (CacheFacts.fetch_keys World download download_one fetch_list
                batch_size pause max_retries st fetched s1 EF Hnorm) as Hk.
  assert (Hrow : forall S x,
            In (S, x) (VendorYahoo.isin tickers'
                         (VendorYahoo.dropna
                            (VendorYahoo.sorted_rows
                               (VendorYahoo.merge_maps cached fetched))))
            <-> PyDict.get S (VendorYahoo.merge_maps cached fetched)
                = Some (Some x) /\ In S tickers').
  { intros S x.
    rewrite CacheFacts.In_isin, CacheFacts.In_dropna, CacheFacts.In_sorted_rows.
    split; intros [H1 H2]; split; auto.
    - now apply PyDictFacts.In_get.
    - now apply PyDictFacts.get_In. }
  split.
  - intros S d Hget Hin.
    assert (Hnf : ~ In S fetch_list).
    { intros Hf. apply CacheFacts.In_to_fetch in Hf.
      destruct Hf as [_ [Hf|Hf]]; [discriminate|].
      unfold PyDict.mem in Hf. now rewrite Hget in Hf. }
    assert (Hm : PyDict.get S (VendorYahoo.merge_maps cached fetched)
                 = Some (Some d)).
    { rewrite CacheFacts.get_merge_maps_kept; [now rewrite Hget | exact NDc |].
      intros Hf. apply Hnf. now apply Hk. }
    split; [exact Hnf|]. split.
    + apply Hrow. now split.
    + intros d' Hd'. apply Hrow in Hd'. destruct Hd' as [Hd' _].
      rewrite Hm in Hd'. congruence.
  - intros S d' Hd'. apply Hrow in Hd'. destruct Hd' as [Hd' _].
    destruct (in_dec string_dec S
                (map (fun row => PyStr.upper (fst row)) fetched)) as [Hf|Hf].
    + right. now apply Hk.
    + left. rewrite CacheFacts.get_merge_maps_kept in Hd' by assumption.
      destruct (PyDict.get S cached); simpl in Hd'; congruence.
Qed.

Lemma C3_cache_hits_keep_cached_date_witness :
  let r :=
    VendorYahoo.mkRun
      [("AAPL", Scripted.d2000); ("BRK.B", Scripted.d1999)]
      (Some (VendorYahoo.Rows
               [(Some "AAPL", VendorYahoo.DateText Scripted.d2000);
                (Some "BRK.B", VendorYahoo.DateText Scripted.d1999)])) in
  let tickers' := VendorYahoo.strip_upper_all ["aapl"; "BRK.B"] in
  let cached := VendorYahoo.load_cache true (Some Scripted.cache_aapl) false in
  let fetch_list := VendorYahoo.to_fetch tickers' cached false in
  VendorYahoo.earliest_vendor_dates_with_cache Scripted.world
    Scripted.download Scripted.download_one ["aapl"; "BRK.B"] true
    (Some Scripted.cache_aapl) 50 1 3 false (Scripted.start Scripted.knows_brk)
  = (Returned r,
     VendorYahoo.mkState Scripted.world ([], []) [Download ["BRK-B"]; Sleep 1])
  /\ ((forall S d,
          PyDict.get S cached = Some d -> In S tickers' ->
          ~ In S fetch_list
          /\ In (S, d) (VendorYahoo.returned r)
          /\ forall d', In (S, d') (VendorYahoo.returned r) -> d' = d)
      /\ (forall S d',
          In (S, d') (VendorYahoo.returned r) ->
          PyDict.get S cached = Some d' \/ In S fetch_list)).
Proof.
  intros r tickers' cached fetch_list.
  split; [vm_compute; reflexivity|].
  apply (C3_cache_hits_keep_cached_date Scripted.world Scripted.download
           Scripted.download_one ["aapl"; "BRK.B"] true
           (Some Scripted.cache_aapl) 50 1 3
           (Scripted.start Scripted.knows_brk)
           (VendorYahoo.mkState Scripted.world ([], [])
              [Download ["BRK-B"]; Sleep 1]) r).
  vm_compute. reflexivity.
Defined.

(** C2. With [force_recheck] the list handed to the resolver is made of
    the stripped, uppercased forms of all non-empty input tickers, entry
    for entry and in the order of the input, whatever the cache file
    holds and whether or not it exists.  The vendor is then asked exactly
    as the resolver asks it for that list (and not at all when the list
    is empty), and neither the vendor calls nor the frame returned (or
    the exception raised) depend on the cache file. *)
Theorem C2_force_recheck_fetches_all :
  forall (World : Type)
         (download : World -> list string -> outcome frame * World)
         (download_one : World -> string -> outcome closes * World)
         (tickers : list string) (cache_path : bool)
         (file : option VendorYahoo.csv) (batch_size : Z) (pause : Q)
         (max_retries : Z) (st : VendorYahoo.state World),
    let norm :=
      map (fun t => PyStr.upper (PyStr.strip t))
        (filter PyStr.truthy tickers) in
    let run cache_path file :=
      VendorYahoo.earliest_vendor_dates_with_cache World download
        download_one tickers cache_path file batch_size pause max_retries
        true st in
    VendorYahoo.to_fetch (VendorYahoo.strip_upper_all tickers)
      (VendorYahoo.load_cache cache_path file true) true = norm
    /\ (forall t, In t tickers -> t <> EmptyString ->
         In (PyStr.upper (PyStr.strip t))
            (VendorYahoo.to_fetch (VendorYahoo.strip_upper_all tickers)
               (VendorYahoo.load_cache cache_path file true) true))
    /\ snd (run cache_path file)
       = match norm with
         | [] => st
         | _ =>
             snd (VendorYahoo.earliest_vendor_dates World download
                    download_one (map PyStr norm) batch_size pause
                    max_retries st)
         end
    /\ (forall cache_path' file',
           snd (run cache_path' file') = snd (run cache_path file)
           /\ match fst (run cache_path file), fst (run cache_path' file') with
              | Returned r, Returned r' =>
                  VendorYahoo.returned r' = VendorYahoo.returned r
              | Raised e, Raised e' => e' = e
              | _, _ => False
              end).
Proof.
  intros World download download_one tickers cache_path file batch_size pause
    max_retries st norm run.
  assert (E : forall cp f,
             VendorYahoo.to_fetch (VendorYahoo.strip_upper_all tickers)
               (VendorYahoo.load_cache cp f true) true = norm).
  { intros cp f. now rewrite CacheFacts.load_cache_forced,
      CacheFacts.to_fetch_forced. }
  assert (R : forall cp f,
             run cp f
             = match VendorYahoo.fetch World download download_one norm
                       batch_size pause max_retries st with
               | (Raised e, s1) => (Raised e, s1)
               | (Returned fetched, s1) =>
                   (Returned
                      (VendorYahoo.mkRun
                         (VendorYahoo.isin norm
                            (VendorYahoo.dropna
                               (VendorYahoo.sorted_rows
                                  (VendorYahoo.merge_maps [] fetched))))
                         (if cp
                          then Some (VendorYahoo.to_csv
                                       (VendorYahoo.dropna
                                          (VendorYahoo.sorted_rows
                                             (VendorYahoo.merge_maps []
                                                fetched))))
                          else f)),
                    s1)
               end).
  { intros cp f. unfold run, VendorYahoo.earliest_vendor_dates_with_cache.
    rewrite (E cp f), CacheFacts.load_cache_forced.
    now destruct (VendorYahoo.fetch _ _ _ _ _ _ _ _) as [[fetched|e] s1]. }
  split; [apply E|]. split; [|split].
  - intros t Ht Hne. rewrite E. unfold norm.
    apply (in_map (fun t => PyStr.upper (PyStr.strip t))), filter_In.
    split; [exact Ht | now destruct t].
  - rewrite R.
    assert (F : VendorYahoo.fetch World download download_one norm batch_size
                  pause max_retries st
                = match norm with
                  | [] => (Returned [], st)
                  | _ =>
                      VendorYahoo.earliest_vendor_dates World download
                        download_one (map PyStr norm) batch_size pause
                        max_retries st
                  end) by reflexivity.
    rewrite F. destruct norm as [|n0 nr]; [reflexivity|].
    now destruct (VendorYahoo.earliest_vendor_dates _ _ _ _ _ _ _ _)
      as [[fetched|e] s1].
  - intros cache_path' file'. rewrite !R.
    destruct (VendorYahoo.fetch _ _ _ _ _ _ _ _) as [[fetched|e] s1];
      now split.
Qed.

(** A forced run for a padded, a plain, an empty and a repeated ticker on
    a cache that has AAPL: the resolver is handed AAPL, BRK.B and AAPL
    again, and the vendor is asked for AAPL although the cache has it. *)
Lemma C2_force_recheck_fetches_all_witness :
  VendorYahoo.to_fetch
    (VendorYahoo.strip_upper_all [" aapl "; "BRK.B"; EmptyString; "aapl"])
    (VendorYahoo.load_cache true (Some Scripted.cache_aapl) true) true
  = ["AAPL"; "BRK.B"; "AAPL"]
  /\ VendorYahoo.earliest_vendor_dates_with_cache Scripted.world
       Scripted.download Scripted.download_one
       [" aapl "; "BRK.B"; EmptyString; "aapl"] true
       (Some Scripted.cache_aapl) 50 1 3 true
       (Scripted.start Scripted.two_known)
     = (Returned
          (VendorYahoo.mkRun
             [("AAPL", Scripted.d2000); ("BRK.B", Scripted.d1999)]
             (Some (VendorYahoo.Rows
                      [(Some "AAPL", VendorYahoo.DateText Scripted.d2000);
                       (Some "BRK.B",
                        VendorYahoo.DateText Scripted.d1999)]))),
        VendorYahoo.mkState Scripted.world ([], [Data []])
          [Download ["AAPL"; "BRK-B"]; Sleep 1]).
Proof.
  split; [|vm_compute; reflexivity].
  rewrite (proj1 (C2_force_recheck_fetches_all Scripted.world
                    Scripted.download Scripted.download_one
                    [" aapl "; "BRK.B"; EmptyString; "aapl"] true
                    (Some Scripted.cache_aapl) 50 1 3
                    (Scripted.start Scripted.two_known))).
  reflexivity.
Defined.

(** C1. A forced recheck whose re-fetch fails removes a resolved symbol
    from the cache file: the file held AAPL with a date and is rewritten
    without rows.  A symbol outside the tickers of the run is removed
    even when the fetch succeeds: the file held AAPL and is rewritten
    with BRK.B alone. *)
Theorem C1_forced_recheck_drops_cached :
  VendorYahoo.earliest_vendor_dates_with_cache Scripted.world
    Scripted.download Scripted.download_one ["AAPL"] true
    (Some Scripted.cache_aapl) 50 1 3 true (Scripted.start Scripted.down)
  = (Returned (VendorYahoo.mkRun [] (Some (VendorYahoo.Rows []))),
     VendorYahoo.mkState Scripted.world ([], [])
       [Download ["AAPL"]; DownloadOne "AAPL"; Sleep (1 # 10); Sleep 1])
  /\ VendorYahoo.earliest_vendor_dates_with_cache Scripted.world
       Scripted.download Scripted.download_one ["BRK.B"] true
       (Some Scripted.cache_aapl) 50 1 3 true
       (Scripted.start Scripted.knows_brk)
     = (Returned
          (VendorYahoo.mkRun [("BRK.B", Scripted.d1999)]
             (Some (VendorYahoo.Rows
                      [(Some "BRK.B", VendorYahoo.DateText Scripted.d1999)]))),
        VendorYahoo.mkState Scripted.world ([], [])
          [Download ["BRK-B"]; Sleep 1]).
Proof. split; vm_compute; reflexivity. Qed.

(** C5. A cache file whose second row has a malformed date is not
    treated as empty: the row read before it stays in the loaded map, so
    its symbol is not fetched again while the symbols of the later rows
    are. *)
Theorem C5_partial_cache_after_bad_row :
  VendorYahoo.load_cache true (Some Scripted.cache_bad_row) false
  = [("AAPL", Scripted.d2000)]
  /\ VendorYahoo.to_fetch ["AAPL"; "MSFT"; "IBM"]
       (VendorYahoo.load_cache true (Some Scripted.cache_bad_row) false) false
     = ["MSFT"; "IBM"].
Proof. split; vm_compute; reflexivity. Qed.

(* ================================================================== *)
(** * Retry and backoff of a batch *)

Module BackoffFacts.
Import PyDict Utils VendorYahoo.




Section Vendor.
Variable World : Type.
Variable download : World -> list string -> outcome frame * World.
Variable download_one : World -> string -> outcome closes * World.




End Vendor.
End BackoffFacts.




(** Four rate-limited attempts with three retries: waits of 1, 2, 4 and
    8 seconds, no frame, and the symbol is resolved by the single-symbol
    fallback. *)
Example resolver_run_retries_exhausted :
  VendorYahoo.earliest_vendor_dates Scripted.world Scripted.download
    Scripted.download_one [PyStr "AAPL"] 50 1 3
    (Scripted.start Scripted.limited_four_times)
  = (Returned [("AAPL", Scripted.d2000)],
     VendorYahoo.mkState Scripted.world ([], [])
       [Download ["AAPL"]; Sleep 1; Download ["AAPL"]; Sleep 2;
        Download ["AAPL"]; Sleep 4; Download ["AAPL"]; Sleep 8;
        DownloadOne "AAPL"; Sleep (1 # 10); Sleep 1]).
Proof. vm_compute. reflexivity. Qed.

(* ================================================================== *)
(** * Grouping by symbol and the minimum date *)

Module GroupFacts.
Import PyStr PyDict PyDictFacts VendorYahoo NormalizeTickersFacts Cli.

(** ** The order on symbols *)

Lemma ltb_lts (a b : string) :
  String.ltb a b = true <-> String_as_OT.lt a b.
Proof.
  rewrite <- String_as_OT.cmp_lt. unfold String.ltb, String_as_OT.cmp.
  destruct (String.compare a b); split; congruence.
Qed.

Lemma ltb_trans (a b c : string) :
  String.ltb a b = true -> String.ltb b c = true -> String.ltb a c = true.
Proof. rewrite !ltb_lts. apply String_as_OT.lt_trans. Qed.

Lemma ltb_irrefl (a : string) : String.ltb a a = false.
Proof.
  destruct (String.ltb a a) eqn:E; [|reflexivity].
  apply ltb_lts in E. apply String_as_OT.lt_not_eq in E.
  exfalso. apply E. reflexivity.
Qed.

Lemma leb_true (a b : string) :
  String.leb a b = true <-> a = b \/ String.ltb a b = true.
Proof.
  unfold String.leb, String.ltb.
  destruct (String.compare a b) eqn:E.
  - apply String.compare_eq_iff in E. tauto.
  - tauto.
  - split; [discriminate|]. intros [->|H]; [|discriminate].
    assert (E' : String.compare b b = Eq) by now apply String_as_OT.cmp_eq.
    congruence.
Qed.

Lemma leb_false (a b : string) :
  String.leb a b = false -> String.ltb b a = true.
Proof.
  unfold String.leb, String.ltb. rewrite (String.compare_antisym b a).
  destruct (String.compare a b); simpl; congruence.
Qed.

(** ** Sorted key lists *)

Lemma In_insert_key k x l : In x (insert_key k l) <-> x = k \/ In x l.
Proof.
  induction l as [|k' l IH]; simpl; [intuition|].
  destruct (String.leb k k'); simpl; [intuition|].
  rewrite IH. intuition.
Qed.

Lemma ascending_insert_key k l :
  ascending l -> ~ In k l -> ascending (insert_key k l).
Proof.
  unfold ascending. induction l as [|k' l IH]; simpl; intros S NI.
  - repeat constructor.
  - inversion S as [|? ? S' F]; subst.
    destruct (String.leb k k') eqn:E.
    + apply leb_true in E. destruct E as [->|E]; [tauto|].
      constructor; [exact S|]. constructor; [exact E|].
      rewrite Forall_forall in *. intros x Hx. eapply ltb_trans; eauto.
    + apply leb_false in E. constructor; [apply IH; tauto|].
      rewrite Forall_forall in *. intros x Hx.
      apply In_insert_key in Hx. destruct Hx as [->|Hx]; auto.
Qed.

Lemma In_group_keys l x : In x (group_keys l) <-> In x l.
Proof.
  unfold group_keys. rewrite <- (In_fromkeys l x).
  induction (fromkeys l) as [|a r IH]; simpl; [tauto|].
  rewrite In_insert_key, IH. intuition.
Qed.

Lemma ascending_group_keys l : ascending (group_keys l).
Proof.
  unfold group_keys. pose proof (NoDup_fromkeys l) as ND.
  induction (fromkeys l) as [|a r IH]; simpl; [constructor|].
  inversion ND as [|? ? NI ND']; subst.
  apply ascending_insert_key; [now apply IH|].
  intros H. apply NI. clear - H.
  induction r as [|b r IH]; simpl in *; [exact H|].
  apply In_insert_key in H. intuition.
Qed.

(** An ascending list is determined by its elements. *)
Lemma ascending_unique l1 l2 :
  ascending l1 -> ascending l2 -> (forall x, In x l1 <-> In x l2) -> l1 = l2.
Proof.
  unfold ascending. revert l2.
  induction l1 as [|a l1 IH]; intros [|b l2] S1 S2 H.
  - reflexivity.
  - exfalso. apply (proj2 (H b)). now left.
  - exfalso. apply (proj1 (H a)). now left.
  - inversion S1 as [|? ? S1' F1]; inversion S2 as [|? ? S2' F2]; subst.
    rewrite Forall_forall in F1, F2.
    assert (E : a = b).
    { destruct (proj1 (H a) (or_introl eq_refl)) as [E|Ha]; [now symmetry|].
      destruct (proj2 (H b) (or_introl eq_refl)) as [E|Hb]; [exact E|].
      pose proof (ltb_trans _ _ _ (F1 b Hb) (F2 a Ha)) as C.
      now rewrite ltb_irrefl in C. }
    subst b. f_equal. apply IH; [exact S1' | exact S2' |].
    intros x. split; intros Hx.
    + destruct (proj1 (H x) (or_intror Hx)) as [E|Hx']; [|exact Hx'].
      subst x. pose proof (F1 a Hx) as C. now rewrite ltb_irrefl in C.
    + destruct (proj2 (H x) (or_intror Hx)) as [E|Hx']; [|exact Hx'].
      subst x. pose proof (F2 a Hx) as C. now rewrite ltb_irrefl in C.
Qed.

Lemma group_keys_same_elements l1 l2 :
  (forall x, In x l1 <-> In x l2) -> group_keys l1 = group_keys l2.
Proof.
  intros H. apply ascending_unique; try apply ascending_group_keys.
  intros x. now rewrite !In_group_keys.
Qed.

Lemma group_keys_ascending l : ascending l -> group_keys l = l.
Proof.
  intros S. apply ascending_unique; [apply ascending_group_keys | exact S |].
  apply In_group_keys.
Qed.

(** ** The minimum *)

Lemma opt_min_comm a b : opt_min a b = opt_min b a.
Proof. destruct a, b; simpl; try reflexivity. now rewrite Z.min_comm. Qed.

Lemma opt_min_assoc a b c : opt_min a (opt_min b c) = opt_min (opt_min a b) c.
Proof. destruct a, b, c; simpl; try reflexivity. now rewrite Z.min_assoc. Qed.

Lemma opt_min_idem a : opt_min a a = a.
Proof. destruct a; simpl; [now rewrite Z.min_id | reflexivity]. Qed.

Lemma opt_min_None_r a : opt_min a None = a.
Proof. now destruct a. Qed.

Lemma fold_opt_min_app l1 l2 :
  fold_right opt_min None (l1 ++ l2)%list
  = opt_min (fold_right opt_min None l1) (fold_right opt_min None l2).
Proof.
  induction l1 as [|a l1 IH]; simpl; [reflexivity|].
  now rewrite IH, opt_min_assoc.
Qed.

Lemma group_min_of_lift k t : group_min_of k (lift t) = min_date_seen k t.
Proof.
  unfold group_min_of, lift.
  induction t as [|[s d] r IH]; simpl; [reflexivity|].
  destruct (s =? k)%string; simpl; now rewrite IH.
Qed.

Lemma min_date_seen_app k u v :
  min_date_seen k (u ++ v)%list
  = opt_min (min_date_seen k u) (min_date_seen k v).
Proof.
  induction u as [|[s d] r IH]; cbn [app min_date_seen]; [reflexivity|].
  destruct (s =? k)%string; [|exact IH].
  now rewrite IH, opt_min_assoc.
Qed.

Lemma min_date_seen_absent k t : ~ In k (map fst t) -> min_date_seen k t = None.
Proof.
  induction t as [|[s d] r IH]; simpl; [reflexivity|]. intros NI.
  destruct (String.eqb_spec s k); [tauto|]. apply IH. tauto.
Qed.

(** [min_date_seen] is the least date among the rows of the symbol. *)
Lemma min_date_seen_least k t m :
  min_date_seen k t = Some m ->
  In (k, m) t /\ forall d, In (k, d) t -> m <= d.
Proof.
  revert m. induction t as [|[s d0] r IH]; simpl; intros m; [discriminate|].
  destruct (String.eqb_spec s k) as [->|N].
  - destruct (min_date_seen k r) as [m'|] eqn:E; simpl; intros [= <-].
    + destruct (IH m' eq_refl) as [Hin Hle]. split.
      * destruct (Z.min_spec d0 m') as [[_ ->]|[_ ->]]; [now left | now right].
      * intros d [[= ->]|Hd]; [lia|]. specialize (Hle d Hd). lia.
    + split; [now left|]. intros d [[= ->]|Hd]; [lia|].
      exfalso. apply (in_map fst) in Hd. simpl in Hd.
      destruct (in_dec string_dec k (map fst r)) as [Hk|Hk]; [|tauto].
      clear - E Hk. induction r as [|[s d'] r IH]; simpl in *; [tauto|].
      destruct (String.eqb_spec s k) as [->|N].
      * now destruct (min_date_seen k r).
      * destruct Hk; [contradiction | auto].
  - intros H. destruct (IH m H) as [Hin Hle]. split; [now right|].
    intros d [[= -> _]|Hd]; [contradiction | auto].
Qed.

Lemma min_date_seen_present k t :
  In k (map fst t) -> exists m, min_date_seen k t = Some m.
Proof.
  induction t as [|[s d] r IH]; simpl; [tauto|]. intros [->|H].
  - rewrite String.eqb_refl. destruct (min_date_seen k r); simpl; eauto.
  - destruct (s =? k)%string; [|auto].
    destruct (IH H) as [m ->]. simpl. eauto.
Qed.

Lemma min_date_seen_NoDup k (t : table) :
  NoDup (map fst t) -> min_date_seen k t = get k t.
Proof.
  induction t as [|[s d] r IH]; simpl; [reflexivity|]. intros ND.
  inversion ND as [|? ? NI ND']; subst.
  destruct (String.eqb_spec s k) as [->|N]; [|now apply IH].
  now rewrite (min_date_seen_absent k r NI).
Qed.

(** ** [groupby_min] *)

Lemma get_flat_groups (gm : string -> option date) k ks :
  get k (flat_map (fun k' => match gm k' with
                             | Some d => [(k', d)]
                             | None => []
                             end) ks)
  = if existsb (String.eqb k) ks then gm k else None.
Proof.
  induction ks as [|k' r IH]; simpl; [reflexivity|].
  destruct (String.eqb_spec k k') as [<-|N]; simpl.
  - destruct (gm k) as [d|] eqn:E; simpl.
    + now rewrite String.eqb_refl.
    + rewrite IH. now destruct (existsb (String.eqb k) r).
  - destruct (gm k') as [d|]; simpl; [|exact IH].
    destruct (String.eqb_spec k' k); [congruence | exact IH].
Qed.

(** The grouped table gives every symbol its minimum date. *)
Lemma get_groupby_min k t : get k (groupby_min t) = min_date_seen k t.
Proof.
  unfold groupby_min.
  rewrite (get_flat_groups (fun k' => group_min_of k' (lift t))).
  rewrite group_min_of_lift.
  destruct (existsb (String.eqb k) (group_keys (map fst t))) eqn:E;
    [reflexivity|].
  symmetry. apply min_date_seen_absent. intros H.
  apply In_group_keys in H.
  assert (X : existsb (String.eqb k) (group_keys (map fst t)) = true).
  { apply existsb_exists. exists k. split; [exact H | apply String.eqb_refl]. }
  congruence.
Qed.

(** It has one row per symbol of the table, in ascending order. *)
Lemma keys_groupby_min t : map fst (groupby_min t) = group_keys (map fst t).
Proof.
  unfold groupby_min.
  assert (H : forall k, In k (group_keys (map fst t)) ->
                        exists m, group_min_of k (lift t) = Some m).
  { intros k Hk. rewrite group_min_of_lift. apply min_date_seen_present.
    now apply In_group_keys. }
  induction (group_keys (map fst t)) as [|k r IH]; simpl; [reflexivity|].
  destruct (H k (or_introl eq_refl)) as [m ->]. simpl.
  f_equal. apply IH. intros k' Hk'. apply H. now right.
Qed.

Lemma NoDup_ascending l : ascending l -> NoDup l.
Proof.
  unfold ascending. induction 1 as [|a l S IH F]; constructor; [|exact IH].
  intros Hin. rewrite Forall_forall in F.
  pose proof (F a Hin) as C. now rewrite ltb_irrefl in C.
Qed.

(** Tables with the same symbols and the same minimum per symbol group
    to the same table. *)
Lemma groupby_min_ext t1 t2 :
  (forall x, In x (map fst t1) <-> In x (map fst t2)) ->
  (forall k, min_date_seen k t1 = min_date_seen k t2) ->
  groupby_min t1 = groupby_min t2.
Proof.
  intros Hk Hm. unfold groupby_min.
  rewrite (group_keys_same_elements _ _ Hk).
  apply flat_map_ext. intros k. now rewrite !group_min_of_lift, Hm.
Qed.

Lemma merge_min_comm u v : merge_min u v = merge_min v u.
Proof.
  apply groupby_min_ext.
  - intros x. rewrite !map_app, !in_app_iff. tauto.
  - intros k. rewrite !min_date_seen_app. apply opt_min_comm.
Qed.

Lemma merge_min_self t : merge_min t t = groupby_min t.
Proof.
  apply groupby_min_ext.
  - intros x. rewrite map_app, in_app_iff. tauto.
  - intros k. rewrite min_date_seen_app. apply opt_min_idem.
Qed.

Lemma groupby_min_idem t : groupby_min (groupby_min t) = groupby_min t.
Proof.
  apply groupby_min_ext.
  - intros x. rewrite keys_groupby_min. apply In_group_keys.
  - intros k. rewrite min_date_seen_NoDup; [apply get_groupby_min|].
    rewrite keys_groupby_min. apply NoDup_ascending, ascending_group_keys.
Qed.

(** Merging in a table a second time changes nothing. *)
Lemma merge_min_absorb u v : merge_min (merge_min u v) v = merge_min u v.
Proof.
  apply groupby_min_ext.
  - intros x. unfold merge_min. rewrite map_app, in_app_iff.
    rewrite keys_groupby_min, In_group_keys, map_app, in_app_iff. tauto.
  - intros k. rewrite !min_date_seen_app.
    rewrite (min_date_seen_NoDup k (merge_min u v)).
    + unfold merge_min. rewrite get_groupby_min, min_date_seen_app.
      now rewrite <- opt_min_assoc, opt_min_idem.
    + unfold merge_min. rewrite keys_groupby_min.
      apply NoDup_ascending, ascending_group_keys.
Qed.

(** ** The universe cache *)

Lemma earliest_seen_fold k rows :
  fold_right opt_min None
    (map (fun r => coerce (EarliestVendorDate r))
       (filter (fun r => (key_of r =? k)%string) rows))
  = earliest_seen k rows.
Proof.
  induction rows as [|r rest IH]; simpl; [reflexivity|].
  destruct (key_of r =? k)%string; simpl; now rewrite IH.
Qed.

Lemma earliest_seen_app k prev cur :
  earliest_seen k (prev ++ cur)%list
  = opt_min (earliest_seen k prev) (earliest_seen k cur).
Proof.
  induction prev as [|r rest IH]; cbn [app earliest_seen]; [reflexivity|].
  destruct (key_of r =? k)%string; [|exact IH].
  now rewrite IH, opt_min_assoc.
Qed.

Lemma earliest_seen_absent k rows :
  ~ In k (map key_of rows) -> earliest_seen k rows = None.
Proof.
  induction rows as [|r rest IH]; simpl; [reflexivity|]. intros NI.
  destruct (String.eqb_spec (key_of r) k); [tauto|]. apply IH. tauto.
Qed.

Lemma unified_date_unify k prev cur :
  unified_date k (unify prev cur)
  = opt_min (earliest_seen k prev) (earliest_seen k cur).
Proof.
  rewrite <- earliest_seen_app. unfold unify.
  set (combo := (prev ++ cur)%list).
  assert (G : forall ks,
             unified_date k
               (map (fun k' => aggregate k'
                                 (filter (fun r => (key_of r =? k')%string) combo))
                  ks)
             = if existsb (String.eqb k) ks then earliest_seen k combo else None).
  { induction ks as [|k' r IH]; simpl; [reflexivity|].
    destruct (String.eqb_spec k' k) as [->|N].
    - rewrite String.eqb_refl. simpl. apply earliest_seen_fold.
    - destruct (String.eqb_spec k k'); [congruence | exact IH]. }
  rewrite G.
  destruct (existsb (String.eqb k) (group_keys (map key_of combo))) eqn:E;
    [reflexivity|].
  symmetry. apply earliest_seen_absent. intros H.
  apply In_group_keys in H.
  assert (X : existsb (String.eqb k) (group_keys (map key_of combo)) = true).
  { apply existsb_exists. exists k. split; [exact H | apply String.eqb_refl]. }
  congruence.
Qed.

End GroupFacts.

Example merge_min_tables :
  Cli.merge_min Scripted.table_a Scripted.table_b
  = [("AAPL", Scripted.d1999); ("IBM", 720000); ("MSFT", 725000)].
Proof. vm_compute. reflexivity. Qed.

(** C4. Merging two symbol-to-date tables, as the seeding of the vendor
    cache and the aggregation of the universe cache do, gives every
    symbol the minimum date seen in either table ([min_date_seen] is the
    least date among the rows of the symbol).  The merge is commutative,
    merging a table in a second time changes nothing, and a grouped
    table merged with itself is the table. *)
Theorem C4_cache_merge_takes_minimum :
  (forall k t m,
      Cli.min_date_seen k t = Some m ->
      In (k, m) t /\ forall d, In (k, d) t -> m <= d)
  /\ (forall u v k,
         PyDict.get k (Cli.merge_min u v)
         = Cli.opt_min (Cli.min_date_seen k u) (Cli.min_date_seen k v))
  /\ (forall u v, Cli.merge_min u v = Cli.merge_min v u)
  /\ (forall u v, Cli.merge_min (Cli.merge_min u v) v = Cli.merge_min u v)
  /\ (forall t,
         Cli.merge_min (Cli.groupby_min t) (Cli.groupby_min t)
         = Cli.groupby_min t)
  /\ (forall urows vrows k,
         Cli.seed_vendor_cache true true false
           (Some (VendorYahoo.Rows urows)) (Some (VendorYahoo.Rows vrows))
         = Some (VendorYahoo.to_csv
                   (Cli.merge_min
                      (Cli.groupby_min (Cli.clean_universe urows))
                      (Cli.groupby_min (Cli.clean_vendor vrows))))
         /\ PyDict.get k
              (Cli.merge_min
                 (Cli.groupby_min (Cli.clean_universe urows))
                 (Cli.groupby_min (Cli.clean_vendor vrows)))
            = Cli.opt_min (Cli.min_date_seen k (Cli.clean_universe urows))
                (Cli.min_date_seen k (Cli.clean_vendor vrows)))
  /\ (forall prev cur k,
         Cli.unified_date k (Cli.unify prev cur)
         = Cli.opt_min (Cli.earliest_seen k prev) (Cli.earliest_seen k cur)
         /\ Cli.unified_date k (Cli.unify prev cur)
            = Cli.unified_date k (Cli.unify cur prev)
         /\ Cli.unified_date k (Cli.unify prev prev)
            = Cli.earliest_seen k prev).
Proof.
  assert (G : forall u v k,
             PyDict.get k (Cli.merge_min u v)
             = Cli.opt_min (Cli.min_date_seen k u) (Cli.min_date_seen k v)).
  { intros u v k. unfold Cli.merge_min.
    now rewrite GroupFacts.get_groupby_min, GroupFacts.min_date_seen_app. }
  split; [exact GroupFacts.min_date_seen_least|].
  split; [exact G|].
  split; [exact GroupFacts.merge_min_comm|].
  split; [exact GroupFacts.merge_min_absorb|].
  split.
  { intros t. rewrite GroupFacts.merge_min_self.
    apply GroupFacts.groupby_min_idem. }
  split.
  - intros urows vrows k. split; [reflexivity|].
    rewrite G.
    rewrite !(GroupFacts.min_date_seen_NoDup k (Cli.groupby_min _)),
      !GroupFacts.get_groupby_min; [reflexivity | |];
      rewrite GroupFacts.keys_groupby_min;
      apply GroupFacts.NoDup_ascending, GroupFacts.ascending_group_keys.
  - intros prev cur k. rewrite !GroupFacts.unified_date_unify.
    repeat split.
    + apply GroupFacts.opt_min_comm.
    + apply GroupFacts.opt_min_idem.
Qed.

Lemma C4_cache_merge_takes_minimum_witness :
  Cli.min_date_seen "AAPL" (Scripted.table_a ++ Scripted.table_b)%list
  = Some Scripted.d1999
  /\ (In ("AAPL", Scripted.d1999) (Scripted.table_a ++ Scripted.table_b)%list
      /\ forall d, In ("AAPL", d) (Scripted.table_a ++ Scripted.table_b)%list ->
                   Scripted.d1999 <= d).
Proof.
  split; [vm_compute; reflexivity|].
  apply (proj1 C4_cache_merge_takes_minimum "AAPL"
           (Scripted.table_a ++ Scripted.table_b)%list Scripted.d1999).
  vm_compute. reflexivity.
Defined.

(* ================================================================== *)
(** * The validation pass *)

Module ValidateFacts.
Import VendorYahoo Cli.

Lemma mismatches_none (rows : list (string * date * option date)) :
  (forall s f c, In (s, f, Some c) rows -> f = c) -> mismatches rows = [].
Proof.
  induction rows as [|[[s f] [c|]] r IH]; simpl; intros H; [reflexivity| |].
  - rewrite (H s f c (or_introl eq_refl)), Z.eqb_refl.
    apply IH. intros s' f' c' Hin. apply (H s' f' c'). now right.
  - apply IH. intros s' f' c' Hin. apply (H s' f' c'). now right.
Qed.

End ValidateFacts.

(** ** The ceiling of a binary64 value *)
Module CeilFacts.

(** [math.ceil] of a finite value is the least integer not below it. *)
Lemma py_ceil_rounds_up :
  forall x q, Cli.float_value x = Some q ->
    exists c, Cli.py_ceil x = Returned c
              /\ (inject_Z c - 1 < q)%Q /\ (q <= inject_Z c)%Q.
Proof.
  intros x q. unfold Cli.float_value, Cli.py_ceil.
  destruct (Prim2SF x) as [s| s| |sign m e]; try discriminate.
  - intros [= <-]. exists 0. split; [reflexivity|].
    split; [reflexivity | discriminate].
  - cbv zeta. destruct (0 <=? e) eqn:He.
    + generalize (Z.pos m * 2 ^ e). intros p [= <-].
      eexists. split; [reflexivity|].
      destruct sign; unfold Qlt, Qle, Qminus, Qplus, Qopp, inject_Z;
        cbn [Qnum Qden]; lia.
    + apply Z.leb_gt in He.
      assert (Hd : 0 < 2 ^ (- e)) by (apply Z.pow_pos_nonneg; lia).
      assert (Hp : Z.pos (Z.to_pos (2 ^ (- e))) = 2 ^ (- e))
        by (apply Z2Pos.id; exact Hd).
      intros [= <-].
      destruct sign; eexists; (split; [reflexivity|]);
        unfold Qlt, Qle, Qminus, Qplus, Qopp, inject_Z; cbn [Qnum Qden];
        rewrite Hp; set (d := 2 ^ (- e)) in *.
      * pose proof (Z.div_mod (Z.pos m) d ltac:(lia)) as E.
        pose proof (Z.mod_pos_bound (Z.pos m) d Hd) as B. nia.
      * pose proof (Z.div_mod (- Z.pos m) d ltac:(lia)) as E.
        pose proof (Z.mod_pos_bound (- Z.pos m) d Hd) as B. nia.
Qed.

(** It raises for an infinity and for a NaN. *)
Lemma py_ceil_undefined :
  forall x, Cli.float_value x = None -> exists e, Cli.py_ceil x = Raised e.
Proof.
  intros x. unfold Cli.float_value, Cli.py_ceil.
  destruct (Prim2SF x) as [s| s| |sign m e]; try discriminate;
    intros _; eexists; reflexivity.
Qed.

End CeilFacts.

(** C8. The sample size is [min(max(c, m), n)] where [c] is the ceiling
    of the product [n * f]: the least integer not below the number that
    the binary64 product stands for.  It is defined when that product is
    finite, and an error otherwise.  It is 25 for 500 candidates with the
    fraction 0.05 and the minimum 20; 10 for 10 candidates with the
    minimum 20, whatever the fraction; and 2 for 30 candidates with the
    fraction 0.05 and the minimum 1, where the product is 3/2. *)
Theorem C8_sample_size :
  (forall (n : nat) (f : float) (m : Z) (q : Q),
      Cli.float_value (Cli.float_of_len n * f)%float = Some q ->
      exists c : Z,
        (inject_Z c - 1 < q)%Q /\ (q <= inject_Z c)%Q
        /\ Cli.sample_size n f m = Returned (Z.min (Z.max c m) (Z.of_nat n)))
  /\ (forall (n : nat) (f : float) (m : Z),
         Cli.float_value (Cli.float_of_len n * f)%float = None ->
         exists e, Cli.sample_size n f m = Raised e)
  /\ Cli.sample_size 500 0x1.999999999999ap-5%float 20 = Returned 25
  /\ (forall (f : float) (q : Q),
         Cli.float_value (Cli.float_of_len 10 * f)%float = Some q ->
         Cli.sample_size 10 f 20 = Returned 10)
  /\ (exists q : Q,
         Cli.float_value (Cli.float_of_len 30 * 0x1.999999999999ap-5)%float
         = Some q
         /\ (q == 3 # 2)%Q)
  /\ Cli.sample_size 30 0x1.999999999999ap-5%float 1 = Returned 2.
Proof.
  split; [|split; [|split; [|split; [|split]]]].
  - intros n f m q H.
    destruct (CeilFacts.py_ceil_rounds_up _ _ H) as (c & Hc & Hlo & Hhi).
    exists c. split; [exact Hlo|]. split; [exact Hhi|].
    unfold Cli.sample_size. now rewrite Hc.
  - intros n f m H.
    destruct (CeilFacts.py_ceil_undefined _ H) as (e & He).
    exists e. unfold Cli.sample_size. now rewrite He.
  - vm_compute. reflexivity.
  - intros f q H.
    destruct (CeilFacts.py_ceil_rounds_up _ _ H) as (c & Hc & _ & _).
    unfold Cli.sample_size. rewrite Hc. f_equal.
    change (Z.of_nat 10) with 10. lia.
  - eexists. split; [vm_compute; reflexivity | reflexivity].
  - vm_compute. reflexivity.
Qed.

(** 500 candidates and the fraction 0.05: the product is 25, which is its
    own ceiling. *)
Lemma C8_sample_size_witness :
  exists (q : Q) (c : Z),
    Cli.float_value (Cli.float_of_len 500 * 0x1.999999999999ap-5)%float
    = Some q
    /\ (q == 25)%Q
    /\ (inject_Z c - 1 < q)%Q /\ (q <= inject_Z c)%Q
    /\ Cli.sample_size 500 0x1.999999999999ap-5%float 20
       = Returned (Z.min (Z.max c 20) (Z.of_nat 500)).
Proof.
  destruct (Cli.float_value
              (Cli.float_of_len 500 * 0x1.999999999999ap-5)%float)
    as [q|] eqn:H; [|vm_compute in H; discriminate].
  destruct (proj1 C8_sample_size 500%nat 0x1.999999999999ap-5%float 20 q H)
    as (c & Hlo & Hhi & Hs).
  exists q, c. split; [reflexivity|].
  split; [vm_compute in H; injection H as <-; reflexivity|].
  split; [exact Hlo|]. split; [exact Hhi | exact Hs].
Defined.

(** A validation pass whose fresh resolution resolves nothing writes no
    report: the cache file exists, validation is not skipped, the recheck
    is not forced, the sample fraction is positive and AAPL is a
    candidate, yet the result is [None]. *)
Lemma C6_no_report_when_nothing_resolved :
  Cli.skip_validate Scripted.default_args = false
  /\ Cli.force_recheck Scripted.default_args = false
  /\ (0 <? Cli.validate_cache_sample Scripted.default_args)%float = true
  /\ Cli.candidates_of
       [(Some "AAPL", VendorYahoo.DateText Scripted.d2000)] ["AAPL"]
     = ["AAPL"]
  /\ Cli.validate_cache Scripted.world Scripted.download
       Scripted.download_one Scripted.first_k Scripted.default_args true
       (Some (VendorYahoo.Rows
                [(Some "AAPL", VendorYahoo.DateText Scripted.d2000)]))
       ["AAPL"] (Scripted.start Scripted.down)
     = (None,
        VendorYahoo.mkState Scripted.world ([], [])
          [Download ["AAPL"]; DownloadOne "AAPL"; Sleep (1 # 10);
           Sleep (3 # 2)]).
Proof. repeat split; vm_compute; reflexivity. Qed.

(** C6 (amended). When the validation pass runs (the cache file is
    readable with both columns, validation is not skipped, the recheck is
    not forced, the sample fraction is positive, there are candidates and
    the sample size is defined), the vendor is asked exactly as the fresh
    resolution of the sample asks it, and the report depends on how that
    resolution ends.  When it returns at least one row the report is
    written: its rows [Symbol, FreshDate, CachedDate] are the mismatches,
    none at all when every fresh date agrees with the cache.  When it
    returns no row, or raises, no report is written. *)
Theorem C6_report_written_when_fresh_rows :
  forall (World : Type)
         (download : World -> list string -> outcome frame * World)
         (download_one : World -> string -> outcome closes * World)
         (random_sample : list string -> nat -> list string)
         (a : Cli.args) (rows : list VendorYahoo.csv_row)
         (universe : list string) (st st1 : VendorYahoo.state World)
         (k : Z) (res : result VendorYahoo.table),
    Cli.skip_validate a = false ->
    Cli.force_recheck a = false ->
    (0 <? Cli.validate_cache_sample a)%float = true ->
    Cli.candidates_of rows universe <> [] ->
    Cli.sample_size (List.length (Cli.candidates_of rows universe))
      (Cli.validate_cache_sample a) (Cli.validate_cache_min a) = Returned k ->
    VendorYahoo.earliest_vendor_dates World download download_one
      (map PyStr (random_sample (Cli.candidates_of rows universe) (Z.to_nat k)))
      (Z.min (Cli.batch_size a) 50) (Cli.pause a) (Cli.max_retries a) st
    = (res, st1) ->
    let merged_chk fresh :=
      Cli.left_merge (Cli.upper_symbols fresh) (Cli.vdf_of rows) in
    let pass :=
      Cli.validate_cache World download download_one random_sample a true
        (Some (VendorYahoo.Rows rows)) universe st in
    snd pass = st1
    /\ (forall fresh,
          res = Returned fresh -> fresh <> [] ->
          fst pass = Some (Cli.mismatches (merged_chk fresh))
          /\ ((forall s f c, In (s, f, Some c) (merged_chk fresh) -> f = c) ->
              fst pass = Some []))
    /\ (res = Returned [] -> fst pass = None)
    /\ (forall e, res = Raised e -> fst pass = None).
Proof.
  intros World download download_one random_sample a rows universe st st1 k
    res Hskip Hforce Hpos Hcand Hk Hres merged_chk pass.
  assert (E : pass
              = (match res with
                 | Raised _ => None
                 | Returned [] => None
                 | Returned fresh => Some (Cli.mismatches (merged_chk fresh))
                 end, st1)).
  { unfold pass, Cli.validate_cache. rewrite Hskip, Hforce, Hpos. simpl.
    unfold Cli.validate_rows.
    destruct (Cli.candidates_of rows universe) as [|c0 cs] eqn:Ec;
      [contradiction|].
    rewrite Hk, Hres.
    now destruct res as [[|f0 fs]|e]. }
  rewrite E. cbn [fst snd].
  split; [reflexivity|]. split; [|split].
  - intros fresh -> Hne.
    destruct fresh as [|f0 fs]; [contradiction|].
    split; [reflexivity|].
    intros Hall. now rewrite ValidateFacts.mismatches_none.
  - now intros ->.
  - now intros e ->.
Qed.

Lemma C6_report_written_when_fresh_rows_witness :
  let rows := [(Some "AAPL", VendorYahoo.DateText Scripted.d2000)] in
  let fresh := [("AAPL", Scripted.d2000)] in
  let st1 :=
    VendorYahoo.mkState Scripted.world ([], [])
      [Download ["AAPL"]; Sleep (3 # 2)] in
  let pass :=
    Cli.validate_cache Scripted.world Scripted.download
      Scripted.download_one Scripted.first_k Scripted.default_args true
      (Some (VendorYahoo.Rows rows)) ["aapl"]
      (Scripted.start Scripted.knows_aapl) in
  Cli.skip_validate Scripted.default_args = false
  /\ Cli.force_recheck Scripted.default_args = false
  /\ (0 <? Cli.validate_cache_sample Scripted.default_args)%float = true
  /\ Cli.candidates_of rows ["aapl"] <> []
  /\ Cli.sample_size (List.length (Cli.candidates_of rows ["aapl"]))
       (Cli.validate_cache_sample Scripted.default_args)
       (Cli.validate_cache_min Scripted.default_args) = Returned 1
  /\ VendorYahoo.earliest_vendor_dates Scripted.world Scripted.download
       Scripted.download_one
       (map PyStr
          (Scripted.first_k (Cli.candidates_of rows ["aapl"]) (Z.to_nat 1)))
       (Z.min (Cli.batch_size Scripted.default_args) 50)
       (Cli.pause Scripted.default_args)
       (Cli.max_retries Scripted.default_args)
       (Scripted.start Scripted.knows_aapl)
     = (Returned fresh, st1)
  /\ snd pass = st1
  /\ fst pass
     = Some (Cli.mismatches
               (Cli.left_merge (Cli.upper_symbols fresh) (Cli.vdf_of rows)))
  /\ fst pass = Some [].
Proof.
  intros rows fresh st1 pass.
  assert (Hc : Cli.candidates_of rows ["aapl"] <> [])
    by (vm_compute; discriminate).
  assert (Hf : fresh <> []) by discriminate.
  assert (Hk : Cli.sample_size (List.length (Cli.candidates_of rows ["aapl"]))
                 (Cli.validate_cache_sample Scripted.default_args)
                 (Cli.validate_cache_min Scripted.default_args) = Returned 1)
    by (vm_compute; reflexivity).
  assert (Hr : VendorYahoo.earliest_vendor_dates Scripted.world
                 Scripted.download Scripted.download_one
                 (map PyStr
                    (Scripted.first_k (Cli.candidates_of rows ["aapl"])
                       (Z.to_nat 1)))
                 (Z.min (Cli.batch_size Scripted.default_args) 50)
                 (Cli.pause Scripted.default_args)
                 (Cli.max_retries Scripted.default_args)
                 (Scripted.start Scripted.knows_aapl)
               = (Returned fresh, st1))
    by (vm_compute; reflexivity).
  destruct (C6_report_written_when_fresh_rows Scripted.world Scripted.download
              Scripted.download_one Scripted.first_k Scripted.default_args
              rows ["aapl"] (Scripted.start Scripted.knows_aapl) st1 1
              (Returned fresh) eq_refl eq_refl eq_refl Hc Hk Hr)
    as (Hst & Hsome & _ & _).
  destruct (Hsome fresh eq_refl Hf) as (H1 & H2).
  split; [reflexivity|]. split; [reflexivity|]. split; [reflexivity|].
  split; [exact Hc|]. split; [exact Hk|]. split; [exact Hr|].
  split; [exact Hst|]. split; [exact H1|].
  apply H2. intros s f c Hin. vm_compute in Hin.
  destruct Hin as [Hin|[]]. now inversion Hin.
Defined.

(** A pass whose fresh resolution raises writes no report: with a batch
    size of zero the resolver raises before it asks the vendor. *)
Example validation_skipped_when_resolution_raises :
  let a := Cli.mkArgs false false 0x1.999999999999ap-5%float 20 0 (3 # 2) 3 in
  VendorYahoo.earliest_vendor_dates Scripted.world Scripted.download
    Scripted.download_one [PyStr "AAPL"] (Z.min (Cli.batch_size a) 50)
    (Cli.pause a) (Cli.max_retries a) (Scripted.start Scripted.knows_aapl)
  = (Raised "ValueError", Scripted.start Scripted.knows_aapl)
  /\ Cli.validate_cache Scripted.world Scripted.download
       Scripted.download_one Scripted.first_k a true
       (Some Scripted.cache_aapl) ["aapl"]
       (Scripted.start Scripted.knows_aapl)
     = (None, Scripted.start Scripted.knows_aapl).
Proof. split; vm_compute; reflexivity. Qed.

(** The vendor reports an earlier first bar than the cache holds: the
    report has the one mismatch row. *)
Example validation_reports_backfill :
  fst (Cli.validate_cache Scripted.world Scripted.download
         Scripted.download_one Scripted.first_k Scripted.default_args true
         (Some Scripted.cache_aapl) ["aapl"]
         (Scripted.start Scripted.aapl_backfilled))
  = Some [("AAPL", Scripted.d1999, Scripted.d2000)].
Proof. vm_compute. reflexivity. Qed.

Lemma C9_to_yahoo_symbol_rules_witness :
  PyStr.upper (PyStr.strip "NLY^F") = "NLY^F"
  /\ Normalize.to_yahoo_symbol "NLY^F" = Normalize.toVendorForm "NLY^F".
Proof.
  split; [reflexivity|].
  apply (proj1 (proj2 C9_to_yahoo_symbol_rules) "NLY^F"). reflexivity.
Defined.

(* ================================================================== *)
(** * What a run without forced recheck keeps in the cache file *)

Module CacheInvariant.
Import PyStr PyDict PyDictFacts VendorYahoo CacheFacts.

(** A cache file that cannot be read, or lacks a column, loads as the
    empty map, and so does a file whose first row has a malformed
    date. *)
Lemma load_cache_unreadable cache_path force_recheck :
  load_cache cache_path (Some Unreadable) force_recheck = []
  /\ load_cache cache_path (Some OtherColumns) force_recheck = []
  /\ forall sym rest,
      load_cache cache_path (Some (Rows ((sym, BadText) :: rest)))
        force_recheck = [].
Proof.
  unfold load_cache.
  destruct (cache_path && negb force_recheck); repeat split; reflexivity.
Qed.

Section Vendor.
Variable World : Type.
Variable download : World -> list string -> outcome frame * World.
Variable download_one : World -> string -> outcome closes * World.

(** Without [force_recheck], every symbol of the loaded cache is written
    back to the cache file with the date it had. *)
Lemma cache_kept_without_force tickers file batch_size pause max_retries
    st st' r S d :
  earliest_vendor_dates_with_cache World download download_one tickers true
    file batch_size pause max_retries false st = (Returned r, st') ->
  get S (load_cache true file false) = Some d ->
  exists rows,
    file_after r = Some (Rows rows)
    /\ In (Some S, DateText d) rows
    /\ forall d', In (Some S, DateText d') rows -> d' = d.
Proof.
  intros H Hget.
  unfold earliest_vendor_dates_with_cache in H.
  set (tickers' := strip_upper_all tickers) in *.
  set (cached := load_cache true file false) in *.
  set (fetch_list := to_fetch tickers' cached false) in *.
  destruct (fetch World download download_one fetch_list batch_size pause
              max_retries st) as [[fetched|e] s1] eqn:EF; [|discriminate].
  injection H as <- _. cbn [file_after].
  pose proof (NoDup_keys_load_cache true file false) as NDc.
  fold cached in NDc.
  pose proof (NoDup_keys_merge_maps cached fetched) as NDm.
  assert (Hnorm : forall u, In u fetch_list ->
                            upper (strip u) = u /\ upper u = u).
  { intros u Hu. apply In_to_fetch in Hu.
    apply (strip_upper_all_normal tickers). tauto. }
  pose proof (fetch_keys World download download_one fetch_list batch_size
                pause max_retries st fetched s1 EF Hnorm) as Hk.
  assert (Hm : get S (merge_maps cached fetched) = Some (Some d)).
  { rewrite get_merge_maps_kept; [now rewrite Hget | exact NDc |].
    intros Hf. apply Hk, In_to_fetch in Hf.
    destruct Hf as [_ [Hf|Hf]]; [discriminate|].
    unfold mem in Hf. now rewrite Hget in Hf. }
  eexists. split; [reflexivity|].
  assert (Hrow : forall x,
            In (Some S, DateText x)
              (map (fun sd : string * date => (Some (fst sd), DateText (snd sd)))
                 (dropna (sorted_rows (merge_maps cached fetched))))
            <-> get S (merge_maps cached fetched) = Some (Some x)).
  { intros x. rewrite in_map_iff. split.
    - intros ([s y] & [= -> ->] & Hin).
      rewrite In_dropna, In_sorted_rows in Hin. now apply In_get.
    - intros Hx. exists (S, x). split; [reflexivity|].
      rewrite In_dropna, In_sorted_rows. now apply get_In. }
  split.
  - now apply Hrow.
  - intros d' Hd'. apply Hrow in Hd'. congruence.
Qed.

End Vendor.
End CacheInvariant.

(* ================================================================== *)
(** * More on the notation adapter *)

Module AdapterFacts.
Import PyStr PyStrFacts Normalize NormalizeFacts Observe.

Lemma contains_lstrip c s : contains c s = false -> contains c (lstrip s) = false.
Proof.
  induction s as [|d r IH]; simpl; [reflexivity|]. intros H.
  apply orb_false_iff in H. destruct H as [H1 H2].
  destruct (isspace d); [now apply IH|]. simpl. now rewrite H1, H2.
Qed.

Lemma contains_rstrip c s : contains c s = false -> contains c (rstrip s) = false.
Proof.
  induction s as [|d r IH]; simpl; [reflexivity|]. intros H.
  apply orb_false_iff in H. destruct H as [H1 H2]. specialize (IH H2).
  destruct (rstrip r); simpl.
  - destruct (isspace d); simpl; [reflexivity | now rewrite H1].
  - simpl in IH. now rewrite H1, IH.
Qed.

Lemma contains_strip c s : contains c s = false -> contains c (strip s) = false.
Proof. intros H. unfold strip. now apply contains_rstrip, contains_lstrip. Qed.

(** Replacing a character by another one leaves none of the first. *)
Lemma contains_replace_gone a b s :
  a <> b -> contains a (replace a b s) = false.
Proof.
  intros N. induction s as [|d r IH]; simpl; [reflexivity|].
  rewrite IH, orb_false_r.
  destruct (Ascii.eqb_spec d a) as [->|Nd].
  - now apply Ascii.eqb_neq.
  - apply Ascii.eqb_neq. congruence.
Qed.

Lemma contains_replace_other c a b s :
  c <> b -> contains c s = false -> contains c (replace a b s) = false.
Proof.
  intros N. induction s as [|d r IH]; simpl; [reflexivity|]. intros H.
  apply orb_false_iff in H. destruct H as [H1 H2]. rewrite (IH H2), orb_false_r.
  destruct (Ascii.eqb d a); [now apply Ascii.eqb_neq | exact H1].
Qed.

Lemma replace_absent a b s : contains a s = false -> replace a b s = s.
Proof.
  induction s as [|d r IH]; simpl; [reflexivity|]. intros H.
  apply orb_false_iff in H. destruct H as [H1 H2]. rewrite (IH H2).
  rewrite Ascii.eqb_sym in H1. now rewrite H1.
Qed.

Lemma replace_back a b s :
  contains b s = false -> replace b a (replace a b s) = s.
Proof.
  induction s as [|d r IH]; simpl; [reflexivity|]. intros H.
  apply orb_false_iff in H. destruct H as [H1 H2]. rewrite (IH H2). f_equal.
  destruct (Ascii.eqb_spec d a) as [->|N].
  - now rewrite Ascii.eqb_refl.
  - rewrite Ascii.eqb_sym in H1. now rewrite H1.
Qed.

(** Replacement of a dot or a slash by a hyphen commutes with stripping
    and uppercasing: none of the three characters is white space or a
    letter. *)
Lemma plain_chars : plain "." /\ plain "/" /\ plain "-".
Proof.
  repeat split; try reflexivity; intros c; by_cases_on_char c.
Qed.

Lemma upper_char_plain a : plain a -> upper_char a = a.
Proof.
  intros [_ H]. specialize (H a). rewrite Ascii.eqb_refl in H.
  now apply Ascii.eqb_eq.
Qed.

Lemma upper_replace a b s :
  plain a -> plain b -> upper (replace a b s) = replace a b (upper s).
Proof.
  intros Ha Hb. induction s as [|d r IH]; simpl; [reflexivity|].
  rewrite IH. f_equal. rewrite (proj2 Ha d).
  destruct (Ascii.eqb d a); [now apply upper_char_plain | reflexivity].
Qed.

Lemma isspace_replaced a b d :
  plain a -> plain b ->
  isspace (if Ascii.eqb d a then b else d) = isspace d.
Proof.
  intros [Ha _] [Hb _]. destruct (Ascii.eqb_spec d a) as [->|N]; congruence.
Qed.

Lemma lstrip_replace a b s :
  plain a -> plain b -> lstrip (replace a b s) = replace a b (lstrip s).
Proof.
  intros Ha Hb. induction s as [|d r IH]; simpl; [reflexivity|].
  rewrite isspace_replaced by assumption.
  destruct (isspace d); [exact IH | reflexivity].
Qed.

Lemma rstrip_replace a b s :
  plain a -> plain b -> rstrip (replace a b s) = replace a b (rstrip s).
Proof.
  intros Ha Hb. induction s as [|d r IH]; simpl; [reflexivity|].
  rewrite IH, isspace_replaced by assumption.
  destruct (rstrip r); simpl; [destruct (isspace d)|]; reflexivity.
Qed.

Lemma strip_replace a b s :
  plain a -> plain b -> strip (replace a b s) = replace a b (strip s).
Proof.
  intros Ha Hb. unfold strip. now rewrite lstrip_replace, rstrip_replace.
Qed.

(** Without a caret the result is the normal form of the ticker with
    every dot and slash replaced by a hyphen, whichever of the two
    replacement branches runs. *)
Lemma to_yahoo_symbol_caret_free s :
  contains "^" s = false ->
  to_yahoo_symbol s = dots_and_slashes_to_hyphen (upper (strip s)).
Proof.
  intros H. rewrite to_yahoo_symbol_rules. unfold toVendorForm.
  rewrite contains_caret_upper, (contains_strip _ _ H).
  destruct (existsb _ _); [|reflexivity].
  unfold slashes_and_dots_to_hyphen, dots_and_slashes_to_hyphen.
  apply replace_comm.
Qed.

Lemma hyphenated_normal u :
  upper (strip u) = u ->
  upper (strip (dots_and_slashes_to_hyphen u)) = dots_and_slashes_to_hyphen u.
Proof.
  intros H. destruct plain_chars as (Pd & Ps & Ph).
  unfold dots_and_slashes_to_hyphen.
  rewrite !strip_replace, !upper_replace by assumption. now rewrite H.
Qed.

Lemma hyphenated_clean u :
  contains "." (dots_and_slashes_to_hyphen u) = false
  /\ contains "/" (dots_and_slashes_to_hyphen u) = false.
Proof.
  unfold dots_and_slashes_to_hyphen. split.
  - apply contains_replace_other; [discriminate|].
    apply contains_replace_gone. discriminate.
  - apply contains_replace_gone. discriminate.
Qed.

End AdapterFacts.

(** X1. On a ticker without a caret, [to_yahoo_symbol] is idempotent:
    applying it to its own result changes nothing, and the result has
    neither a dot nor a slash. *)
Theorem X1_to_yahoo_symbol_idempotent :
  forall s : string,
    PyStr.contains "^" s = false ->
    Normalize.to_yahoo_symbol (Normalize.to_yahoo_symbol s)
    = Normalize.to_yahoo_symbol s
    /\ PyStr.contains "." (Normalize.to_yahoo_symbol s) = false
    /\ PyStr.contains "/" (Normalize.to_yahoo_symbol s) = false.
Proof.
  intros s H.
  rewrite (AdapterFacts.to_yahoo_symbol_caret_free s H).
  set (u := PyStr.upper (PyStr.strip s)).
  assert (Hu : PyStr.upper (PyStr.strip u) = u)
    by apply PyStrFacts.upper_strip_idem.
  destruct (AdapterFacts.hyphenated_clean u) as [Hd Hs].
  split; [|split; assumption].
  rewrite AdapterFacts.to_yahoo_symbol_caret_free.
  - rewrite (AdapterFacts.hyphenated_normal u Hu).
    unfold Normalize.dots_and_slashes_to_hyphen at 1.
    fold (Normalize.dots_and_slashes_to_hyphen u).
    now rewrite (AdapterFacts.replace_absent "." "-" _ Hd),
      (AdapterFacts.replace_absent "/" "-" _ Hs).
  - unfold Normalize.dots_and_slashes_to_hyphen.
    repeat (apply AdapterFacts.contains_replace_other; [discriminate|]).
    unfold u. rewrite PyStrFacts.contains_caret_upper.
    now apply AdapterFacts.contains_strip.
Qed.

Lemma X1_to_yahoo_symbol_idempotent_witness :
  PyStr.contains "^" " brk.b/ws " = false
  /\ (Normalize.to_yahoo_symbol (Normalize.to_yahoo_symbol " brk.b/ws ")
      = Normalize.to_yahoo_symbol " brk.b/ws "
      /\ PyStr.contains "." (Normalize.to_yahoo_symbol " brk.b/ws ") = false
      /\ PyStr.contains "/" (Normalize.to_yahoo_symbol " brk.b/ws ") = false).
Proof.
  split; [reflexivity|].
  apply (X1_to_yahoo_symbol_idempotent " brk.b/ws "). reflexivity.
Defined.

(** X2. [from_yahoo_symbol] undoes [to_yahoo_symbol] on a ticker in
    normal form (stripped, upper case) that has no caret, no slash and no
    hyphen: the share-class dot comes back. *)
Theorem X2_from_yahoo_symbol_round_trip :
  forall t : string,
    PyStr.upper (PyStr.strip t) = t ->
    PyStr.contains "^" t = false ->
    PyStr.contains "/" t = false ->
    PyStr.contains "-" t = false ->
    Normalize.from_yahoo_symbol (Normalize.to_yahoo_symbol t) = t.
Proof.
  intros t Hn Hc Hs Hh.
  rewrite (AdapterFacts.to_yahoo_symbol_caret_free t Hc), Hn.
  unfold Normalize.from_yahoo_symbol, Normalize.dots_and_slashes_to_hyphen.
  rewrite (AdapterFacts.replace_absent "/" "-").
  - now apply AdapterFacts.replace_back.
  - apply AdapterFacts.contains_replace_other; [discriminate | exact Hs].
Qed.

Lemma X2_from_yahoo_symbol_round_trip_witness :
  PyStr.upper (PyStr.strip "BRK.B") = "BRK.B"
  /\ PyStr.contains "^" "BRK.B" = false
  /\ PyStr.contains "/" "BRK.B" = false
  /\ PyStr.contains "-" "BRK.B" = false
  /\ Normalize.from_yahoo_symbol (Normalize.to_yahoo_symbol "BRK.B") = "BRK.B".
Proof.
  repeat (split; [reflexivity|]).
  apply (X2_from_yahoo_symbol_round_trip "BRK.B"); reflexivity.
Defined.

(* ================================================================== *)
(** * More on the resolver *)

Module BatchFacts.
Import PyDict PyDictFacts Utils VendorYahoo Observe.

(** ** Batches *)

Lemma chunks_concat {A} (s : nat) :
  forall (c : nat) (l : list A),
    (List.length l <= c * s)%nat ->
    List.concat (map (fun j => firstn s (skipn (j * s) l)) (seq 0 c)) = l.
Proof.
  induction c as [|c IH]; intros l H.
  - simpl in *. destruct l; [reflexivity | simpl in H; lia].
  - cbn [seq map List.concat]. rewrite <- seq_shift, map_map.
    cbn [Nat.mul skipn].
    rewrite (map_ext _ (fun j => firstn s (skipn (j * s) (skipn s l)))).
    + rewrite IH; [apply firstn_skipn|].
      rewrite length_skipn. simpl in H. lia.
    + intros j. rewrite skipn_skipn. f_equal. f_equal. simpl. lia.
Qed.

Lemma range_count_bounds (n s : nat) :
  (0 < s)%nat ->
  (n <= (n + s - 1) / s * s)%nat
  /\ forall j, (j < (n + s - 1) / s)%nat -> (j * s < n)%nat.
Proof.
  intros Hs.
  pose proof (Nat.div_mod_eq (n + s - 1) s) as E.
  pose proof (Nat.mod_upper_bound (n + s - 1) s ltac:(lia)) as U.
  set (q := ((n + s - 1) / s)%nat) in *.
  set (r := ((n + s - 1) mod s)%nat) in *.
  split; [nia|]. intros j Hj. nia.
Qed.

(** The batches of a positive batch size: consecutive, non-empty, no
    longer than the batch size, and together the whole list. *)
Lemma batches_partition {A} (l : list A) (batch_size : Z) :
  0 < batch_size ->
  exists starts,
    py_range0 (List.length l) batch_size = Returned starts
    /\ List.length starts
       = ((List.length l + Z.to_nat batch_size - 1) / Z.to_nat batch_size)%nat
    /\ List.concat (map (fun i => slice l i batch_size) starts) = l
    /\ forall b, In b (map (fun i => slice l i batch_size) starts) ->
                 b <> [] /\ Z.of_nat (List.length b) <= batch_size.
Proof.
  intros Hb. unfold py_range0.
  destruct (Z.eqb_spec batch_size 0) as [E|_]; [lia|].
  destruct (Z.ltb_spec batch_size 0) as [E|_]; [lia|].
  set (s := Z.to_nat batch_size). set (n := List.length l).
  assert (Hs : (0 < s)%nat) by (unfold s; lia).
  destruct (range_count_bounds n s Hs) as [Hall Hlt].
  eexists. split; [reflexivity|]. split; [now rewrite length_map, length_seq|].
  rewrite map_map. unfold slice. fold s. split.
  - now apply chunks_concat.
  - intros b Hin. apply in_map_iff in Hin. destruct Hin as (j & <- & Hj).
    apply in_seq in Hj. specialize (Hlt j ltac:(lia)).
    assert (L : List.length (firstn s (skipn (j * s) l))
                = Nat.min s (n - j * s))
      by now rewrite length_firstn, length_skipn.
    split.
    + intros E. rewrite E in L. simpl in L. lia.
    + rewrite L. unfold s in *. lia.
Qed.

(** ** The first bar with a close *)

Lemma first_valid_Some (c : closes) (d : date) :
  first_valid c = Some d <->
  exists pre p post,
    c = (pre ++ (d, Some p) :: post)%list
    /\ Forall (fun bar => snd bar = None) pre.
Proof.
  induction c as [|[d0 [p0|]] r IH]; simpl.
  - split; [discriminate|]. intros (pre & p & post & E & _).
    destruct pre; discriminate.
  - split.
    + intros [= <-]. exists [], p0, r. split; [reflexivity | constructor].
    + intros (pre & p & post & E & F). destruct pre as [|b pre].
      * injection E as Ed Ep Er. now subst.
      * injection E as Eb Er. subst b. inversion F as [|? ? Hb _]. discriminate.
  - rewrite IH. split.
    + intros (pre & p & post & -> & F). exists ((d0, None) :: pre), p, post.
      split; [reflexivity | now constructor].
    + intros (pre & p & post & E & F). destruct pre as [|b pre]; [discriminate|].
      injection E as Eb Er. subst b r. inversion F; subst.
      now exists pre, p, post.
Qed.

Lemma first_valid_None (c : closes) :
  first_valid c = None <-> Forall (fun bar => snd bar = None) c.
Proof.
  induction c as [|[d0 [p0|]] r IH]; simpl.
  - split; [constructor | reflexivity].
  - split; [discriminate|]. intros F. inversion F as [|? ? Hb _]. discriminate.
  - rewrite IH. split; [now constructor | now inversion 1].
Qed.

(** ** Counting vendor calls *)

Lemma vendor_calls_app (a b : list event) :
  vendor_calls (a ++ b) = (vendor_calls a + vendor_calls b)%nat.
Proof.
  induction a as [|[y|y|q] a IH]; simpl; [reflexivity| | |]; now rewrite IH.
Qed.

Lemma vendor_calls_throttle (seconds : Q) (log : list event) :
  vendor_calls (throttle seconds log) = vendor_calls log.
Proof.
  unfold throttle. destruct (Qle_bool seconds 0); [reflexivity|].
  rewrite vendor_calls_app. simpl. lia.
Qed.

Section Vendor.
Variable World : Type.
Variable download : World -> list string -> outcome frame * World.
Variable download_one : World -> string -> outcome closes * World.

Let calls (st : state World) : nat := vendor_calls (log World st).

Lemma calls_sleep q st : calls (sleep World q st) = calls st.
Proof. unfold calls, sleep. simpl. apply vendor_calls_throttle. Qed.

Lemma calls_batch_fetch pause ybatch remaining :
  forall attempt st,
    (calls (snd (batch_fetch World download pause ybatch remaining attempt st))
     <= calls st + remaining)%nat.
Proof.
  induction remaining as [|n IH]; intros attempt st; simpl; [lia|].
  unfold call_download.
  destruct (download (world World st) ybatch) as [[df| |] w].
  - unfold calls. simpl. rewrite vendor_calls_app. simpl. lia.
  - destruct (backoff pause attempt) as [wait|e].
    + eapply Nat.le_trans; [apply IH|]. rewrite calls_sleep.
      unfold calls. simpl. rewrite vendor_calls_app. simpl. lia.
    + unfold calls. simpl. rewrite vendor_calls_app. simpl. lia.
  - unfold calls. simpl. rewrite vendor_calls_app. simpl. lia.
Qed.

Lemma calls_single_fetch pause t ysym remaining :
  forall attempt results st,
    (calls (snd (single_fetch World download_one pause t ysym remaining
                   attempt results st))
     <= calls st + remaining)%nat.
Proof.
  induction remaining as [|n IH]; intros attempt results st; simpl; [lia|].
  destruct (mem t results); [simpl; lia|].
  unfold call_download_one.
  destruct (download_one (world World st) ysym) as [[c| |] w].
  - destruct (first_valid c); unfold calls; simpl;
      rewrite vendor_calls_app; simpl; lia.
  - destruct (backoff pause attempt) as [wait|e].
    + eapply Nat.le_trans; [apply IH|]. rewrite calls_sleep.
      unfold calls. simpl. rewrite vendor_calls_app. simpl. lia.
    + unfold calls. simpl. rewrite vendor_calls_app. simpl. lia.
  - unfold calls. simpl. rewrite vendor_calls_app. simpl. lia.
Qed.

Lemma calls_fallback pause max_retries missing :
  forall results st,
    (calls (snd (fallback World download_one pause max_retries missing
                   results st))
     <= calls st + Z.to_nat (max_retries + 1) * List.length missing)%nat.
Proof.
  induction missing as [|t r IH]; intros results st; simpl; [lia|].
  pose proof (calls_single_fetch pause t (Normalize.to_yahoo_symbol t)
                (Z.to_nat (max_retries + 1)) 0 results st) as H1.
  destruct (single_fetch World download_one pause t
              (Normalize.to_yahoo_symbol t) (Z.to_nat (max_retries + 1)) 0
              results st) as [[results1|e] st1]; simpl in H1.
  - eapply Nat.le_trans; [apply IH|]. rewrite calls_sleep. nia.
  - simpl. nia.
Qed.

Lemma calls_process_batch pause max_retries batch results st :
  (calls (snd (process_batch World download download_one pause max_retries
                 batch results st))
   <= calls st
      + Z.to_nat (max_retries + 1) * (1 + List.length batch))%nat.
Proof.
  unfold process_batch.
  pose proof (calls_batch_fetch pause (map Normalize.to_yahoo_symbol batch)
                (Z.to_nat (max_retries + 1)) 0 st) as H1.
  destruct (batch_fetch World download pause
              (map Normalize.to_yahoo_symbol batch)
              (Z.to_nat (max_retries + 1)) 0 st) as [[df|e] st1];
    simpl in H1; [|simpl; nia].
  set (results1 := take_frame df batch _ results).
  set (missing := filter _ batch).
  pose proof (calls_fallback pause max_retries missing results1 st1) as H2.
  assert (L : (List.length missing <= List.length batch)%nat)
    by apply filter_length_le.
  destruct (fallback World download_one pause max_retries missing results1 st1)
    as [[results2|e] st2]; simpl in *; [rewrite calls_sleep|]; nia.
Qed.

Lemma calls_batches_loop pause max_retries batches :
  forall results st,
    (calls (snd (batches_loop World download download_one pause max_retries
                   batches results st))
     <= calls st
        + Z.to_nat (max_retries + 1)
          * (List.length batches + List.length (List.concat batches)))%nat.
Proof.
  induction batches as [|b r IH]; intros results st; simpl; [lia|].
  pose proof (calls_process_batch pause max_retries b results st) as H1.
  destruct (process_batch World download download_one pause max_retries b
              results st) as [[results1|e] st1]; simpl in H1.
  - eapply Nat.le_trans; [apply IH|]. rewrite length_app. nia.
  - simpl. rewrite length_app. nia.
Qed.

End Vendor.
End BatchFacts.

(** X3. For a positive batch size the resolver's batches are consecutive
    slices of its normalised tickers that are non-empty, at most
    [batch_size] long, [ceil(n / batch_size)] in number and, put
    together, the whole list: batching drops and repeats no ticker. *)
Theorem X3_batches_partition_tickers :
  forall (tickers : list pyobj) (batch_size : Z),
    0 < batch_size ->
    let norm := VendorYahoo.normalize_tickers tickers in
    exists starts,
      VendorYahoo.py_range0 (List.length norm) batch_size = Returned starts
      /\ List.length starts
         = ((List.length norm + Z.to_nat batch_size - 1)
            / Z.to_nat batch_size)%nat
      /\ List.concat
           (map (fun i => VendorYahoo.slice norm i batch_size) starts) = norm
      /\ forall b,
          In b (map (fun i => VendorYahoo.slice norm i batch_size) starts) ->
          b <> [] /\ Z.of_nat (List.length b) <= batch_size.
Proof.
  intros tickers batch_size H norm. now apply BatchFacts.batches_partition.
Qed.

Lemma X3_batches_partition_tickers_witness :
  0 < 2
  /\ exists starts,
      VendorYahoo.py_range0
        (List.length (VendorYahoo.normalize_tickers Scripted.mixed_input)) 2
      = Returned starts
      /\ List.length starts
         = ((List.length (VendorYahoo.normalize_tickers Scripted.mixed_input)
             + Z.to_nat 2 - 1) / Z.to_nat 2)%nat
      /\ List.concat
           (map (fun i =>
                   VendorYahoo.slice
                     (VendorYahoo.normalize_tickers Scripted.mixed_input) i 2)
              starts)
         = VendorYahoo.normalize_tickers Scripted.mixed_input
      /\ forall b,
          In b (map (fun i =>
                       VendorYahoo.slice
                         (VendorYahoo.normalize_tickers Scripted.mixed_input)
                         i 2)
                  starts) ->
          b <> [] /\ Z.of_nat (List.length b) <= 2.
Proof.
  split; [lia|].
  apply (X3_batches_partition_tickers Scripted.mixed_input 2). lia.
Defined.

(** X4. The date the resolver takes from a [Close] column is the date of
    the first bar that has a close: every bar before it has none; and it
    takes no date exactly when no bar has a close. *)
Theorem X4_first_valid_is_first_close :
  forall c : closes,
    (forall d,
        first_valid c = Some d <->
        exists pre p post,
          c = (pre ++ (d, Some p) :: post)%list
          /\ Forall (fun bar => snd bar = None) pre)
    /\ (first_valid c = None <-> Forall (fun bar => snd bar = None) c).
Proof.
  intros c. split.
  - intros d. apply BatchFacts.first_valid_Some.
  - apply BatchFacts.first_valid_None.
Qed.

(** X5. For a positive batch size the resolver calls the vendor at most
    [(max_retries + 1) * (ceil(n / batch_size) + n)] times, [n] being the
    number of normalised tickers: each batch and each symbol has its own
    bounded retry loop. *)
Theorem X5_vendor_calls_bounded :
  forall (World : Type)
         (download : World -> list string -> outcome frame * World)
         (download_one : World -> string -> outcome closes * World)
         (tickers : list pyobj) (batch_size : Z) (pause : Q) (max_retries : Z)
         (st : VendorYahoo.state World),
    0 < batch_size ->
    let n := List.length (VendorYahoo.normalize_tickers tickers) in
    let s := Z.to_nat batch_size in
    (Observe.vendor_calls
       (VendorYahoo.log World
          (snd (VendorYahoo.earliest_vendor_dates World download download_one
                  tickers batch_size pause max_retries st)))
     <= Observe.vendor_calls (VendorYahoo.log World st)
        + Z.to_nat (max_retries + 1) * ((n + s - 1) / s + n))%nat.
Proof.
  intros World download download_one tickers batch_size pause max_retries st
    Hb n s.
  unfold VendorYahoo.earliest_vendor_dates.
  destruct (BatchFacts.batches_partition
              (VendorYahoo.normalize_tickers tickers) batch_size Hb)
    as (starts & -> & Hlen & Hcat & _).
  pose proof (BatchFacts.calls_batches_loop World download download_one pause
                max_retries
                (map (fun i =>
                        VendorYahoo.slice
                          (VendorYahoo.normalize_tickers tickers) i batch_size)
                   starts) [] st) as H.
  destruct (VendorYahoo.batches_loop _ _ _ _ _ _ _ _) as [results st1].
  simpl in *. rewrite length_map, Hcat, Hlen in H. exact H.
Qed.

Lemma X5_vendor_calls_bounded_witness :
  0 < 50
  /\ (Observe.vendor_calls
        (VendorYahoo.log Scripted.world
           (snd (VendorYahoo.earliest_vendor_dates Scripted.world
                   Scripted.download Scripted.download_one
                   [PyStr "AAPL"] 50 1 3
                   (Scripted.start Scripted.limited_four_times))))
      <= Observe.vendor_calls
           (VendorYahoo.log Scripted.world
              (Scripted.start Scripted.limited_four_times))
         + Z.to_nat (3 + 1)
           * ((List.length (VendorYahoo.normalize_tickers [PyStr "AAPL"])
               + Z.to_nat 50 - 1) / Z.to_nat 50
              + List.length (VendorYahoo.normalize_tickers [PyStr "AAPL"])))%nat.
Proof.
  split; [lia|].
  apply (X5_vendor_calls_bounded Scripted.world Scripted.download
           Scripted.download_one [PyStr "AAPL"] 50 1 3
           (Scripted.start Scripted.limited_four_times)).
  lia.
Defined.

(* ================================================================== *)
(** * The resolver against particular vendors *)

Module VendorCases.
Import PyDict PyDictFacts Utils VendorYahoo Observe BatchFacts.


Lemma filter_none {A} (f : A -> bool) (l : list A) :
  (forall a, In a l -> f a = false) -> filter f l = [].
Proof.
  induction l as [|a l IH]; simpl; intros H; [reflexivity|].
  rewrite (H a (or_introl eq_refl)). apply IH. intros b Hb. apply H. now right.
Qed.


Section Vendor.
Variable World : Type.
Variable download : World -> list string -> outcome frame * World.
Variable download_one : World -> string -> outcome closes * World.

(** ** A vendor whose grouped download always has every symbol *)

Hypothesis knows_all :
  forall w ybatch,
    exists cols w',
      download w ybatch = (Data (MultiFrame cols), w')
      /\ forall y, In y ybatch ->
                   exists c d, get y cols = Some c /\ first_valid c = Some d.



End Vendor.

Section NoRetries.
Variable World : Type.
Variable download : World -> list string -> outcome frame * World.
Variable download_one : World -> string -> outcome closes * World.

(** ** A negative retry budget *)



End NoRetries.
End VendorCases.




Example generous_run_mixed_input :
  VendorYahoo.earliest_vendor_dates Generous.world Generous.download
    Generous.download_one Scripted.mixed_input 2 1 3 Generous.start
  = (Returned [("AAPL", 730120); ("BRK.B", 730120); ("ZZZZ", 730120)],
     VendorYahoo.mkState Generous.world tt
       [Download ["AAPL"; "BRK-B"]; Sleep 1; Download ["ZZZZ"]; Sleep 1]).
Proof. vm_compute. reflexivity. Qed.



(* ================================================================== *)
(** * The table a cached run writes and returns *)

Module RunFacts.
Import PyStr PyStrFacts PyDict PyDictFacts VendorYahoo Cli.
Import NormalizeTickersFacts CacheFacts GroupFacts.

Local Abbreviation table_of cached fetched :=
  (dropna (sorted_rows (merge_maps cached fetched))).

(** ** Keys are upper case *)

Lemma keys_upper_load_rows rows :
  forall cached,
    (forall k, In k (keys cached) -> upper k = k) ->
    forall k, In k (keys (load_rows rows cached)) -> upper k = k.
Proof.
  induction rows as [|[sym cell] r IH]; simpl; intros cached H k Hk.
  - now apply H.
  - destruct cell; [now apply (IH cached) | | now apply H].
    apply (IH _) in Hk; [exact Hk|].
    intros k' Hk'. apply In_keys_set in Hk'.
    destruct Hk' as [->|Hk']; [apply upper_idem | now apply H].
Qed.

Lemma keys_upper_load_cache cache_path file force_recheck k :
  In k (keys (load_cache cache_path file force_recheck)) -> upper k = k.
Proof.
  unfold load_cache.
  destruct (cache_path && negb force_recheck); [|intros []].
  destruct file as [[| |rows]|]; try (intros []).
  apply keys_upper_load_rows. intros k' [].
Qed.

Lemma In_keys_merge_maps cached fetched k :
  In k (keys (merge_maps cached fetched)) <->
  In k (map (fun row => upper (fst row)) fetched) \/ In k (keys cached).
Proof.
  unfold merge_maps.
  rewrite (In_keys_fold (fun row : string * date => upper (fst row))
             (fun row => Some (snd row))).
  rewrite (In_keys_fold (fun sd : string * date => fst sd)
             (fun sd => Some (snd sd))).
  simpl. unfold keys. tauto.
Qed.

(** ** Order of the rows *)

Lemma keys_insert_row {V} (r : string * V) (l : list (string * V)) :
  map fst (insert_row r l) = insert_key (fst r) (map fst l).
Proof.
  induction l as [|r' l IH]; simpl; [reflexivity|].
  destruct (String.leb (fst r) (fst r')); simpl; [reflexivity | now rewrite IH].
Qed.

Lemma keys_sorted_rows {V} (l : list (string * V)) :
  map fst (sorted_rows l) = fold_right insert_key [] (map fst l).
Proof.
  unfold sorted_rows. induction l as [|a l IH]; simpl; [reflexivity|].
  now rewrite keys_insert_row, IH.
Qed.

Lemma In_fold_insert_key l x : In x (fold_right insert_key [] l) <-> In x l.
Proof.
  induction l as [|a l IH]; simpl; [tauto|].
  rewrite In_insert_key, IH. intuition.
Qed.

Lemma ascending_sorted_rows {V} (l : list (string * V)) :
  NoDup (map fst l) -> ascending (map fst (sorted_rows l)).
Proof.
  rewrite keys_sorted_rows.
  induction (map fst l) as [|a r IH]; simpl; intros ND; [constructor|].
  inversion ND as [|? ? NI ND']; subst.
  apply ascending_insert_key; [now apply IH|].
  now rewrite In_fold_insert_key.
Qed.

Lemma ascending_tail a l : ascending (a :: l) -> ascending l.
Proof. unfold ascending. now inversion 1. Qed.

Lemma ascending_head a l x :
  ascending (a :: l) -> In x l -> String.ltb a x = true.
Proof.
  unfold ascending. inversion 1 as [|? ? _ F]; subst.
  rewrite Forall_forall in F. apply F.
Qed.

Lemma ascending_cons a l :
  ascending l -> (forall x, In x l -> String.ltb a x = true) ->
  ascending (a :: l).
Proof.
  unfold ascending. intros S F. constructor; [exact S|].
  now apply Forall_forall.
Qed.

Lemma ascending_dropna (rows : list (string * option date)) :
  ascending (map fst rows) -> ascending (map fst (dropna rows)).
Proof.
  induction rows as [|[s [d|]] r IH]; simpl; intros A; [exact A| |].
  - apply ascending_cons; [apply IH; eapply ascending_tail; eauto|].
    intros x Hx. apply (ascending_head s (map fst r)); [exact A|].
    apply in_map_iff in Hx. destruct Hx as ([s' d'] & <- & Hin).
    apply In_dropna in Hin. now apply (in_map fst) in Hin.
  - apply IH. eapply ascending_tail; eauto.
Qed.

Lemma ascending_filter {V} (f : string * V -> bool) (rows : list (string * V)) :
  ascending (map fst rows) -> ascending (map fst (filter f rows)).
Proof.
  induction rows as [|r rows IH]; simpl; intros A; [exact A|].
  destruct (f r); simpl.
  - apply ascending_cons; [apply IH; eapply ascending_tail; eauto|].
    intros x Hx. apply (ascending_head (fst r) (map fst rows)); [exact A|].
    apply in_map_iff in Hx. destruct Hx as (y & <- & Hin).
    apply filter_In in Hin. now apply in_map.
  - apply IH. eapply ascending_tail; eauto.
Qed.

(** A list already in ascending order of its symbols is left as it is. *)
Lemma sorted_rows_ascending {V} (l : list (string * V)) :
  ascending (map fst l) -> sorted_rows l = l.
Proof.
  unfold sorted_rows. induction l as [|a l IH]; simpl; intros A; [reflexivity|].
  rewrite IH by (eapply ascending_tail; eauto).
  destruct l as [|b l]; [reflexivity|]. simpl.
  assert (L : String.ltb (fst a) (fst b) = true).
  { apply (ascending_head (fst a) (map fst (b :: l))); [exact A | now left]. }
  assert (E : String.leb (fst a) (fst b) = true) by (apply leb_true; now right).
  now rewrite E.
Qed.

Lemma ascending_table_of cached fetched :
  ascending (map fst (table_of cached fetched)).
Proof.
  apply ascending_dropna, ascending_sorted_rows.
  apply NoDup_keys_merge_maps.
Qed.

Lemma keys_upper_table_of cache_path file force_recheck fetched k :
  In k (map fst (table_of (load_cache cache_path file force_recheck) fetched)) ->
  upper k = k.
Proof.
  intros H. apply in_map_iff in H. destruct H as ([s d] & <- & Hin). simpl.
  rewrite In_dropna, In_sorted_rows in Hin.
  apply (in_map fst) in Hin. simpl in Hin.
  apply In_keys_merge_maps in Hin. destruct Hin as [Hin|Hin].
  - apply in_map_iff in Hin. destruct Hin as (row & <- & _). apply upper_idem.
  - eapply keys_upper_load_cache; eauto.
Qed.

(** ** Reading back what was written *)

Lemma set_new {V} k (v : V) (d : dict V) :
  ~ In k (keys d) -> set k v d = (d ++ [(k, v)])%list.
Proof.
  unfold keys. induction d as [|[k' v'] d IH]; simpl; intros NI; [reflexivity|].
  destruct (String.eqb_spec k' k); [tauto|]. f_equal. apply IH. tauto.
Qed.

Lemma load_rows_to_csv (t : table) :
  forall cached,
    NoDup (keys cached ++ map fst t) ->
    (forall k, In k (map fst t) -> upper k = k) ->
    load_rows (map (fun sd => (Some (fst sd), DateText (snd sd))) t) cached
    = (cached ++ t)%list.
Proof.
  induction t as [|[s d] t IH]; simpl; intros cached ND Hu.
  - now rewrite app_nil_r.
  - rewrite (Hu s (or_introl eq_refl)).
    assert (NI : ~ In s (keys cached)).
    { intros Hin. apply NoDup_remove_2 in ND. apply ND, in_or_app. now left. }
    rewrite (set_new s d cached NI), IH.
    + now rewrite <- app_assoc.
    + unfold keys in *. rewrite map_app, <- app_assoc. exact ND.
    + intros k Hk. apply Hu. now right.
Qed.

Lemma load_cache_to_csv (t : table) :
  ascending (map fst t) ->
  (forall k, In k (map fst t) -> upper k = k) ->
  load_cache true (Some (to_csv t)) false = t.
Proof.
  intros A Hu. unfold load_cache, to_csv. simpl.
  rewrite load_rows_to_csv; [reflexivity | | exact Hu].
  simpl. now apply NoDup_ascending.
Qed.

(** A written table none of whose symbols is read as a missing value is
    read back as it was written. *)
Lemma read_back_to_csv (t : table) :
  (forall k, In k (map fst t) -> read_symbol k = Some k) ->
  read_back (to_csv t) = to_csv t.
Proof.
  intros H. unfold to_csv, read_back, read_back_rows. f_equal.
  rewrite map_map. apply map_ext_in. intros [s d] Hin. cbn [fst snd].
  rewrite (H s); [reflexivity|]. now apply (in_map fst) in Hin.
Qed.

Lemma read_symbol_cases s :
  read_symbol s = Some s \/ read_symbol s = None.
Proof. unfold read_symbol. destruct (existsb _ _); tauto. Qed.

(** The keys of a loaded cache are the upper-case texts of symbol
    cells. *)
Lemma keys_load_rows_from rows :
  forall cached k,
    In k (keys (load_rows rows cached)) ->
    In k (keys cached)
    \/ In k (map (fun r => upper (str_of_cell (fst r))) rows).
Proof.
  induction rows as [|[sym cell] r IH]; simpl; intros cached k Hk;
    [now left|].
  destruct cell.
  - destruct (IH _ _ Hk); tauto.
  - destruct (IH _ _ Hk) as [H|H]; [|tauto].
    apply In_keys_set in H. destruct H as [->|H]; tauto.
  - now left.
Qed.

(** A written symbol that is read as a missing value is not a key of
    the cache loaded from the file. *)
Lemma lost_on_reload (t : table) k :
  (forall k', In k' (map fst t) -> upper k' = k') ->
  read_symbol k = None ->
  get k (load_cache true (Some (read_back (to_csv t))) false) = None.
Proof.
  intros Hu Hk.
  assert (M : mem k (load_cache true (Some (read_back (to_csv t))) false)
              = false).
  { apply mem_false_keys. intros Hin.
    unfold load_cache, read_back, read_back_rows, to_csv in Hin.
    cbn [andb negb] in Hin.
    apply keys_load_rows_from in Hin. destruct Hin as [[]|Hin].
    rewrite !map_map in Hin. cbn [fst snd] in Hin.
    apply in_map_iff in Hin. destruct Hin as ([s d] & E & Hin).
    cbn [fst] in E.
    destruct (read_symbol_cases s) as [R|R]; rewrite R in E; cbn in E.
    - rewrite (Hu s) in E by (now apply (in_map fst) in Hin).
      subst k. congruence.
    - subst k. discriminate. }
  unfold mem in M. now destruct (get k _).
Qed.

Section Vendor.
Variable World : Type.
Variable download : World -> list string -> outcome frame * World.
Variable download_one : World -> string -> outcome closes * World.

(** A completed run, taken apart. *)
Lemma run_returned tickers cache_path file batch_size pause max_retries
    force_recheck st r st' :
  earliest_vendor_dates_with_cache World download download_one tickers
    cache_path file batch_size pause max_retries force_recheck st
  = (Returned r, st') ->
  let tickers' := strip_upper_all tickers in
  let cached := load_cache cache_path file force_recheck in
  exists fetched,
    fetch World download download_one (to_fetch tickers' cached force_recheck)
      batch_size pause max_retries st = (Returned fetched, st')
    /\ r = mkRun (isin tickers' (table_of cached fetched))
             (if cache_path then Some (to_csv (table_of cached fetched))
              else file).
Proof.
  intros H tickers' cached.
  unfold earliest_vendor_dates_with_cache in H. fold tickers' cached in H.
  destruct (fetch World download download_one
              (to_fetch tickers' cached force_recheck) batch_size pause
              max_retries st) as [[fetched|e] s1]; [|discriminate].
  injection H as <- <-. now exists fetched.
Qed.

End Vendor.
End RunFacts.

(** X8. The frame a completed run returns lists only requested tickers
    (in their stripped, upper-case form), in strictly ascending symbol
    order, hence each at most once; with a cache path, the file written
    holds a table in ascending symbol order that contains every returned
    row. *)
Theorem X8_returned_rows_requested_and_sorted :
  forall (World : Type)
         (download : World -> list string -> outcome frame * World)
         (download_one : World -> string -> outcome closes * World)
         (tickers : list string) (cache_path : bool)
         (file : option VendorYahoo.csv) (batch_size : Z) (pause : Q)
         (max_retries : Z) (force_recheck : bool)
         (st st' : VendorYahoo.state World) (r : VendorYahoo.run),
    VendorYahoo.earliest_vendor_dates_with_cache World download download_one
      tickers cache_path file batch_size pause max_retries force_recheck st
    = (Returned r, st') ->
    Cli.ascending (map fst (VendorYahoo.returned r))
    /\ (forall s d, In (s, d) (VendorYahoo.returned r) ->
                    In s (VendorYahoo.strip_upper_all tickers))
    /\ (cache_path = true ->
        exists t,
          VendorYahoo.file_after r = Some (VendorYahoo.to_csv t)
          /\ Cli.ascending (map fst t)
          /\ incl (VendorYahoo.returned r) t).
Proof.
  intros World download download_one tickers cache_path file batch_size pause
    max_retries force_recheck st st' r H.
  destruct (RunFacts.run_returned World download download_one _ _ _ _ _ _ _ _
              _ _ H) as (fetched & _ & ->).
  cbn [VendorYahoo.returned VendorYahoo.file_after].
  split; [|split].
  - apply RunFacts.ascending_filter, RunFacts.ascending_table_of.
  - intros s d Hin. now apply CacheFacts.In_isin in Hin.
  - intros ->. eexists. split; [reflexivity|].
    split; [apply RunFacts.ascending_table_of|].
    intros [s d] Hin. now apply CacheFacts.In_isin in Hin.
Qed.

Lemma X8_returned_rows_requested_and_sorted_witness :
  let r :=
    VendorYahoo.mkRun
      [("AAPL", Scripted.d2000); ("BRK.B", Scripted.d1999)]
      (Some (VendorYahoo.Rows
               [(Some "AAPL", VendorYahoo.DateText Scripted.d2000);
                (Some "BRK.B", VendorYahoo.DateText Scripted.d1999)])) in
  VendorYahoo.earliest_vendor_dates_with_cache Scripted.world
    Scripted.download Scripted.download_one ["aapl"; "BRK.B"] true
    (Some Scripted.cache_aapl) 50 1 3 false (Scripted.start Scripted.knows_brk)
  = (Returned r,
     VendorYahoo.mkState Scripted.world ([], []) [Download ["BRK-B"]; Sleep 1])
  /\ (Cli.ascending (map fst (VendorYahoo.returned r))
      /\ (forall s d, In (s, d) (VendorYahoo.returned r) ->
                      In s (VendorYahoo.strip_upper_all ["aapl"; "BRK.B"]))
      /\ (true = true ->
          exists t,
            VendorYahoo.file_after r = Some (VendorYahoo.to_csv t)
            /\ Cli.ascending (map fst t)
            /\ incl (VendorYahoo.returned r) t)).
Proof.
  intros r. split; [vm_compute; reflexivity|].
  apply (X8_returned_rows_requested_and_sorted Scripted.world
           Scripted.download Scripted.download_one ["aapl"; "BRK.B"] true
           (Some Scripted.cache_aapl) 50 1 3 false
           (Scripted.start Scripted.knows_brk)
           (VendorYahoo.mkState Scripted.world ([], [])
              [Download ["BRK-B"]; Sleep 1]) r).
  vm_compute. reflexivity.
Defined.

(** X9. Reading back the cache file that a completed run wrote: when no
    written symbol is one of the texts that [pd.read_csv] reads as a
    missing value, loading gives exactly the table written, so every
    returned symbol is found in the reloaded cache with the date that was
    returned; a written symbol that is such a text is not found in the
    reloaded cache. *)
Theorem X9_written_cache_loads_back :
  forall (World : Type)
         (download : World -> list string -> outcome frame * World)
         (download_one : World -> string -> outcome closes * World)
         (tickers : list string) (file : option VendorYahoo.csv)
         (batch_size : Z) (pause : Q) (max_retries : Z) (force_recheck : bool)
         (st st' : VendorYahoo.state World) (r : VendorYahoo.run),
    VendorYahoo.earliest_vendor_dates_with_cache World download download_one
      tickers true file batch_size pause max_retries force_recheck st
    = (Returned r, st') ->
    exists t,
      let reloaded :=
        VendorYahoo.load_cache true
          (Some (VendorYahoo.read_back (VendorYahoo.to_csv t))) false in
      VendorYahoo.file_after r = Some (VendorYahoo.to_csv t)
      /\ ((forall k, In k (map fst t) ->
                     VendorYahoo.read_symbol k = Some k) ->
          reloaded = t
          /\ forall s d,
              In (s, d) (VendorYahoo.returned r) ->
              PyDict.get s reloaded = Some d)
      /\ (forall k, In k (map fst t) ->
                    VendorYahoo.read_symbol k = None ->
                    PyDict.get k reloaded = None).
Proof.
  intros World download download_one tickers file batch_size pause
    max_retries force_recheck st st' r H.
  destruct (RunFacts.run_returned World download download_one _ _ _ _ _ _ _ _
              _ _ H) as (fetched & _ & ->).
  cbn [VendorYahoo.returned VendorYahoo.file_after].
  set (t := VendorYahoo.dropna _).
  assert (A : Cli.ascending (map fst t)) by apply RunFacts.ascending_table_of.
  assert (U : forall k, In k (map fst t) -> PyStr.upper k = k).
  { intros k Hk. eapply RunFacts.keys_upper_table_of; eauto. }
  exists t. cbv zeta. split; [reflexivity|]. split.
  - intros Hplain. rewrite (RunFacts.read_back_to_csv t Hplain).
    assert (L : VendorYahoo.load_cache true (Some (VendorYahoo.to_csv t))
                  false = t)
      by (apply RunFacts.load_cache_to_csv; assumption).
    split; [exact L|].
    intros s d Hin. rewrite L. apply CacheFacts.In_isin in Hin.
    apply PyDictFacts.In_get; [|tauto].
    now apply GroupFacts.NoDup_ascending.
  - intros k _ Hk. now apply RunFacts.lost_on_reload.
Qed.

Lemma X9_written_cache_loads_back_witness :
  let r :=
    VendorYahoo.mkRun
      [("AAPL", Scripted.d2000); ("BRK.B", Scripted.d1999)]
      (Some (VendorYahoo.Rows
               [(Some "AAPL", VendorYahoo.DateText Scripted.d2000);
                (Some "BRK.B", VendorYahoo.DateText Scripted.d1999)])) in
  VendorYahoo.earliest_vendor_dates_with_cache Scripted.world
    Scripted.download Scripted.download_one ["aapl"; "BRK.B"] true
    (Some Scripted.cache_aapl) 50 1 3 false (Scripted.start Scripted.knows_brk)
  = (Returned r,
     VendorYahoo.mkState Scripted.world ([], []) [Download ["BRK-B"]; Sleep 1])
  /\ exists t,
      let reloaded :=
        VendorYahoo.load_cache true
          (Some (VendorYahoo.read_back (VendorYahoo.to_csv t))) false in
      VendorYahoo.file_after r = Some (VendorYahoo.to_csv t)
      /\ ((forall k, In k (map fst t) ->
                     VendorYahoo.read_symbol k = Some k) ->
          reloaded = t
          /\ forall s d,
              In (s, d) (VendorYahoo.returned r) ->
              PyDict.get s reloaded = Some d)
      /\ (forall k, In k (map fst t) ->
                    VendorYahoo.read_symbol k = None ->
                    PyDict.get k reloaded = None).
Proof.
  intros r. split; [vm_compute; reflexivity|].
  apply (X9_written_cache_loads_back Scripted.world Scripted.download
           Scripted.download_one ["aapl"; "BRK.B"] (Some Scripted.cache_aapl)
           50 1 3 false (Scripted.start Scripted.knows_brk)
           (VendorYahoo.mkState Scripted.world ([], [])
              [Download ["BRK-B"]; Sleep 1]) r).
  vm_compute. reflexivity.
Defined.

(** A run for the ticker [na]: the symbol NA is returned and written,
    the file read back has a missing symbol in its place, and the cache
    loaded from it knows NAN, not NA. *)
Example written_na_symbol_is_lost :
  let r :=
    VendorYahoo.mkRun [("NA", Scripted.d2000)]
      (Some (VendorYahoo.Rows
               [(Some "NA", VendorYahoo.DateText Scripted.d2000)])) in
  VendorYahoo.earliest_vendor_dates_with_cache Scripted.world
    Scripted.download Scripted.download_one ["na"] true None 50 1 3 false
    (Scripted.start
       ([Data (MultiFrame [("NA", Scripted.bars2000)])], []))
  = (Returned r,
     VendorYahoo.mkState Scripted.world ([], []) [Download ["NA"]; Sleep 1])
  /\ option_map VendorYahoo.read_back (VendorYahoo.file_after r)
     = Some (VendorYahoo.Rows [(None, VendorYahoo.DateText Scripted.d2000)])
  /\ VendorYahoo.load_cache true
       (option_map VendorYahoo.read_back (VendorYahoo.file_after r)) false
     = [("NAN", Scripted.d2000)].
Proof. repeat split; vm_compute; reflexivity. Qed.

Module RepeatFacts.
Import PyStr PyDict PyDictFacts VendorYahoo Cli CacheFacts GroupFacts RunFacts.

(** With nothing fetched, a table in ascending order is merged, sorted
    and cleaned into itself. *)
Lemma table_of_nothing_fetched (t : table) :
  ascending (map fst t) ->
  dropna (sorted_rows (merge_maps t [])) = t.
Proof.
  intros A. unfold merge_maps. cbn [fold_left].
  rewrite (fold_assign_NoDup (fun sd : string * date => fst sd)
             (fun sd => Some (snd sd)) t []);
    [| now apply NoDup_ascending | intros a _ []].
  cbn [app]. rewrite sorted_rows_ascending.
  - clear A. induction t as [|[s d] t IH]; simpl; [reflexivity | now rewrite IH].
  - rewrite map_map. simpl. exact A.
Qed.

Lemma to_fetch_all_cached tickers (cached : dict date) :
  (forall u, In u tickers -> In u (keys cached)) ->
  to_fetch tickers cached false = [].
Proof.
  intros H. unfold to_fetch. apply VendorCases.filter_none.
  intros u Hu. simpl. apply negb_false_iff, mem_In_keys. now apply H.
Qed.

End RepeatFacts.

(** X10. A run that returned a row for every requested ticker, and
    wrote no symbol that [pd.read_csv] reads as a missing value, leaves
    a cache file with which the same request, not forced, is answered
    from the cache alone: read back, the file gives a run in which the
    vendor is not contacted (the state is unchanged), the same frame is
    returned and the same file is written, whatever the batch size,
    pause and retry budget. *)
Theorem X10_repeat_run_served_from_cache :
  forall (World : Type)
         (download : World -> list string -> outcome frame * World)
         (download_one : World -> string -> outcome closes * World)
         (tickers : list string) (file : option VendorYahoo.csv)
         (batch_size : Z) (pause : Q) (max_retries : Z) (force_recheck : bool)
         (st st1 : VendorYahoo.state World) (r1 : VendorYahoo.run),
    VendorYahoo.earliest_vendor_dates_with_cache World download download_one
      tickers true file batch_size pause max_retries force_recheck st
    = (Returned r1, st1) ->
    (forall u, In u (VendorYahoo.strip_upper_all tickers) ->
               In u (map fst (VendorYahoo.returned r1))) ->
    (forall rows s c,
        VendorYahoo.file_after r1 = Some (VendorYahoo.Rows rows) ->
        In (Some s, c) rows -> VendorYahoo.read_symbol s = Some s) ->
    forall (batch_size' : Z) (pause' : Q) (max_retries' : Z)
           (st2 : VendorYahoo.state World),
      VendorYahoo.earliest_vendor_dates_with_cache World download download_one
        tickers true
        (option_map VendorYahoo.read_back (VendorYahoo.file_after r1))
        batch_size' pause' max_retries' false st2
      = (Returned r1, st2).
Proof.
  intros World download download_one tickers file batch_size pause
    max_retries force_recheck st st1 r1 H Hall Hplain batch_size' pause'
    max_retries' st2.
  destruct (RunFacts.run_returned World download download_one _ _ _ _ _ _ _ _
              _ _ H) as (fetched & _ & ->).
  cbn [VendorYahoo.returned VendorYahoo.file_after option_map] in *.
  set (t := VendorYahoo.dropna _) in *.
  assert (A : Cli.ascending (map fst t)) by apply RunFacts.ascending_table_of.
  assert (P : forall k, In k (map fst t) ->
                        VendorYahoo.read_symbol k = Some k).
  { intros k Hk. apply in_map_iff in Hk. destruct Hk as ([s d] & <- & Hin).
    apply (Hplain _ s (VendorYahoo.DateText d) eq_refl).
    apply in_map_iff. now exists (s, d). }
  rewrite (RunFacts.read_back_to_csv t P).
  assert (L : VendorYahoo.load_cache true (Some (VendorYahoo.to_csv t)) false
              = t).
  { apply RunFacts.load_cache_to_csv; [exact A|].
    intros k Hk. eapply RunFacts.keys_upper_table_of; eauto. }
  unfold VendorYahoo.earliest_vendor_dates_with_cache. rewrite L.
  rewrite RepeatFacts.to_fetch_all_cached.
  - cbn [VendorYahoo.fetch].
    now rewrite (RepeatFacts.table_of_nothing_fetched t A).
  - intros u Hu. specialize (Hall u Hu).
    apply in_map_iff in Hall. destruct Hall as ([s d] & <- & Hin).
    apply CacheFacts.In_isin in Hin. destruct Hin as [Hin _].
    unfold PyDict.keys. now apply (in_map fst) in Hin.
Qed.

Lemma X10_repeat_run_served_from_cache_witness :
  let r1 :=
    VendorYahoo.mkRun
      [("AAPL", Scripted.d2000); ("BRK.B", Scripted.d1999)]
      (Some (VendorYahoo.Rows
               [(Some "AAPL", VendorYahoo.DateText Scripted.d2000);
                (Some "BRK.B", VendorYahoo.DateText Scripted.d1999)])) in
  VendorYahoo.earliest_vendor_dates_with_cache Scripted.world
    Scripted.download Scripted.download_one ["aapl"; "BRK.B"] true
    (Some Scripted.cache_aapl) 50 1 3 false (Scripted.start Scripted.knows_brk)
  = (Returned r1,
     VendorYahoo.mkState Scripted.world ([], []) [Download ["BRK-B"]; Sleep 1])
  /\ (forall u, In u (VendorYahoo.strip_upper_all ["aapl"; "BRK.B"]) ->
                In u (map fst (VendorYahoo.returned r1)))
  /\ (forall rows s c,
         VendorYahoo.file_after r1 = Some (VendorYahoo.Rows rows) ->
         In (Some s, c) rows -> VendorYahoo.read_symbol s = Some s)
  /\ VendorYahoo.earliest_vendor_dates_with_cache Scripted.world
       Scripted.download Scripted.download_one ["aapl"; "BRK.B"] true
       (option_map VendorYahoo.read_back (VendorYahoo.file_after r1)) 0 1 3
       false (Scripted.start Scripted.knows_aapl)
     = (Returned r1, Scripted.start Scripted.knows_aapl).
Proof.
  intros r1.
  assert (H1 : VendorYahoo.earliest_vendor_dates_with_cache Scripted.world
                 Scripted.download Scripted.download_one ["aapl"; "BRK.B"]
                 true (Some Scripted.cache_aapl) 50 1 3 false
                 (Scripted.start Scripted.knows_brk)
               = (Returned r1,
                  VendorYahoo.mkState Scripted.world ([], [])
                    [Download ["BRK-B"]; Sleep 1]))
    by (vm_compute; reflexivity).
  assert (H2 : forall u, In u (VendorYahoo.strip_upper_all ["aapl"; "BRK.B"]) ->
                         In u (map fst (VendorYahoo.returned r1))).
  { intros u Hu. vm_compute in Hu. vm_compute. exact Hu. }
  assert (H3 : forall rows s c,
             VendorYahoo.file_after r1 = Some (VendorYahoo.Rows rows) ->
             In (Some s, c) rows -> VendorYahoo.read_symbol s = Some s).
  { intros rows s c [= <-] [[= <- _]|[[= <- _]|[]]]; reflexivity. }
  split; [exact H1|]. split; [exact H2|]. split; [exact H3|].
  exact (X10_repeat_run_served_from_cache Scripted.world Scripted.download
           Scripted.download_one ["aapl"; "BRK.B"] (Some Scripted.cache_aapl)
           50 1 3 false (Scripted.start Scripted.knows_brk) _ r1 H1 H2 H3
           0 1 3 (Scripted.start Scripted.knows_aapl)).
Defined.

(** X11. When nothing is left to fetch the resolver is not called: the
    run returns with the state unchanged for every batch size, zero
    included; when something is to be fetched, a zero batch size makes
    the run raise [ValueError] before any vendor call. *)
Theorem X11_zero_batch_size_matters_only_when_fetching :
  forall (World : Type)
         (download : World -> list string -> outcome frame * World)
         (download_one : World -> string -> outcome closes * World)
         (tickers : list string) (cache_path : bool)
         (file : option VendorYahoo.csv) (batch_size : Z) (pause : Q)
         (max_retries : Z) (force_recheck : bool)
         (st : VendorYahoo.state World),
    let fetch_list :=
      VendorYahoo.to_fetch (VendorYahoo.strip_upper_all tickers)
        (VendorYahoo.load_cache cache_path file force_recheck) force_recheck in
    (fetch_list = [] ->
     exists r,
       VendorYahoo.earliest_vendor_dates_with_cache World download
         download_one tickers cache_path file batch_size pause max_retries
         force_recheck st = (Returned r, st))
    /\ (fetch_list <> [] ->
        VendorYahoo.earliest_vendor_dates_with_cache World download
          download_one tickers cache_path file 0 pause max_retries
          force_recheck st = (Raised "ValueError", st)).
Proof.
  intros World download download_one tickers cache_path file batch_size pause
    max_retries force_recheck st fetch_list.
  unfold VendorYahoo.earliest_vendor_dates_with_cache. fold fetch_list.
  split; intros H.
  - rewrite H. cbn [VendorYahoo.fetch]. eauto.
  - destruct fetch_list as [|u l]; [contradiction|]. reflexivity.
Qed.

(** X12. Without [force_recheck], a completed run with a cache path
    writes back every symbol of the cache it loaded, each with the date
    it had: the file grows or stays, and no cached date is changed. *)
Theorem X12_unforced_run_keeps_cached_rows :
  forall (World : Type)
         (download : World -> list string -> outcome frame * World)
         (download_one : World -> string -> outcome closes * World)
         (tickers : list string) (file : option VendorYahoo.csv)
         (batch_size : Z) (pause : Q) (max_retries : Z)
         (st st' : VendorYahoo.state World) (r : VendorYahoo.run)
         (S : string) (d : date),
    VendorYahoo.earliest_vendor_dates_with_cache World download download_one
      tickers true file batch_size pause max_retries false st
    = (Returned r, st') ->
    PyDict.get S (VendorYahoo.load_cache true file false) = Some d ->
    exists rows,
      VendorYahoo.file_after r = Some (VendorYahoo.Rows rows)
      /\ In (Some S, VendorYahoo.DateText d) rows
      /\ forall d', In (Some S, VendorYahoo.DateText d') rows -> d' = d.
Proof.
  intros World download download_one tickers file batch_size pause
    max_retries st st' r S d.
  apply CacheInvariant.cache_kept_without_force.
Qed.

Lemma X12_unforced_run_keeps_cached_rows_witness :
  let r :=
    VendorYahoo.mkRun
      [("BRK.B", Scripted.d1999)]
      (Some (VendorYahoo.Rows
               [(Some "AAPL", VendorYahoo.DateText Scripted.d2000);
                (Some "BRK.B", VendorYahoo.DateText Scripted.d1999)])) in
  VendorYahoo.earliest_vendor_dates_with_cache Scripted.world
    Scripted.download Scripted.download_one ["BRK.B"] true
    (Some Scripted.cache_aapl) 50 1 3 false (Scripted.start Scripted.knows_brk)
  = (Returned r,
     VendorYahoo.mkState Scripted.world ([], []) [Download ["BRK-B"]; Sleep 1])
  /\ PyDict.get "AAPL" (VendorYahoo.load_cache true (Some Scripted.cache_aapl) false)
     = Some Scripted.d2000
  /\ exists rows,
      VendorYahoo.file_after r = Some (VendorYahoo.Rows rows)
      /\ In (Some "AAPL", VendorYahoo.DateText Scripted.d2000) rows
      /\ forall d', In (Some "AAPL", VendorYahoo.DateText d') rows ->
                    d' = Scripted.d2000.
Proof.
  intros r. split; [vm_compute; reflexivity|].
  split; [vm_compute; reflexivity|].
  apply (X12_unforced_run_keeps_cached_rows Scripted.world Scripted.download
           Scripted.download_one ["BRK.B"] (Some Scripted.cache_aapl) 50 1 3
           (Scripted.start Scripted.knows_brk)
           (VendorYahoo.mkState Scripted.world ([], [])
              [Download ["BRK-B"]; Sleep 1]) r "AAPL" Scripted.d2000);
    vm_compute; reflexivity.
Defined.

(* ================================================================== *)
(** * More on seeding, validation and the universe cache *)

Module SeedFacts.
Import PyStr PyStrFacts PyDict PyDictFacts VendorYahoo Cli CliReports.
Import GroupFacts RunFacts.

Lemma keys_upper_clean_universe rows k :
  In k (map fst (clean_universe rows)) -> upper k = k.
Proof.
  induction rows as [|[[s|] [|d|]] r IH]; simpl; try exact IH; try tauto.
  intros [<-|H]; [apply upper_idem | now apply IH].
Qed.

Lemma keys_upper_clean_vendor rows k :
  In k (map fst (clean_vendor rows)) -> upper k = k.
Proof.
  induction rows as [|[sym [|d|]] r IH]; simpl; try exact IH; try tauto.
  intros [<-|H]; [apply upper_idem | now apply IH].
Qed.

Lemma In_keys_groupby_min t k :
  In k (map fst (groupby_min t)) <-> In k (map fst t).
Proof. rewrite keys_groupby_min. apply In_group_keys. Qed.

(** Cleaning the rows of a written table with upper-case symbols gives
    the table back. *)
Lemma clean_vendor_written (t : table) :
  (forall k, In k (map fst t) -> upper k = k) ->
  clean_vendor (map (fun sd => (Some (fst sd), DateText (snd sd))) t) = t.
Proof.
  induction t as [|[s d] t IH]; simpl; intros H; [reflexivity|].
  rewrite (H s (or_introl eq_refl)), IH; [reflexivity|].
  intros k Hk. apply H. now right.
Qed.

Lemma merge_min_left_absorb u v : merge_min u (merge_min u v) = merge_min u v.
Proof.
  rewrite (merge_min_comm u (merge_min u v)), (merge_min_comm u v).
  apply merge_min_absorb.
Qed.




(** ** The mismatch rows *)

Lemma In_left_merge (fresh : table) (vdf : list (string * option date)) s f c :
  In (s, f, c) (left_merge fresh vdf) <->
  In (s, f) fresh
  /\ (In (s, c) vdf
      \/ (c = None /\ forall c', ~ In (s, c') vdf)).
Proof.
  unfold left_merge. rewrite in_flat_map. split.
  - intros ([s0 f0] & Hf & Hin). cbn [fst snd] in Hin.
    destruct (filter (fun v => (fst v =? s0)%string) vdf) as [|m ms] eqn:E.
    + destruct Hin as [[= <- <- <-]|[]]. split; [exact Hf|]. right.
      split; [reflexivity|]. intros c' Hc'.
      assert (X : In (s0, c') (filter (fun v => (fst v =? s0)%string) vdf)).
      { apply filter_In. split; [exact Hc' | apply String.eqb_refl]. }
      now rewrite E in X.
    + apply in_map_iff in Hin.
      destruct Hin as ([s1 c1] & [= <- <- <-] & Hin).
      rewrite <- E in Hin.
      apply filter_In in Hin. destruct Hin as [Hin Hk]. simpl in Hk.
      apply String.eqb_eq in Hk. subst s1. tauto.
  - intros [Hf [Hv|[-> Hn]]].
    + exists (s, f). split; [exact Hf|]. cbn [fst snd].
      assert (X : In (s, c) (filter (fun v => (fst v =? s)%string) vdf)).
      { apply filter_In. split; [exact Hv | apply String.eqb_refl]. }
      destruct (filter (fun v => (fst v =? s)%string) vdf) as [|m ms];
        [contradiction|].
      apply in_map_iff. now exists (s, c).
    + exists (s, f). split; [exact Hf|]. cbn [fst snd].
      destruct (filter (fun v => (fst v =? s)%string) vdf) as [|[s1 c1] ms] eqn:E;
        [now left|].
      exfalso. assert (X : In (s1, c1) (filter (fun v => (fst v =? s)%string) vdf))
        by (rewrite E; now left).
      apply filter_In in X. destruct X as [X Hk]. simpl in Hk.
      apply String.eqb_eq in Hk. subst s1. exact (Hn c1 X).
Qed.

Lemma In_mismatches (rows : list (string * date * option date)) s f c :
  In (s, f, c) (mismatches rows) <-> In (s, f, Some c) rows /\ f <> c.
Proof.
  induction rows as [|[[s0 f0] [c0|]] r IH]; simpl.
  - tauto.
  - destruct (Z.eqb_spec f0 c0) as [->|N].
    + rewrite IH. split; [tauto|]. intros [[[= -> -> ->]|H] Hn]; tauto.
    + simpl. rewrite IH. split.
      * intros [[= -> -> ->]|H]; [split; [now left | exact N] | tauto].
      * intros [[[= -> -> ->]|H] Hn]; [now left | tauto].
  - rewrite IH. split; [tauto|]. intros [[E|H] Hn]; [discriminate | tauto].
Qed.

(** ** The universe aggregate *)

Lemma first_nonnull_app {A} (a b : list (option A)) :
  first_nonnull (a ++ b) = or_else (first_nonnull a) (first_nonnull b).
Proof.
  induction a as [|[v|] a IH]; simpl; [now destruct (first_nonnull b) | reflexivity | exact IH].
Qed.

Lemma keys_unify prev cur :
  map uSymbol (unify prev cur) = group_keys (map key_of (prev ++ cur)).
Proof. unfold unify. rewrite map_map. simpl. apply map_id. Qed.

Lemma find_unified_unify k prev cur u :
  find_unified k (unify prev cur) = Some u ->
  u = aggregate k (rows_of k (prev ++ cur)).
Proof.
  unfold unify, rows_of.
  induction (group_keys (map key_of (prev ++ cur))) as [|k' r IH]; simpl;
    [discriminate|].
  destruct (String.eqb_spec k' k) as [->|N]; [now intros [= <-] | exact IH].
Qed.

End SeedFacts.

Module SeedAgain.
Import PyStr VendorYahoo Cli.

(** Seeding from the rows that a seeding left changes nothing. *)
Lemma seed_vendor_cache_twice up vp force ucache vcache :
  seed_vendor_cache up vp force ucache
    (seed_vendor_cache up vp force ucache vcache)
  = seed_vendor_cache up vp force ucache vcache.
Proof.
  unfold seed_vendor_cache.
  destruct (up && vp && negb force); [|reflexivity].
  destruct ucache as [[| |urows]|]; try reflexivity.
  set (U := groupby_min (clean_universe urows)).
  assert (HU : forall k, In k (map fst U) -> upper k = k).
  { intros k Hk. apply (proj1 (SeedFacts.In_keys_groupby_min _ _)) in Hk.
    eapply SeedFacts.keys_upper_clean_universe; eauto. }
  assert (Step : forall M,
            (forall k, In k (map fst M) -> upper k = k) ->
            groupby_min M = M ->
            merge_min U M = M ->
            Some (to_csv
                    (merge_min U
                       (groupby_min
                          (clean_vendor
                             (map (fun sd => (Some (fst sd),
                                              DateText (snd sd)))
                                M)))))
            = Some (to_csv M)).
  { intros M Hk Hg Hm. now rewrite SeedFacts.clean_vendor_written, Hg, Hm. }
  assert (SelfU : Some (to_csv
                          (merge_min U
                             (groupby_min
                                (clean_vendor
                                   (map (fun sd => (Some (fst sd),
                                                    DateText (snd sd)))
                                      U)))))
                  = Some (to_csv U)).
  { apply Step; [exact HU | apply GroupFacts.groupby_min_idem |].
    rewrite GroupFacts.merge_min_self. apply GroupFacts.groupby_min_idem. }
  destruct vcache as [[| |vrows]|]; cbn [to_csv]; try reflexivity;
    try exact SelfU.
  set (V := groupby_min (clean_vendor vrows)).
  apply Step.
  - intros k Hk. unfold merge_min in Hk.
    apply (proj1 (SeedFacts.In_keys_groupby_min _ _)) in Hk.
    rewrite map_app, in_app_iff in Hk. destruct Hk as [Hk|Hk]; [now apply HU|].
    apply (proj1 (SeedFacts.In_keys_groupby_min _ _)) in Hk.
    eapply SeedFacts.keys_upper_clean_vendor; eauto.
  - apply GroupFacts.groupby_min_idem.
  - apply SeedFacts.merge_min_left_absorb.
Qed.

Lemma reads_as_text_read_symbol s :
  reads_as_text s = true -> read_symbol s = Some s.
Proof.
  unfold reads_as_text, read_symbol. intros H.
  apply andb_true_iff in H. destruct H as [H _].
  apply andb_true_iff in H. destruct H as [_ H].
  apply negb_true_iff in H. now rewrite H.
Qed.

(** Rows whose symbols are read as the text written are read back as
    they are. *)
Lemma read_back_same rows :
  (forall s c, In (Some s, c) rows -> reads_as_text s = true) ->
  read_back (Rows rows) = Rows rows.
Proof.
  intros H. cbn [read_back]. unfold read_back_rows. f_equal.
  rewrite <- (map_id rows) at 2. apply map_ext_in.
  intros [[s|] c] Hin; cbn [fst snd]; [|reflexivity].
  now rewrite (reads_as_text_read_symbol s (H s c Hin)).
Qed.


End SeedAgain.

(** X13. Seeding the vendor cache from the universe cache is idempotent
    on ticker symbols: when every symbol of the vendor cache file that a
    seeding step leaves is read back as the text written (it starts with
    a letter and is none of the texts that [pd.read_csv] reads as a
    missing value, a number or a truth value), the file is read back as
    it is, and seeding again from the same universe cache and with the
    same flags leaves it as it is. *)
Theorem X13_seeding_is_idempotent :
  forall (ucache_path vcache_path force_recheck : bool)
         (ucache vcache : option VendorYahoo.csv)
         (rows : list VendorYahoo.csv_row),
    Cli.seed_vendor_cache ucache_path vcache_path force_recheck ucache vcache
    = Some (VendorYahoo.Rows rows) ->
    (forall s c, In (Some s, c) rows -> Cli.reads_as_text s = true) ->
    VendorYahoo.read_back (VendorYahoo.Rows rows) = VendorYahoo.Rows rows
    /\ Cli.seed_vendor_cache ucache_path vcache_path force_recheck ucache
         (Some (VendorYahoo.read_back (VendorYahoo.Rows rows)))
       = Some (VendorYahoo.Rows rows).
Proof.
  intros up vp force ucache vcache rows H Hplain.
  rewrite (SeedAgain.read_back_same rows Hplain).
  split; [reflexivity|].
  rewrite <- H. apply SeedAgain.seed_vendor_cache_twice.
Qed.

Lemma X13_seeding_is_idempotent_witness :
  let ucache :=
    Some (VendorYahoo.Rows
            [(Some "AAPL", VendorYahoo.DateText Scripted.d1999);
             (Some "IBM", VendorYahoo.BadText)]) in
  let vcache :=
    Some (VendorYahoo.Rows
            [(Some "msft", VendorYahoo.DateText Scripted.d2000);
             (Some "aapl", VendorYahoo.DateText Scripted.d2000)]) in
  let rows :=
    [(Some "AAPL", VendorYahoo.DateText Scripted.d1999);
     (Some "MSFT", VendorYahoo.DateText Scripted.d2000)] in
  Cli.seed_vendor_cache true true false ucache vcache
  = Some (VendorYahoo.Rows rows)
  /\ (forall s c, In (Some s, c) rows -> Cli.reads_as_text s = true)
  /\ VendorYahoo.read_back (VendorYahoo.Rows rows) = VendorYahoo.Rows rows
  /\ Cli.seed_vendor_cache true true false ucache
       (Some (VendorYahoo.read_back (VendorYahoo.Rows rows)))
     = Some (VendorYahoo.Rows rows).
Proof.
  intros ucache vcache rows.
  assert (H1 : Cli.seed_vendor_cache true true false ucache vcache
               = Some (VendorYahoo.Rows rows)) by (vm_compute; reflexivity).
  assert (H2 : forall s c, In (Some s, c) rows ->
                           Cli.reads_as_text s = true).
  { intros s c [[= <- _]|[[= <- _]|[]]]; vm_compute; reflexivity. }
  split; [exact H1|]. split; [exact H2|].
  exact (X13_seeding_is_idempotent true true false ucache vcache rows H1 H2).
Defined.

(** A vendor cache with the symbol [na]: seeding writes NA, which is
    read back as a missing value, and seeding again writes NAN in its
    place. *)
Example seeding_again_renames_na :
  let ucache :=
    Some (VendorYahoo.Rows
            [(Some "AAPL", VendorYahoo.DateText Scripted.d1999)]) in
  let vcache :=
    Some (VendorYahoo.Rows
            [(Some "na", VendorYahoo.DateText Scripted.d2000)]) in
  Cli.seed_vendor_cache true true false ucache vcache
  = Some (VendorYahoo.Rows
            [(Some "AAPL", VendorYahoo.DateText Scripted.d1999);
             (Some "NA", VendorYahoo.DateText Scripted.d2000)])
  /\ Cli.seed_vendor_cache true true false ucache
       (option_map VendorYahoo.read_back
          (Cli.seed_vendor_cache true true false ucache vcache))
     = Some (VendorYahoo.Rows
               [(Some "AAPL", VendorYahoo.DateText Scripted.d1999);
                (Some "NAN", VendorYahoo.DateText Scripted.d2000)]).
Proof. split; vm_compute; reflexivity. Qed.



(** X15. The validation report holds exactly the disagreements: a row
    [(s, fresh, cached)] is reported if and only if the fresh table has
    [(s, fresh)], the cache has a row for [s] with the date [cached], and
    the two dates differ.  A symbol without a cached date, or whose
    dates agree, is never reported. *)
Theorem X15_report_rows_are_the_disagreements :
  forall (fresh : VendorYahoo.table) (vdf : list (string * option date))
         (s : string) (f c : date),
    In (s, f, c) (Cli.mismatches (Cli.left_merge fresh vdf)) <->
    In (s, f) fresh /\ In (s, Some c) vdf /\ f <> c.
Proof.
  intros fresh vdf s f c.
  rewrite SeedFacts.In_mismatches, SeedFacts.In_left_merge.
  split.
  - intros [[Hf [Hv|[E _]]] N]; [tauto | discriminate].
  - tauto.
Qed.

(** X16. The universe aggregate has exactly one row for every symbol
    that occurs (as upper-case text) in the previous table or in the
    current one, in strictly ascending symbol order: no symbol is lost
    and none is repeated. *)
Theorem X16_universe_aggregate_one_row_per_symbol :
  forall (prev cur : list Cli.urow),
    Cli.ascending (map Cli.uSymbol (Cli.unify prev cur))
    /\ NoDup (map Cli.uSymbol (Cli.unify prev cur))
    /\ forall k,
        In k (map Cli.uSymbol (Cli.unify prev cur)) <->
        exists r, In r (prev ++ cur) /\ Cli.key_of r = k.
Proof.
  intros prev cur. rewrite SeedFacts.keys_unify.
  split; [apply GroupFacts.ascending_group_keys|].
  split; [apply GroupFacts.NoDup_ascending, GroupFacts.ascending_group_keys|].
  intros k. rewrite GroupFacts.In_group_keys, in_map_iff.
  split; intros (r & H1 & H2); exists r; tauto.
Qed.

(** X17. In the universe aggregate the name, exchange, CIK and listing
    flag of a symbol are the first non-null values in table order, the
    previous table before the current one: a value already in the
    universe cache is kept, and the current run only fills what was
    null. *)
Theorem X17_universe_aggregate_keeps_previous_values :
  forall (prev cur : list Cli.urow) (k : string) (u : Cli.unified_row),
    CliReports.find_unified k (Cli.unify prev cur) = Some u ->
    Cli.uSecurityName u
    = CliReports.or_else
        (Cli.first_nonnull (map Cli.SecurityName (CliReports.rows_of k prev)))
        (Cli.first_nonnull (map Cli.SecurityName (CliReports.rows_of k cur)))
    /\ Cli.uExchange u
       = CliReports.or_else
           (Cli.first_nonnull (map Cli.Exchange (CliReports.rows_of k prev)))
           (Cli.first_nonnull (map Cli.Exchange (CliReports.rows_of k cur)))
    /\ Cli.uCIK u
       = CliReports.or_else
           (Cli.first_nonnull (map Cli.CIK (CliReports.rows_of k prev)))
           (Cli.first_nonnull (map Cli.CIK (CliReports.rows_of k cur)))
    /\ Cli.uListedCurrently u
       = CliReports.or_else
           (Cli.first_nonnull
              (map Cli.ListedCurrently (CliReports.rows_of k prev)))
           (Cli.first_nonnull
              (map Cli.ListedCurrently (CliReports.rows_of k cur))).
Proof.
  intros prev cur k u H. apply SeedFacts.find_unified_unify in H. subst u.
  unfold CliReports.rows_of. rewrite filter_app. cbn.
  rewrite !map_app, !SeedFacts.first_nonnull_app. repeat split.
Qed.

Lemma X17_universe_aggregate_keeps_previous_values_witness :
  let prev :=
    [Cli.mkURow (Some "aapl") (Some "Apple Computer") None None None
       (VendorYahoo.DateText Scripted.d2000) VendorYahoo.NoValue] in
  let cur :=
    [Cli.mkURow (Some "AAPL") (Some "Apple Inc.") (Some "NASDAQ") None
       (Some true) (VendorYahoo.DateText Scripted.d1999) VendorYahoo.NoValue] in
  let u :=
    Cli.mkUnified "AAPL" (Some "Apple Computer") (Some "NASDAQ") None
      (Some true) (Some Scripted.d1999) None in
  CliReports.find_unified "AAPL" (Cli.unify prev cur) = Some u
  /\ (Cli.uSecurityName u
      = CliReports.or_else
          (Cli.first_nonnull
             (map Cli.SecurityName (CliReports.rows_of "AAPL" prev)))
          (Cli.first_nonnull
             (map Cli.SecurityName (CliReports.rows_of "AAPL" cur)))
      /\ Cli.uExchange u
         = CliReports.or_else
             (Cli.first_nonnull
                (map Cli.Exchange (CliReports.rows_of "AAPL" prev)))
             (Cli.first_nonnull
                (map Cli.Exchange (CliReports.rows_of "AAPL" cur)))
      /\ Cli.uCIK u
         = CliReports.or_else
             (Cli.first_nonnull (map Cli.CIK (CliReports.rows_of "AAPL" prev)))
             (Cli.first_nonnull (map Cli.CIK (CliReports.rows_of "AAPL" cur)))
      /\ Cli.uListedCurrently u
         = CliReports.or_else
             (Cli.first_nonnull
                (map Cli.ListedCurrently (CliReports.rows_of "AAPL" prev)))
             (Cli.first_nonnull
                (map Cli.ListedCurrently (CliReports.rows_of "AAPL" cur)))).
Proof.
  intros prev cur u. split; [vm_compute; reflexivity|].
  apply (X17_universe_aggregate_keeps_previous_values prev cur "AAPL" u).
  vm_compute. reflexivity.
Defined.

Module MissingFacts.
Import PyStr PyDict PyDictFacts VendorYahoo CliReports CacheFacts RunFacts.

Lemma In_missing_symbols symbols (earliest_df : table) s :
  In s (missing_symbols symbols earliest_df) <->
  In s symbols /\ ~ In s (map fst earliest_df).
Proof.
  unfold missing_symbols. rewrite filter_In, negb_true_iff.
  split; intros [H1 H2]; split; try exact H1.
  - intros Hin.
    assert (X : existsb (String.eqb s) (map fst earliest_df) = true).
    { apply existsb_exists. exists s. split; [exact Hin | apply String.eqb_refl]. }
    congruence.
  - destruct (existsb (String.eqb s) (map fst earliest_df)) eqn:E; [|reflexivity].
    apply existsb_exists in E. destruct E as (x & Hx & E).
    apply String.eqb_eq in E. subst x. contradiction.
Qed.

Lemma In_strip_upper_all_normal symbols s :
  In s symbols -> upper (strip s) = s -> s <> EmptyString ->
  In s (strip_upper_all symbols).
Proof.
  intros Hin Hn Hne. unfold strip_upper_all. apply in_map_iff.
  exists s. split; [exact Hn|]. apply filter_In. split; [exact Hin|].
  destruct s; [contradiction | reflexivity].
Qed.

End MissingFacts.

(** X18. After a completed, not forced run with a cache path: a symbol
    of the universe in stripped upper-case form that the missing report
    lists was sent to the resolver in this run and is absent from the
    cache file written; and a universe symbol that is not in stripped
    upper-case form is always listed as missing, because the returned
    frame only has symbols in that form. *)
Theorem X18_missing_report :
  forall (World : Type)
         (download : World -> list string -> outcome frame * World)
         (download_one : World -> string -> outcome closes * World)
         (symbols : list string) (file : option VendorYahoo.csv)
         (batch_size : Z) (pause : Q) (max_retries : Z)
         (st st' : VendorYahoo.state World) (r : VendorYahoo.run),
    VendorYahoo.earliest_vendor_dates_with_cache World download download_one
      symbols true file batch_size pause max_retries false st
    = (Returned r, st') ->
    (forall s,
        In s (CliReports.missing_symbols symbols (VendorYahoo.returned r)) ->
        PyStr.upper (PyStr.strip s) = s -> s <> EmptyString ->
        In s (VendorYahoo.to_fetch (VendorYahoo.strip_upper_all symbols)
                (VendorYahoo.load_cache true file false) false)
        /\ forall rows d,
            VendorYahoo.file_after r = Some (VendorYahoo.Rows rows) ->
            ~ In (Some s, VendorYahoo.DateText d) rows)
    /\ (forall s,
           In s symbols -> PyStr.upper (PyStr.strip s) <> s ->
           In s (CliReports.missing_symbols symbols (VendorYahoo.returned r))).
Proof.
  intros World download download_one symbols file batch_size pause
    max_retries st st' r H.
  destruct (RunFacts.run_returned World download download_one _ _ _ _ _ _ _ _
              _ _ H) as (fetched & EF & ->).
  cbn [VendorYahoo.returned VendorYahoo.file_after].
  set (T := VendorYahoo.strip_upper_all symbols) in *.
  set (cached := VendorYahoo.load_cache true file false) in *.
  set (t := VendorYahoo.dropna _).
  split.
  - intros s Hs Hn Hne. apply MissingFacts.In_missing_symbols in Hs.
    destruct Hs as [Hin Hnot].
    assert (HT : In s T) by now apply MissingFacts.In_strip_upper_all_normal.
    assert (Hrows : forall d, ~ In (s, d) t).
    { intros d Hd. apply Hnot. apply in_map_iff. exists (s, d).
      split; [reflexivity|]. apply CacheFacts.In_isin. now split. }
    split.
    + apply CacheFacts.In_to_fetch. split; [exact HT|]. right.
      destruct (PyDict.mem s cached) eqn:M; [|reflexivity]. exfalso.
      unfold PyDict.mem in M.
      destruct (PyDict.get s cached) as [d|] eqn:G; [|discriminate].
      apply (Hrows d). unfold t.
      rewrite CacheFacts.In_dropna, CacheFacts.In_sorted_rows.
      apply PyDictFacts.get_In.
      rewrite CacheFacts.get_merge_maps_kept;
        [now rewrite G | apply CacheFacts.NoDup_keys_load_cache |].
      intros Hf.
      apply (CacheFacts.fetch_keys World download download_one _ _ _ _ _ _ _
               EF) in Hf.
      * apply CacheFacts.In_to_fetch in Hf.
        destruct Hf as [_ [Hf|Hf]]; [discriminate|].
        unfold PyDict.mem in Hf. now rewrite G in Hf.
      * intros u Hu. apply CacheFacts.In_to_fetch in Hu.
        apply (CacheFacts.strip_upper_all_normal symbols). tauto.
    + intros rows d [= <-] Hin'. apply in_map_iff in Hin'.
      destruct Hin' as ([s' d'] & [= -> ->] & Hin'). exact (Hrows d Hin').
  - intros s Hin Hn. apply MissingFacts.In_missing_symbols.
    split; [exact Hin|]. intros Hs. apply in_map_iff in Hs.
    destruct Hs as ([s' d] & E & Hs). simpl in E. subst s'.
    apply CacheFacts.In_isin in Hs. destruct Hs as [_ Hs].
    apply (CacheFacts.strip_upper_all_normal symbols) in Hs. tauto.
Qed.

Lemma X18_missing_report_witness :
  let r :=
    VendorYahoo.mkRun
      [("AAPL", Scripted.d2000); ("BRK.B", Scripted.d1999)]
      (Some (VendorYahoo.Rows
               [(Some "AAPL", VendorYahoo.DateText Scripted.d2000);
                (Some "BRK.B", VendorYahoo.DateText Scripted.d1999)])) in
  let symbols := ["AAPL"; "BRK.B"; "ZZZZ"; " AAPL"] in
  let st' :=
    VendorYahoo.mkState Scripted.world ([], [])
      [Download ["AAPL"; "BRK-B"; "ZZZZ"]; DownloadOne "ZZZZ"; Sleep (1 # 10);
       Sleep 1] in
  VendorYahoo.earliest_vendor_dates_with_cache Scripted.world
    Scripted.download Scripted.download_one symbols true None 50 1 3 false
    (Scripted.start Scripted.two_known)
  = (Returned r, st')
  /\ CliReports.missing_symbols symbols (VendorYahoo.returned r)
     = ["ZZZZ"; " AAPL"]
  /\ ((forall s,
          In s (CliReports.missing_symbols symbols (VendorYahoo.returned r)) ->
          PyStr.upper (PyStr.strip s) = s -> s <> EmptyString ->
          In s (VendorYahoo.to_fetch (VendorYahoo.strip_upper_all symbols)
                  (VendorYahoo.load_cache true None false) false)
          /\ forall rows d,
              VendorYahoo.file_after r = Some (VendorYahoo.Rows rows) ->
              ~ In (Some s, VendorYahoo.DateText d) rows)
      /\ (forall s,
             In s symbols -> PyStr.upper (PyStr.strip s) <> s ->
             In s (CliReports.missing_symbols symbols (VendorYahoo.returned r)))).
Proof.
  intros r symbols st'.
  split; [vm_compute; reflexivity|]. split; [vm_compute; reflexivity|].
  apply (X18_missing_report Scripted.world Scripted.download
           Scripted.download_one symbols None 50 1 3
           (Scripted.start Scripted.two_known) st' r).
  vm_compute. reflexivity.
Defined.

(* ================================================================== *)
(** * utils.py: cached reads *)

Module FileCacheFacts.
Import Json FileCache.

Lemma write_text_same (fs : files) (path text : string) :
  write_text fs path text path = Some text.
Proof. unfold write_text. now rewrite String.eqb_refl. Qed.

Lemma write_text_other (fs : files) (path text p : string) :
  p <> path -> write_text fs path text p = fs p.
Proof.
  intros H. unfold write_text.
  destruct (String.eqb_spec p path); [contradiction | reflexivity].
Qed.

(** A file that exists is not removed by a cached read. *)
Lemma read_json_cached_keeps World loads dumps cache_file refresh fetch_fn
    (fs : files) (w : World) r fs' w' p :
  read_json_cached World loads dumps cache_file refresh fetch_fn fs w
    = (r, fs', w') ->
  fs p <> None -> fs' p <> None.
Proof.
  unfold read_json_cached. intros E Hp.
  assert (Hw : forall t, write_text fs cache_file t p <> None).
  { intros t. unfold write_text. now destruct (p =? cache_file)%string. }
  destruct (fs cache_file) as [text|], refresh; cbn in E;
    try (injection E as <- <- <-; exact Hp);
    destruct fetch_fn as [fetch|];
    try (injection E as <- <- <-; exact Hp);
    destruct (fetch w) as [[j|e] w1];
    try (injection E as <- <- <-; exact Hp);
    destruct j; injection E as <- <- <-; apply Hw.
Qed.

(** A cached read that returns leaves its cache file in place. *)
Lemma read_json_cached_stores World loads dumps cache_file refresh fetch_fn
    (fs : files) (w : World) j fs' w' :
  read_json_cached World loads dumps cache_file refresh fetch_fn fs w
    = (Returned j, fs', w') ->
  fs' cache_file <> None.
Proof.
  unfold read_json_cached. intros E.
  assert (Hw : forall t, write_text fs cache_file t cache_file <> None).
  { intros t. now rewrite write_text_same. }
  destruct (fs cache_file) as [text|] eqn:Ef, refresh; cbn in E;
    try (injection E as _ <- <-; now rewrite Ef);
    destruct fetch_fn as [fetch|]; try discriminate;
    destruct (fetch w) as [[d|e] w1]; try discriminate;
    destruct d; injection E as _ <- <-; apply Hw.
Qed.

(** With the cache file in place and no refresh, nothing is fetched and
    nothing is written. *)
Lemma read_json_cached_hit World loads dumps cache_file fetch_fn
    (fs : files) (w : World) text :
  fs cache_file = Some text ->
  read_json_cached World loads dumps cache_file false fetch_fn fs w
    = (loads text, fs, w).
Proof. intros E. unfold read_json_cached. now rewrite E. Qed.

End FileCacheFacts.

Module NewlineFacts.
Import PyStr FileCache.

Lemma universal_newlines_no_cr_upto (n : nat) :
  forall s, (String.length s <= n)%nat ->
            contains "013"%char (universal_newlines s) = false.
Proof.
  induction n as [|n IH]; intros s Hn.
  - destruct s; [reflexivity | simpl in Hn; lia].
  - destruct s as [|c r]; [reflexivity|].
    simpl in Hn. cbn [universal_newlines].
    destruct (Ascii.eqb_spec c "013"%char) as [->|Hc].
    + cbn [contains]. change (Ascii.eqb "013" "010") with false.
      cbn [orb]. destruct r as [|d r']; [reflexivity|].
      simpl in Hn.
      destruct (Ascii.eqb d "010"%char); apply IH; simpl; lia.
    + cbn [contains].
      destruct (Ascii.eqb_spec "013"%char c) as [E|_];
        [now subst c|].
      cbn [orb]. apply IH. lia.
Qed.

(** What is read holds no carriage return. *)
Lemma universal_newlines_no_cr s :
  contains "013"%char (universal_newlines s) = false.
Proof. now apply (universal_newlines_no_cr_upto (String.length s)). Qed.

(** A text without a carriage return is read as it is. *)
Lemma universal_newlines_plain s :
  contains "013"%char s = false -> universal_newlines s = s.
Proof.
  induction s as [|c r IH]; [reflexivity|].
  cbn [contains universal_newlines]. intros H.
  apply orb_false_iff in H. destruct H as [Hc Hr].
  rewrite Ascii.eqb_sym in Hc. rewrite Hc. now rewrite IH.
Qed.

Lemma universal_newlines_idem s :
  universal_newlines (universal_newlines s) = universal_newlines s.
Proof. apply universal_newlines_plain, universal_newlines_no_cr. Qed.

End NewlineFacts.

(** X19.  [read_text_cached]: when a call returns a text, the cache file
    exists afterwards, reads as that text reads, and no other file has
    changed; every later call without refresh returns that text as it is
    read back, with every carriage return, alone or before a line feed,
    turned into one line feed, without calling its fetch function (which
    may even be absent) and without writing.  So a text without a
    carriage return is returned unchanged by every later call. *)
Theorem X19_read_text_cached_round_trip (World : Type)
    (cache_file : string) (refresh : bool)
    (fetch_fn : option (World -> result string * World))
    (fs fs' : FileCache.files) (w w' : World) (text : string)
    (H : FileCache.read_text_cached World cache_file refresh fetch_fn fs w
           = (Returned text, fs', w')) :
  FileCache.read_text fs' cache_file
  = Some (FileCache.universal_newlines text) /\
  (forall p, p <> cache_file -> fs' p = fs p) /\
  (forall fetch_fn2 w2,
      FileCache.read_text_cached World cache_file false fetch_fn2 fs' w2
      = (Returned (FileCache.universal_newlines text), fs', w2)) /\
  (PyStr.contains "013"%char text = false ->
   forall fetch_fn2 w2,
     FileCache.read_text_cached World cache_file false fetch_fn2 fs' w2
     = (Returned text, fs', w2)).
Proof.
  assert (Hstored : FileCache.read_text fs' cache_file
                    = Some (FileCache.universal_newlines text) /\
                    forall p, p <> cache_file -> fs' p = fs p).
  { unfold FileCache.read_text_cached in H.
    assert (Hw : forall t,
               FileCache.read_text (FileCache.write_text fs cache_file t)
                 cache_file
               = Some (FileCache.universal_newlines t)).
    { intros t. unfold FileCache.read_text.
      now rewrite FileCacheFacts.write_text_same. }
    destruct (FileCache.read_text fs cache_file) as [t|] eqn:Ef, refresh;
      cbn in H;
      try (injection H as <- <- <-; split; [|reflexivity];
           unfold FileCache.read_text in *;
           destruct (fs cache_file) as [t0|]; [|discriminate];
           injection Ef as <-;
           now rewrite NewlineFacts.universal_newlines_idem);
      destruct fetch_fn as [fetch|]; try discriminate;
      destruct (fetch w) as [[t'|e] w1]; try discriminate;
      injection H as <- <- <-;
      (split; [apply Hw
              | intros p Hp; now apply FileCacheFacts.write_text_other]). }
  destruct Hstored as [Hs Ho].
  assert (Hlater : forall fetch_fn2 w2,
             FileCache.read_text_cached World cache_file false fetch_fn2 fs'
               w2
             = (Returned (FileCache.universal_newlines text), fs', w2)).
  { intros fetch_fn2 w2. unfold FileCache.read_text_cached. now rewrite Hs. }
  split; [exact Hs|]. split; [exact Ho|]. split; [exact Hlater|].
  intros Hplain fetch_fn2 w2. rewrite Hlater.
  now rewrite NewlineFacts.universal_newlines_plain.
Qed.

(** A refreshed read stores and returns a text with a carriage return
    before a line feed; the next read returns it with a line feed
    alone. *)
Lemma X19_read_text_cached_round_trip_witness :
  let crlf := String "a" (String "013" (String "010" "b")) in
  let lf := String "a" (String "010" "b") in
  let fs' :=
    FileCache.write_text
      (FileCache.write_text (fun _ => None) "a.txt" "old") "a.txt" crlf in
  FileCache.read_text_cached unit "a.txt" true
    (Some (fun w => (Returned crlf, w)))
    (FileCache.write_text (fun _ => None) "a.txt" "old") tt
  = (Returned crlf, fs', tt) /\
  FileCache.universal_newlines crlf = lf /\
  FileCache.read_text_cached unit "a.txt" false None fs' tt
  = (Returned lf, fs', tt).
Proof.
  intros crlf lf fs'.
  split; [reflexivity|]. split; [reflexivity|].
  exact (proj1 (proj2 (proj2 (X19_read_text_cached_round_trip unit "a.txt"
    true (Some (fun w => (Returned crlf, w)))
    (FileCache.write_text (fun _ => None) "a.txt" "old") _ tt tt crlf
    eq_refl))) None tt).
Defined.

(** X20.  [read_json_cached] stores a fetched [str] before it parses it:
    when the cache is missed (or refreshed), the fetch function returns a
    text and [json.loads] rejects it, the call raises, the text is in the
    cache file all the same, and every later call without refresh raises
    the same error without fetching again. *)
Theorem X20_unparsable_text_is_cached (World : Type)
    (loads : string -> result Json.json) (dumps : Json.json -> string)
    (cache_file : string) (refresh : bool)
    (fetch : World -> result Json.json * World)
    (fs : FileCache.files) (w w' : World) (data e : string)
    (Hmiss : fs cache_file = None \/ refresh = true)
    (Hfetch : fetch w = (Returned (Json.JStr data), w'))
    (Hbad : loads data = Raised e) :
  let fs' := FileCache.write_text fs cache_file data in
  FileCache.read_json_cached World loads dumps cache_file refresh
    (Some fetch) fs w = (Raised e, fs', w') /\
  forall fetch_fn2 w2,
    FileCache.read_json_cached World loads dumps cache_file false
      fetch_fn2 fs' w2 = (Raised e, fs', w2).
Proof.
  intros fs'. split.
  - unfold FileCache.read_json_cached. rewrite Hfetch, Hbad.
    destruct Hmiss as [-> | ->]; [reflexivity |].
    now destruct (fs cache_file).
  - intros fetch_fn2 w2.
    rewrite (FileCacheFacts.read_json_cached_hit World loads dumps
               cache_file fetch_fn2 fs' w2 data).
    + now rewrite Hbad.
    + apply FileCacheFacts.write_text_same.
Qed.

Lemma X20_unparsable_text_is_cached_witness :
  FileCache.read_json_cached unit Calendar.loads Calendar.dumps "m.json"
    false None
    (FileCache.write_text Calendar.no_files "m.json" "<html>") tt
  = (Raised "JSONDecodeError",
     FileCache.write_text Calendar.no_files "m.json" "<html>", tt).
Proof.
  exact (proj2 (X20_unparsable_text_is_cached unit Calendar.loads
    Calendar.dumps "m.json" false
    (fun w => (Returned (Json.JStr "<html>"), w))
    Calendar.no_files tt tt "<html>" "JSONDecodeError"
    (or_introl eq_refl) eq_refl eq_refl) None tt).
Defined.

(* ================================================================== *)
(** * ipo_nasdaq.py: the rows of a month *)

Module IpoRowFacts.
Import PyStr Json IpoNasdaq IpoObserve.

Lemma row_of_clean (row : json) (r : ipo_row) :
  row_of row = Returned (Some r) -> clean_row r.
Proof.
  unfold row_of, bind.
  destruct (first_true row _) as [s|]; [|discriminate].
  destruct (text s) as [s'|]; [|discriminate].
  destruct (first_true row _) as [d|]; [|discriminate].
  destruct (text d) as [d'|]; [|discriminate].
  destruct (first_true row _) as [c|]; [|discriminate].
  destruct (text c) as [c'|]; [|discriminate].
  destruct (PyStr.truthy (upper (strip s'))) eqn:Es; [|discriminate].
  destruct (PyStr.truthy (strip d')) eqn:Ed; [|discriminate].
  cbn. intros E. injection E as <-. unfold clean_row. cbn.
  repeat split; trivial.
  - apply PyStrFacts.upper_strip_idem.
  - apply PyStrFacts.strip_idem.
  - apply PyStrFacts.strip_idem.
Qed.

Lemma rows_loop_clean (priced : list json) (rows : list ipo_row) :
  Forall clean_row rows -> Forall clean_row (rows_loop priced rows).
Proof.
  revert rows. induction priced as [|row rest IH]; intros rows H; cbn;
    [exact H|].
  destruct (row_of row) as [[r|]|] eqn:E; [| now apply IH | exact H].
  apply IH, Forall_app. split; [exact H|].
  constructor; [|constructor]. now apply (row_of_clean row).
Qed.

Lemma listed_rows_clean (j : json) : Forall clean_row (listed_rows j).
Proof.
  unfold listed_rows. destruct (priced_rows j); [|constructor].
  apply rows_loop_clean. constructor.
Qed.

(** The loop carries its accumulator along unchanged. *)
Lemma rows_loop_acc (priced : list json) (rows : list ipo_row) :
  rows_loop priced rows = (rows ++ rows_loop priced [])%list.
Proof.
  revert rows. induction priced as [|row rest IH]; intros rows; cbn.
  - now rewrite app_nil_r.
  - destruct (row_of row) as [[r|]|]; [| apply IH | now rewrite app_nil_r].
    rewrite IH, (IH [r]). now rewrite app_assoc.
Qed.

Lemma rows_loop_stops (good rest : list json) (bad : json) (e : string)
    (rows : list ipo_row) :
  Forall (fun r => exists o, row_of r = Returned o) good ->
  row_of bad = Raised e ->
  rows_loop (good ++ bad :: rest) rows = rows_loop good rows.
Proof.
  intros Hgood Hbad. revert rows.
  induction Hgood as [|row good [o Ho] _ IH]; intros rows; cbn.
  - now rewrite Hbad.
  - rewrite Ho. destruct o; apply IH.
Qed.

Lemma listed_rows_document (priced : list json) :
  listed_rows (IpoNasdaq.document priced) = rows_loop priced [].
Proof.
  unfold listed_rows, priced_rows, IpoNasdaq.document. cbn.
  unfold py_or. now destruct priced.
Qed.

(** Only an object has [get]. *)
Lemma row_of_not_object (row : json) :
  (forall members, row <> JObj members) -> exists e, row_of row = Raised e.
Proof.
  intros H. destruct row; try (now eexists); now destruct (H members).
Qed.

End IpoRowFacts.

(** X21.  Every row that [fetch_nasdaq_ipo_month] builds from a document,
    whatever the document, has a non-empty symbol in stripped upper-case
    form, a non-empty stripped date text and a stripped company name. *)
Theorem X21_listed_rows_are_clean (j : Json.json) :
  Forall
    (fun r =>
       IpoNasdaq.Symbol r <> EmptyString /\
       PyStr.upper (PyStr.strip (IpoNasdaq.Symbol r)) = IpoNasdaq.Symbol r /\
       IpoNasdaq.IPODate r <> EmptyString /\
       PyStr.strip (IpoNasdaq.IPODate r) = IpoNasdaq.IPODate r /\
       PyStr.strip (IpoNasdaq.Company r) = IpoNasdaq.Company r)
    (IpoNasdaq.listed_rows j).
Proof.
  eapply Forall_impl; [| apply IpoRowFacts.listed_rows_clean].
  intros r (Hs & Hu & Hd & Hds & Hc). repeat split; trivial.
  - intros E. now rewrite E in Hs.
  - intros E. now rewrite E in Hd.
Qed.

(** X22.  A row whose processing raises (a row that is not an object, or
    one with a true non-text field) ends the listing silently: the rows
    of a document are those of its rows before the first such row, and
    the rows after it are lost. *)
Theorem X22_malformed_row_ends_listing (good rest : list Json.json)
    (bad : Json.json) (e : string)
    (Hgood : Forall (fun r => exists o, IpoNasdaq.row_of r = Returned o) good)
    (Hbad : IpoNasdaq.row_of bad = Raised e) :
  IpoNasdaq.listed_rows (IpoNasdaq.document (good ++ bad :: rest))
  = IpoNasdaq.listed_rows (IpoNasdaq.document good).
Proof.
  rewrite !IpoRowFacts.listed_rows_document.
  now apply (IpoRowFacts.rows_loop_stops good rest bad e).
Qed.

Lemma X22_malformed_row_ends_listing_witness :
  IpoNasdaq.listed_rows Calendar.january
  = [ IpoNasdaq.mkIpoRow "ABCD" "01/15/2020" "Abcd Corp";
      IpoNasdaq.mkIpoRow "EFGH" "01/22/2020" EmptyString;
      IpoNasdaq.mkIpoRow "ABCD" "01/15/2020" "Abcd Corp" ].
Proof.
  unfold Calendar.january.
  rewrite (X22_malformed_row_ends_listing Calendar.january_rows
             [Calendar.row "late" "01/30/2020" "Late Inc"] (Json.JNum 7)
             "AttributeError").
  - reflexivity.
  - repeat constructor; eexists; reflexivity.
  - reflexivity.
Defined.

(* ================================================================== *)
(** * ipo_nasdaq.py: the range of months *)

Module IpoRangeFacts.
Import Json FileCache IpoNasdaq IpoObserve.

Lemma In_py_range (a b x : Z) : In x (py_range a b) <-> a <= x < b.
Proof.
  unfold py_range. rewrite in_map_iff. split.
  - intros (i & <- & Hi). apply in_seq in Hi. lia.
  - intros H. exists (Z.to_nat (x - a)). split; [lia|].
    apply in_seq. lia.
Qed.

Lemma length_py_range (a b : Z) :
  List.length (py_range a b) = Z.to_nat (b - a).
Proof. unfold py_range. now rewrite List.length_map, List.length_seq. Qed.

Lemma py_range_snoc (a b : Z) :
  a <= b -> py_range a (b + 1) = (py_range a b ++ [b])%list.
Proof.
  intros H. unfold py_range.
  replace (Z.to_nat (b + 1 - a)) with (Z.to_nat (b - a) + 1)%nat by lia.
  rewrite seq_app, map_app. cbn. do 2 f_equal. lia.
Qed.

Lemma until_break_other (year y m : Z) (months : list Z) :
  year <> y -> until_break year y m months = months.
Proof.
  intros H. induction months as [|month rest IH]; cbn; [reflexivity|].
  destruct (Z.eqb_spec year y); [contradiction|]. cbn. now rewrite IH.
Qed.

Lemma length_until_break_last (y m : Z) :
  List.length (until_break y y m (py_range 1 13))
  = Z.to_nat (Z.max 0 (Z.min m 12)).
Proof.
  change (py_range 1 13) with [1; 2; 3; 4; 5; 6; 7; 8; 9; 10; 11; 12].
  cbn [until_break]. rewrite Z.eqb_refl. cbn [andb].
  repeat match goal with
         | |- context [m <? ?k] =>
             destruct (Z.ltb_spec m k); cbn [List.length]; [lia|]
         end.
  lia.
Qed.

Lemma length_months_asked (start_year y m : Z) :
  List.length (months_asked start_year y m)
  = if y <? start_year then 0%nat
    else Z.to_nat (12 * (y - start_year) + Z.max 0 (Z.min m 12)).
Proof.
  unfold months_asked. destruct (Z.ltb_spec y start_year) as [Hlt | Hle].
  - unfold py_range. now replace (Z.to_nat (y + 1 - start_year)) with 0%nat
      by lia.
  - rewrite (py_range_snoc _ _ Hle), flat_map_app, List.length_app.
    cbn [flat_map].
    rewrite app_nil_r, List.length_map, length_until_break_last.
    assert (Hfull : forall years, (forall x, In x years -> x <> y) ->
              List.length (flat_map
                (fun year => map (pair year)
                   (until_break year y m (py_range 1 13))) years)
              = (12 * List.length years)%nat).
    { induction years as [|x r IH]; intros Hne; [reflexivity|].
      cbn [flat_map]. rewrite List.length_app, List.length_map, IH.
      - rewrite until_break_other by (apply Hne; now left).
        rewrite length_py_range. cbn [List.length]. lia.
      - intros x' Hx'. apply Hne. now right. }
    rewrite Hfull, length_py_range; [lia|].
    intros x Hx. apply In_py_range in Hx. lia.
Qed.

Section Calendar.
Variable World : Type.
Variable loads : string -> result json.
Variable dumps : json -> string.
Variable get_json : World -> string -> result json * World.
Variable to_datetime : list string -> list (option date).

Local Abbreviation month_of :=
  (fetch_nasdaq_ipo_month World loads dumps get_json).
Local Abbreviation months_of := (months_loop World loads dumps get_json).
Local Abbreviation years_of := (years_loop World loads dumps get_json).

Lemma month_keeps year month refresh cache_dir fs w r fs' w' p :
  month_of year month refresh cache_dir fs w = (r, fs', w') ->
  fs p <> None -> fs' p <> None.
Proof.
  unfold fetch_nasdaq_ipo_month.
  destruct (read_json_cached _ _ _ _ _ _ _ _) as [[r0 fs0] w0] eqn:E.
  intros H Hp.
  assert (fs0 p <> None)
    by exact (FileCacheFacts.read_json_cached_keeps _ _ _ _ _ _ _ _ _ _ _ _
                E Hp).
  destruct r0; injection H as _ <- _; assumption.
Qed.

Lemma month_stores year month refresh cache_dir fs w rows fs' w' :
  month_of year month refresh cache_dir fs w = (Returned rows, fs', w') ->
  fs' (cache_file cache_dir year month) <> None.
Proof.
  unfold fetch_nasdaq_ipo_month.
  destruct (read_json_cached _ _ _ _ _ _ _ _) as [[r0 fs0] w0] eqn:E.
  intros H. destruct r0 as [j|]; [|discriminate].
  injection H as _ <- _.
  exact (FileCacheFacts.read_json_cached_stores _ _ _ _ _ _ _ _ _ _ _ E).
Qed.

Lemma month_hit year month cache_dir fs w r fs' w' :
  fs (cache_file cache_dir year month) <> None ->
  month_of year month false cache_dir fs w = (r, fs', w') ->
  fs' = fs /\ w' = w.
Proof.
  intros Hp. unfold fetch_nasdaq_ipo_month.
  destruct (fs (cache_file cache_dir year month)) as [text|] eqn:Ef;
    [|contradiction].
  rewrite (FileCacheFacts.read_json_cached_hit _ _ _ _ _ _ _ _ Ef).
  destruct (loads text); intros H; injection H as _ <- <-; now split.
Qed.

Lemma months_loop_returned year y m months refresh cache_dir rows st
    rows' st' :
  months_of year y m months refresh cache_dir rows st
    = (Returned rows', st') ->
  slept World st' =
    (slept World st
     ++ map (fun _ => Sleep (1 # 2)) (until_break year y m months))%list /\
  (forall p, disk World st p <> None -> disk World st' p <> None) /\
  (forall month, In month (until_break year y m months) ->
     disk World st' (cache_file cache_dir year month) <> None).
Proof.
  revert rows st. induction months as [|month rest IH]; intros rows st; cbn.
  - intros H. injection H as _ <-. rewrite app_nil_r.
    repeat split; trivial. intros ? [].
  - destruct ((year =? y) && (m <? month)).
    + intros H. injection H as _ <-. rewrite app_nil_r.
      repeat split; trivial. intros ? [].
    + destruct (month_of _ _ _ _ _ _) as [[r fs1] w1] eqn:E.
      destruct r as [got|]; [|discriminate].
      intros H. apply IH in H. cbn in H. destruct H as (Hs & Hk & Ha).
      repeat split.
      * rewrite Hs, <- app_assoc. reflexivity.
      * intros p Hp. apply Hk. exact (month_keeps _ _ _ _ _ _ _ _ _ _ E Hp).
      * intros mo [<- | Hin]; [|now apply Ha].
        apply Hk. exact (month_stores _ _ _ _ _ _ _ _ _ E).
Qed.

Lemma months_loop_cached year y m months cache_dir rows st r st' :
  (forall month, In month (until_break year y m months) ->
     disk World st (cache_file cache_dir year month) <> None) ->
  months_of year y m months false cache_dir rows st = (r, st') ->
  disk World st' = disk World st /\ net World st' = net World st.
Proof.
  revert rows st. induction months as [|month rest IH]; intros rows st; cbn.
  - intros _ H. injection H as _ <-. now split.
  - destruct ((year =? y) && (m <? month)).
    + intros _ H. injection H as _ <-. now split.
    + intros Hall.
      destruct (month_of _ _ _ _ _ _) as [[r1 fs1] w1] eqn:E.
      apply month_hit in E; [| apply Hall; now left].
      destruct E as [-> ->].
      destruct r1 as [got|].
      * intros H. apply IH in H; [exact H|].
        cbn. intros mo Hin. apply Hall. now right.
      * intros H. injection H as _ <-. now split.
Qed.

Lemma years_loop_returned years y m refresh cache_dir rows st rows' st' :
  years_of years y m refresh cache_dir rows st = (Returned rows', st') ->
  slept World st' =
    (slept World st
     ++ map (fun _ => Sleep (1 # 2))
          (flat_map
             (fun year => map (pair year)
                            (until_break year y m (py_range 1 13)))
             years))%list /\
  (forall p, disk World st p <> None -> disk World st' p <> None) /\
  (forall year month,
     In year years -> In month (until_break year y m (py_range 1 13)) ->
     disk World st' (cache_file cache_dir year month) <> None).
Proof.
  revert rows st. induction years as [|year rest IH]; intros rows st.
  - cbn. intros H. injection H as _ <-. rewrite app_nil_r.
    repeat split; trivial. intros ? ? [].
  - cbn [years_loop flat_map].
    destruct (months_of _ _ _ _ _ _ _ _) as [[rows1|] st1] eqn:E;
      [|discriminate].
    apply months_loop_returned in E. destruct E as (Hs1 & Hk1 & Ha1).
    intros H. apply IH in H. destruct H as (Hs & Hk & Ha).
    repeat split.
    + rewrite Hs, Hs1, !map_app, !map_map, <- app_assoc. reflexivity.
    + intros p Hp. now apply Hk, Hk1.
    + intros yr mo [<- | Hin] Hmo; [now apply Hk, Ha1 | now apply Ha].
Qed.

Lemma years_loop_cached years y m cache_dir rows st r st' :
  (forall year month,
     In year years -> In month (until_break year y m (py_range 1 13)) ->
     disk World st (cache_file cache_dir year month) <> None) ->
  years_of years y m false cache_dir rows st = (r, st') ->
  disk World st' = disk World st /\ net World st' = net World st.
Proof.
  revert rows st. induction years as [|year rest IH]; intros rows st Hall.
  - cbn. intros H. injection H as _ <-. now split.
  - cbn [years_loop].
    destruct (months_of _ _ _ _ _ _ _ _) as [[rows1|] st1] eqn:E;
      apply months_loop_cached in E;
      try (intros mo Hmo; apply Hall; [now left | exact Hmo]);
      destruct E as [Ed En].
    + intros H. apply IH in H.
      * now rewrite <- Ed, <- En.
      * intros yr mo Hyr Hmo. rewrite Ed. apply Hall; [now right | exact Hmo].
    + intros H. injection H as _ <-. now split.
Qed.

Lemma range_as_years start_year end_year end_month refresh cache_dir
    today_year today_month st :
  fetch_nasdaq_ipo_range World loads dumps get_json to_datetime start_year
    end_year end_month refresh cache_dir today_year today_month st
  = let y := int_or end_year today_year in
    let m := int_or end_month today_month in
    match years_of (py_range start_year (y + 1)) y m refresh cache_dir
            [] st with
    | (Raised e, st') => (Raised e, st')
    | (Returned all_rows, st') =>
        (Returned (to_frame to_datetime all_rows), st')
    end.
Proof. reflexivity. Qed.

End Calendar.
End IpoRangeFacts.

(** X23.  A completed [fetch_nasdaq_ipo_range] pauses half a second once
    for every month of its range, whether the month came from the cache
    or from the server, and does nothing else to the clock.  The range
    has [12 * (y - start_year)] months plus the months 1 to [m] of year
    [y] ([m] cut to 0..12), and no month when [y < start_year], where
    [y] and [m] are the end year and month, today's when not given or
    zero. *)
Theorem X23_range_pauses_once_per_month (World : Type)
    (loads : string -> result Json.json) (dumps : Json.json -> string)
    (get_json : World -> string -> result Json.json * World)
    (to_datetime : list string -> list (option date))
    (start_year : Z) (end_year end_month : option Z) (refresh : bool)
    (cache_dir : string) (today_year today_month : Z)
    (st st' : IpoNasdaq.state World) (df : list IpoNasdaq.frame_row)
    (H : IpoNasdaq.fetch_nasdaq_ipo_range World loads dumps get_json
           to_datetime start_year end_year end_month refresh cache_dir
           today_year today_month st = (Returned df, st')) :
  let y := IpoNasdaq.int_or end_year today_year in
  let m := IpoNasdaq.int_or end_month today_month in
  let months :=
    if y <? start_year then 0%nat
    else Z.to_nat (12 * (y - start_year) + Z.max 0 (Z.min m 12)) in
  IpoNasdaq.slept World st'
  = (IpoNasdaq.slept World st ++ repeat (Sleep (1 # 2)) months)%list.
Proof.
  intros y m months. rewrite IpoRangeFacts.range_as_years in H. cbn zeta in H.
  fold y m in H.
  destruct (IpoNasdaq.years_loop _ _ _ _ _ _ _ _ _ _ _)
    as [[all_rows|] st1] eqn:E; [|discriminate].
  injection H as _ <-.
  apply IpoRangeFacts.years_loop_returned in E. destruct E as (Hs & _).
  rewrite Hs. f_equal.
  change (flat_map _ _) with (IpoObserve.months_asked start_year y m).
  unfold months. rewrite <- IpoRangeFacts.length_months_asked.
  generalize (IpoObserve.months_asked start_year y m).
  induction l as [|x r IH]; cbn; [reflexivity | now rewrite IH].
Qed.

(** A run against the scripted calendar: one month, fetched and stored. *)
Example calendar_first_run :
  IpoNasdaq.fetch_nasdaq_ipo_range Calendar.world Calendar.loads
    Calendar.dumps Calendar.get_json Calendar.to_datetime 2020 (Some 2020)
    (Some 1) false "data/cache" 2026 11 Calendar.start
  = (Returned Calendar.january_frame, Calendar.after_january).
Proof. vm_compute. reflexivity. Qed.

Lemma X23_range_pauses_once_per_month_witness :
  IpoNasdaq.fetch_nasdaq_ipo_range Calendar.world Calendar.loads
    Calendar.dumps Calendar.get_json Calendar.to_datetime 2020 (Some 2020)
    (Some 1) false "data/cache" 2026 11 Calendar.start
  = (Returned Calendar.january_frame, Calendar.after_january) /\
  IpoNasdaq.slept Calendar.world Calendar.after_january
  = ([] ++ repeat (Sleep (1 # 2)) 1)%list.
Proof.
  assert (H : IpoNasdaq.fetch_nasdaq_ipo_range Calendar.world Calendar.loads
                Calendar.dumps Calendar.get_json Calendar.to_datetime 2020
                (Some 2020) (Some 1) false "data/cache" 2026 11
                Calendar.start
              = (Returned Calendar.january_frame, Calendar.after_january))
    by (vm_compute; reflexivity).
  split; [exact H |].
  exact (X23_range_pauses_once_per_month _ _ _ _ _ _ _ _ _ _ _ _ _ _ _ H).
Defined.

(** X24.  After a completed [fetch_nasdaq_ipo_range], the same range
    asked again without refresh (and on the same day) is served from the
    cache files: whether it returns or raises, it sends no request and
    leaves every file as it is. *)
Theorem X24_cached_range_makes_no_request (World : Type)
    (loads : string -> result Json.json) (dumps : Json.json -> string)
    (get_json : World -> string -> result Json.json * World)
    (to_datetime : list string -> list (option date))
    (start_year : Z) (end_year end_month : option Z) (refresh : bool)
    (cache_dir : string) (today_year today_month : Z)
    (st st' : IpoNasdaq.state World) (df : list IpoNasdaq.frame_row)
    (H : IpoNasdaq.fetch_nasdaq_ipo_range World loads dumps get_json
           to_datetime start_year end_year end_month refresh cache_dir
           today_year today_month st = (Returned df, st')) :
  let again :=
    snd (IpoNasdaq.fetch_nasdaq_ipo_range World loads dumps get_json
           to_datetime start_year end_year end_month false cache_dir
           today_year today_month st') in
  IpoNasdaq.disk World again = IpoNasdaq.disk World st' /\
  IpoNasdaq.net World again = IpoNasdaq.net World st'.
Proof.
  rewrite IpoRangeFacts.range_as_years in H. cbn zeta in H.
  destruct (IpoNasdaq.years_loop _ _ _ _ _ _ _ _ _ _ _)
    as [[all_rows|] st1] eqn:E; [|discriminate].
  injection H as _ <-.
  apply IpoRangeFacts.years_loop_returned in E. destruct E as (_ & _ & Ha).
  intros again. subst again. rewrite IpoRangeFacts.range_as_years. cbn zeta.
  destruct (IpoNasdaq.years_loop _ _ _ _ _ _ _ false _ _ _)
    as [r st2] eqn:E2.
  apply IpoRangeFacts.years_loop_cached in E2; [|exact Ha].
  now destruct r.
Qed.

Lemma X24_cached_range_makes_no_request_witness :
  IpoNasdaq.fetch_nasdaq_ipo_range Calendar.world Calendar.loads
    Calendar.dumps Calendar.get_json Calendar.to_datetime 2020 (Some 2020)
    (Some 1) true "data/cache" 2026 11 Calendar.start
  = (Returned Calendar.january_frame, Calendar.after_january) /\
  IpoObserve.requests
    (snd (IpoNasdaq.fetch_nasdaq_ipo_range Calendar.world Calendar.loads
            Calendar.dumps Calendar.get_json Calendar.to_datetime 2020
            (Some 2020) (Some 1) false "data/cache" 2026 11
            Calendar.after_january))
  = [IpoNasdaq.month_url 2020 1].
Proof.
  assert (H : IpoNasdaq.fetch_nasdaq_ipo_range Calendar.world Calendar.loads
                Calendar.dumps Calendar.get_json Calendar.to_datetime 2020
                (Some 2020) (Some 1) true "data/cache" 2026 11
                Calendar.start
              = (Returned Calendar.january_frame, Calendar.after_january))
    by (vm_compute; reflexivity).
  split; [exact H |].
  unfold IpoObserve.requests.
  now rewrite (proj2 (X24_cached_range_makes_no_request _ _ _ _ _ _ _ _ _ _
                        _ _ _ _ _ H)).
Defined.

(* ================================================================== *)
(** * ipo_nasdaq.py: cache files and URLs of the months *)

Module IpoPathFacts.
Import IpoNasdaq.

Lemma length_append (a b : string) :
  String.length (a ++ b) = (String.length a + String.length b)%nat.
Proof. induction a as [|c a IH]; cbn; [reflexivity | now rewrite IH]. Qed.

Lemma append_cancel_l (a b c : string) : a ++ b = a ++ c -> b = c.
Proof.
  induction a as [|x a IH]; cbn; [exact id|].
  intros E. injection E as E. now apply IH.
Qed.

Lemma append_cancel_r (a b c d : string) :
  a ++ b = c ++ d -> String.length b = String.length d -> a = c /\ b = d.
Proof.
  revert c. induction a as [|x a IH]; intros [|y c]; cbn; intros E L.
  - now split.
  - apply (f_equal String.length) in E. cbn in E.
    rewrite length_append in E. lia.
  - apply (f_equal String.length) in E. cbn in E.
    rewrite length_append in E. lia.
  - injection E as -> E. destruct (IH c E L) as [-> ->]. now split.
Qed.

Lemma str_of_int_inj (a b : Z) : str_of_int a = str_of_int b -> a = b.
Proof.
  unfold str_of_int. intros E.
  assert (Hnil : forall z, Z.to_int z <> Decimal.Pos Decimal.Nil /\
                           Z.to_int z <> Decimal.Neg Decimal.Nil).
  { intros [|p|p]; cbn; split; try discriminate; intros H; injection H as H;
      now apply DecimalPos.Unsigned.to_uint_nonnil in H. }
  apply (f_equal DecimalString.NilZero.int_of_string) in E.
  rewrite !DecimalString.NilZero.isi in E by apply Hnil.
  injection E as E. apply (f_equal Z.of_int) in E.
  now rewrite !DecimalZ.of_to in E.
Qed.

Lemma month_cases (m : Z) :
  1 <= m <= 12 ->
  m = 1 \/ m = 2 \/ m = 3 \/ m = 4 \/ m = 5 \/ m = 6 \/
  m = 7 \/ m = 8 \/ m = 9 \/ m = 10 \/ m = 11 \/ m = 12.
Proof. lia. Qed.

Lemma length_pad2 (m : Z) : 1 <= m <= 12 -> String.length (pad2 m) = 2%nat.
Proof.
  intros H. apply month_cases in H.
  repeat (destruct H as [-> | H]; [reflexivity|]). now subst.
Qed.

Lemma pad2_inj (m1 m2 : Z) :
  1 <= m1 <= 12 -> 1 <= m2 <= 12 -> pad2 m1 = pad2 m2 -> m1 = m2.
Proof.
  intros H1 H2. apply month_cases in H1. apply month_cases in H2.
  repeat (destruct H1 as [-> | H1]); try subst m1;
    repeat (destruct H2 as [-> | H2]); try subst m2;
    intros E; try reflexivity; vm_compute in E; discriminate E.
Qed.

Lemma month_tag_inj (y1 m1 y2 m2 : Z) :
  1 <= m1 <= 12 -> 1 <= m2 <= 12 ->
  month_tag y1 m1 = month_tag y2 m2 -> y1 = y2 /\ m1 = m2.
Proof.
  intros H1 H2 E. unfold month_tag in E.
  apply append_cancel_r in E.
  - destruct E as [Ey Em]. split; [now apply str_of_int_inj|].
    apply (append_cancel_l "-") in Em. now apply pad2_inj.
  - cbn. now rewrite !length_pad2.
Qed.

End IpoPathFacts.

(** X25.  The months of a year range never share a cache file or a URL:
    for months between 1 and 12, equal cache paths (below the same cache
    directory) or equal request URLs mean the same year and month. *)
Theorem X25_months_have_their_own_cache_file (cache_dir : string)
    (y1 m1 y2 m2 : Z) (H1 : 1 <= m1 <= 12) (H2 : 1 <= m2 <= 12)
    (E : IpoNasdaq.cache_file cache_dir y1 m1
           = IpoNasdaq.cache_file cache_dir y2 m2 \/
         IpoNasdaq.month_url y1 m1 = IpoNasdaq.month_url y2 m2) :
  y1 = y2 /\ m1 = m2.
Proof.
  apply IpoPathFacts.month_tag_inj; trivial.
  destruct E as [E | E].
  - unfold IpoNasdaq.cache_file in E.
    apply IpoPathFacts.append_cancel_l, IpoPathFacts.append_cancel_l in E.
    now apply IpoPathFacts.append_cancel_r in E.
  - unfold IpoNasdaq.month_url in E.
    now apply IpoPathFacts.append_cancel_l in E.
Qed.

Lemma X25_months_have_their_own_cache_file_witness :
  IpoNasdaq.cache_file "data/cache" 2020 1
    = "data/cache/nasdaq_ipo/2020-01.json" /\
  IpoNasdaq.month_url (-44) 12
    = "https://api.nasdaq.com/api/ipo/calendar?date=-44-12" /\
  (2020 = 2020 /\ 1 = 1).
Proof.
  split; [reflexivity |]. split; [reflexivity |].
  apply (X25_months_have_their_own_cache_file "data/cache" 2020 1 2020 1);
    [lia | lia | left; reflexivity].
Defined.

(* ================================================================== *)
(** * ipo_nasdaq.py: the returned frame *)

Module IpoFrameFacts.
Import PyStr Json FileCache IpoNasdaq IpoObserve.

Lemma same_key_true (a b : string * date) :
  same_key a b = true <-> a = b.
Proof.
  destruct a as [s d], b as [s' d']. unfold same_key. cbn.
  rewrite andb_true_iff, String.eqb_eq, Z.eqb_eq.
  split; [intros [-> ->]; reflexivity | intros E; injection E; auto].
Qed.

Lemma seen_true (k : string * date) (seen : list (string * date)) :
  existsb (same_key k) seen = true <-> In k seen.
Proof.
  rewrite existsb_exists. split.
  - intros (x & Hx & E). apply same_key_true in E. now subst.
  - intros H. exists k. split; [exact H | now apply same_key_true].
Qed.

Lemma In_drop_duplicates (seen : list (string * date))
    (rows : list frame_row) (r : frame_row) :
  In r (drop_duplicates seen rows) -> In r rows /\ ~ In (fst r) seen.
Proof.
  revert seen. induction rows as [|x rest IH]; intros seen; cbn; [easy|].
  destruct (existsb (same_key (fst x)) seen) eqn:E.
  - intros H. apply IH in H. tauto.
  - intros [<- | H].
    + split; [now left|]. intros Hin. apply seen_true in Hin. congruence.
    + apply IH in H. destruct H as [Hin Hseen]. split; [now right|].
      intros Hs. apply Hseen. now right.
Qed.

Lemma NoDup_drop_duplicates (seen : list (string * date))
    (rows : list frame_row) :
  NoDup (map fst (drop_duplicates seen rows)).
Proof.
  revert seen. induction rows as [|x rest IH]; intros seen; cbn;
    [constructor|].
  destruct (existsb (same_key (fst x)) seen); [apply IH|].
  cbn. constructor; [|apply IH].
  intros H. apply in_map_iff in H. destruct H as (r & Er & Hr).
  apply In_drop_duplicates in Hr. destruct Hr as [_ Hr]. apply Hr.
  rewrite Er. now left.
Qed.

(** Every key of the rows is the key of a row that is kept. *)
Lemma drop_duplicates_keeps_keys (seen : list (string * date))
    (rows : list frame_row) (k : string * date) :
  In k (map fst rows) -> ~ In k seen ->
  In k (map fst (drop_duplicates seen rows)).
Proof.
  revert seen. induction rows as [|x rest IH]; intros seen; cbn; [easy|].
  intros [E | H] Hs.
  - subst k. destruct (existsb (same_key (fst x)) seen) eqn:Ex.
    + apply seen_true in Ex. contradiction.
    + now left.
  - destruct (existsb (same_key (fst x)) seen) eqn:Ex; [now apply IH|].
    cbn. destruct (same_key k (fst x)) eqn:Ek.
    + apply same_key_true in Ek. now left.
    + right. apply IH; [exact H|]. intros [Hk | Hk]; [|contradiction].
      subst k. assert (same_key (fst x) (fst x) = true)
        by now apply same_key_true. congruence.
Qed.

Lemma In_dated_rows (rows : list (ipo_row * option date)) (x : frame_row) :
  In x (dropna rows) ->
  exists r d, In (r, Some d) rows /\ x = (Symbol r, d, Company r).
Proof.
  induction rows as [|[r [d|]] rest IH]; cbn; [easy | |].
  - intros [<- | H].
    + exists r, d. split; [now left | reflexivity].
    + destruct (IH H) as (r' & d' & Hin & E). exists r', d'. now split; [right|].
  - intros H. destruct (IH H) as (r' & d' & Hin & E).
    exists r', d'. now split; [right|].
Qed.

Section Calendar.
Variable World : Type.
Variable loads : string -> result json.
Variable dumps : json -> string.
Variable get_json : World -> string -> result json * World.
Variable to_datetime : list string -> list (option date).

Lemma month_rows_clean year month refresh cache_dir fs w rows fs' w' :
  fetch_nasdaq_ipo_month World loads dumps get_json year month refresh
    cache_dir fs w = (Returned rows, fs', w') ->
  Forall clean_row rows.
Proof.
  unfold fetch_nasdaq_ipo_month.
  destruct (read_json_cached _ _ _ _ _ _ _ _) as [[[j|] fs0] w0];
    [|discriminate].
  intros H. injection H as <- _ _. apply IpoRowFacts.listed_rows_clean.
Qed.

Lemma months_loop_clean year y m months refresh cache_dir rows st rows' st' :
  months_loop World loads dumps get_json year y m months refresh cache_dir
    rows st = (Returned rows', st') ->
  Forall clean_row rows -> Forall clean_row rows'.
Proof.
  revert rows st. induction months as [|month rest IH]; intros rows st; cbn.
  - intros H. now injection H as <- _.
  - destruct ((year =? y) && (m <? month)).
    + intros H. now injection H as <- _.
    + destruct (fetch_nasdaq_ipo_month _ _ _ _ _ _ _ _ _ _)
        as [[[got|] fs1] w1] eqn:E; [|discriminate].
      intros H Hc. apply IH in H; [exact H|].
      apply Forall_app. split; [exact Hc|].
      exact (month_rows_clean _ _ _ _ _ _ _ _ _ E).
Qed.

Lemma years_loop_clean years y m refresh cache_dir rows st rows' st' :
  years_loop World loads dumps get_json years y m refresh cache_dir
    rows st = (Returned rows', st') ->
  Forall clean_row rows -> Forall clean_row rows'.
Proof.
  revert rows st. induction years as [|year rest IH]; intros rows st.
  - cbn. intros H. now injection H as <- _.
  - cbn [years_loop].
    destruct (months_loop _ _ _ _ _ _ _ _ _ _ _ _) as [[rows1|] st1] eqn:E;
      [|discriminate].
    intros H Hc. apply IH in H; [exact H|].
    exact (months_loop_clean _ _ _ _ _ _ _ _ _ _ E Hc).
Qed.

Lemma to_frame_clean (all_rows : list ipo_row) (x : frame_row) :
  Forall clean_row all_rows -> In x (to_frame to_datetime all_rows) ->
  exists r, In r all_rows /\ clean_row r /\
            fst (fst x) = Symbol r /\ snd x = Company r.
Proof.
  intros Hc Hin. unfold to_frame in Hin.
  apply In_drop_duplicates in Hin. destruct Hin as [Hin _].
  apply In_dated_rows in Hin. destruct Hin as (r & d & Hin & ->).
  apply in_combine_l in Hin. exists r.
  split; [exact Hin|]. split; [|split; reflexivity].
  now apply (proj1 (Forall_forall _ _) Hc).
Qed.

End Calendar.
End IpoFrameFacts.

(** X26.  The frame a completed [fetch_nasdaq_ipo_range] returns has no
    two rows with the same symbol and date, and every row of it carries
    the symbol and company of a listed row: the symbol is not empty and
    is in stripped upper-case form. *)
Theorem X26_range_frame_has_no_duplicates (World : Type)
    (loads : string -> result Json.json) (dumps : Json.json -> string)
    (get_json : World -> string -> result Json.json * World)
    (to_datetime : list string -> list (option date))
    (start_year : Z) (end_year end_month : option Z) (refresh : bool)
    (cache_dir : string) (today_year today_month : Z)
    (st st' : IpoNasdaq.state World) (df : list IpoNasdaq.frame_row)
    (H : IpoNasdaq.fetch_nasdaq_ipo_range World loads dumps get_json
           to_datetime start_year end_year end_month refresh cache_dir
           today_year today_month st = (Returned df, st')) :
  NoDup (map fst df) /\
  forall sym d comp, In (sym, d, comp) df ->
    sym <> EmptyString /\ PyStr.upper (PyStr.strip sym) = sym /\
    PyStr.strip comp = comp.
Proof.
  rewrite IpoRangeFacts.range_as_years in H. cbn zeta in H.
  destruct (IpoNasdaq.years_loop _ _ _ _ _ _ _ _ _ _ _)
    as [[all_rows|] st1] eqn:E; [|discriminate].
  injection H as <- _. split.
  - apply IpoFrameFacts.NoDup_drop_duplicates.
  - intros sym d comp Hin.
    apply IpoFrameFacts.years_loop_clean in E; [|constructor].
    destruct (IpoFrameFacts.to_frame_clean to_datetime all_rows _ E Hin)
      as (r & _ & (Hs & Hu & _ & _ & Hc) & Es & Ec).
    cbn in Es, Ec. subst sym comp. repeat split; trivial.
    intros E0. now rewrite E0 in Hs.
Qed.

Lemma X26_range_frame_has_no_duplicates_witness :
  IpoNasdaq.fetch_nasdaq_ipo_range Calendar.world Calendar.loads
    Calendar.dumps Calendar.get_json Calendar.to_datetime 2020 (Some 0)
    (Some 1) false "data/cache" 2020 11 Calendar.start
  = (Returned Calendar.january_frame, Calendar.after_january) /\
  NoDup (map fst Calendar.january_frame).
Proof.
  assert (H : IpoNasdaq.fetch_nasdaq_ipo_range Calendar.world Calendar.loads
                Calendar.dumps Calendar.get_json Calendar.to_datetime 2020
                (Some 0) (Some 1) false "data/cache" 2020 11
                Calendar.start
              = (Returned Calendar.january_frame, Calendar.after_january))
    by (vm_compute; reflexivity).
  split; [exact H |].
  exact (proj1 (X26_range_frame_has_no_duplicates _ _ _ _ _ _ _ _ _ _ _ _
                  _ _ _ H)).
Defined.

(* ================================================================== *)
(** * cli.py: the merged table *)

Module MergeFacts.
Import VendorYahoo CliMerge.

(** A left merge with a table without repeated symbols is a lookup. *)
Lemma filter_unique_key (t : table) (s : string) :
  NoDup (map fst t) ->
  filter (fun v => (fst v =? s)%string) t
  = match PyDict.get s t with Some d => [(s, d)] | None => [] end.
Proof.
  induction t as [|[k d] t IH]; cbn; [reflexivity|].
  intros N. inversion N as [|? ? Hk N']; subst.
  destruct (String.eqb_spec k s) as [-> | Hne].
  - f_equal. rewrite (IH N').
    destruct (PyDict.get s t) as [d'|] eqn:E; [|reflexivity].
    exfalso. apply Hk. eapply PyDictFacts.get_Some_In_keys. exact E.
  - now apply IH.
Qed.

Lemma flat_map_single {A B} (f : A -> B) (l : list A) :
  flat_map (fun x => [f x]) l = map f l.
Proof. induction l as [|x l IH]; cbn; [reflexivity | now rewrite IH]. Qed.

Lemma merge_vendor_lookup (symbols_df : list listing) (t : table) :
  NoDup (map fst t) ->
  merge_vendor symbols_df t
  = map (fun l => listed_row l (date_in t (lSymbol l))) symbols_df.
Proof.
  intros N. unfold merge_vendor, date_in.
  rewrite <- flat_map_single. apply flat_map_ext. intros l.
  rewrite (filter_unique_key t (lSymbol l) N).
  now destruct (PyDict.get (lSymbol l) t).
Qed.

Lemma seen_symbol (s : string) (seen : list string) :
  existsb (String.eqb s) seen = true <-> In s seen.
Proof.
  rewrite existsb_exists. split.
  - intros (x & Hx & E). apply String.eqb_eq in E. now subst.
  - intros H. exists s. split; [exact H | apply String.eqb_refl].
Qed.

Lemma In_first_per_symbol seen rows i :
  In i (first_per_symbol seen rows) ->
  In i rows /\ ~ In (ipo_symbol i) seen.
Proof.
  revert seen. induction rows as [|x rest IH]; intros seen; cbn; [easy|].
  destruct (existsb (String.eqb (ipo_symbol x)) seen) eqn:E.
  - intros H. apply IH in H. tauto.
  - intros [<- | H].
    + split; [now left|]. intros Hin. apply seen_symbol in Hin. congruence.
    + apply IH in H. destruct H as [Hin Hs]. split; [now right|].
      intros Hs'. apply Hs. now right.
Qed.

Lemma NoDup_first_per_symbol seen rows :
  NoDup (map ipo_symbol (first_per_symbol seen rows)).
Proof.
  revert seen. induction rows as [|x rest IH]; intros seen; cbn;
    [constructor|].
  destruct (existsb (String.eqb (ipo_symbol x)) seen); [apply IH|].
  cbn. constructor; [|apply IH].
  intros H. apply in_map_iff in H. destruct H as (i & Ei & Hi).
  apply In_first_per_symbol in Hi. destruct Hi as [_ Hi]. apply Hi.
  rewrite Ei. now left.
Qed.

Lemma first_per_symbol_keeps seen rows s :
  In s (map ipo_symbol rows) -> ~ In s seen ->
  In s (map ipo_symbol (first_per_symbol seen rows)).
Proof.
  revert seen. induction rows as [|x rest IH]; intros seen; cbn; [easy|].
  intros [E | H] Hs.
  - subst s. destruct (existsb (String.eqb (ipo_symbol x)) seen) eqn:Ex.
    + apply seen_symbol in Ex. contradiction.
    + now left.
  - destruct (existsb (String.eqb (ipo_symbol x)) seen) eqn:Ex;
      [now apply IH|].
    cbn. destruct (String.eqb_spec (ipo_symbol x) s) as [E | Hne];
      [now left|].
    right. apply IH; [exact H|]. intros [Hk | Hk]; [contradiction|].
    contradiction.
Qed.

Lemma flat_map_flat_map_single {A B C} (f : A -> list B) (g : B -> C)
    (l : list A) :
  flat_map (fun y => [g y]) (flat_map f l)
  = flat_map (fun x => map g (f x)) l.
Proof.
  induction l as [|x l IH]; cbn; [reflexivity|].
  now rewrite flat_map_app, IH, flat_map_single.
Qed.

(** With one IPO row per symbol, line 202 changes the [IPODate] of each
    row and nothing else. *)
Lemma filter_unique_symbol (firsts : list IpoNasdaq.frame_row) (s : string) :
  NoDup (map ipo_symbol firsts) ->
  (List.length (filter (fun i => (ipo_symbol i =? s)%string) firsts) <= 1)%nat.
Proof.
  induction firsts as [|x rest IH]; cbn; [lia|].
  intros N. inversion N as [|? ? Hx N']; subst.
  destruct (String.eqb_spec (ipo_symbol x) s) as [E | Hne]; [|now apply IH].
  cbn. assert (filter (fun i => (ipo_symbol i =? s)%string) rest = []).
  { destruct (filter _ rest) as [|i l] eqn:Ef; [reflexivity|].
    exfalso. apply Hx. rewrite E.
    assert (Hi : In i (filter (fun i => (ipo_symbol i =? s)%string) rest))
      by (rewrite Ef; now left).
    apply filter_In in Hi. destruct Hi as [Hi Es].
    apply String.eqb_eq in Es. rewrite <- Es. now apply in_map. }
  rewrite H. cbn. lia.
Qed.

Lemma add_ipo_dates_rows merged ipo_df :
  map (fun r => set_ipo r None) (add_ipo_dates merged ipo_df)
  = map (fun r => set_ipo r None) merged.
Proof.
  unfold add_ipo_dates.
  pose proof (NoDup_first_per_symbol [] ipo_df) as N.
  rewrite <- (flat_map_single (fun r => set_ipo r None) merged).
  rewrite <- flat_map_single, flat_map_flat_map_single.
  apply flat_map_ext. intros r.
  pose proof (filter_unique_symbol _ (Symbol r) N) as L.
  destruct (filter _ _) as [|i [|i' l]]; cbn in *; [reflexivity..|lia].
Qed.

Lemma symbols_add_ipo_dates merged ipo_df :
  map Symbol (add_ipo_dates merged ipo_df) = map Symbol merged.
Proof.
  pose proof (add_ipo_dates_rows merged ipo_df) as H.
  apply (f_equal (map Symbol)) in H. now rewrite !map_map in H.
Qed.

End MergeFacts.

(** X27.  Line 186 on the frame of a completed resolver run: [merged]
    has exactly one row for every row of [symbols_df], in the same
    order, with the date the run returned for its symbol or none; the
    rows without a date are those of the symbols in the missing report
    of line 182. *)
Theorem X27_merged_has_one_row_per_listing (World : Type)
    (download : World -> list string -> outcome frame * World)
    (download_one : World -> string -> outcome closes * World)
    (symbols_df : list CliMerge.listing) (cache_path : bool)
    (file : option VendorYahoo.csv) (batch_size : Z) (pause : Q)
    (max_retries : Z) (force_recheck : bool)
    (st st' : VendorYahoo.state World) (r : VendorYahoo.run)
    (H : VendorYahoo.earliest_vendor_dates_with_cache World download
           download_one (map CliMerge.lSymbol symbols_df) cache_path file
           batch_size pause max_retries force_recheck st
         = (Returned r, st')) :
  let earliest_df := VendorYahoo.returned r in
  CliMerge.merge_vendor symbols_df earliest_df
  = map (fun l => CliMerge.listed_row l
                    (CliMerge.date_in earliest_df (CliMerge.lSymbol l)))
      symbols_df /\
  forall l, In l symbols_df ->
    (CliMerge.date_in earliest_df (CliMerge.lSymbol l) = None <->
     In (CliMerge.lSymbol l)
        (CliReports.missing_symbols (map CliMerge.lSymbol symbols_df)
           earliest_df)).
Proof.
  intros earliest_df.
  assert (N : NoDup (map fst earliest_df)).
  { subst earliest_df.
    destruct (RunFacts.run_returned World download download_one _ _ _ _ _ _
                _ _ _ _ H) as (fetched & _ & ->).
    apply GroupFacts.NoDup_ascending.
    cbn [VendorYahoo.returned].
    apply RunFacts.ascending_filter, RunFacts.ascending_table_of. }
  split; [now apply MergeFacts.merge_vendor_lookup|].
  intros l Hl. unfold CliMerge.date_in, CliReports.missing_symbols.
  rewrite filter_In, negb_true_iff. split.
  - intros E. split; [now apply in_map|].
    destruct (existsb _ _) eqn:Ex; [|reflexivity].
    apply MergeFacts.seen_symbol in Ex.
    apply PyDictFacts.mem_In_keys in Ex. unfold PyDict.mem in Ex.
    now rewrite E in Ex.
  - intros [_ Ex]. destruct (PyDict.get _ _) as [d|] eqn:E; [|reflexivity].
    apply PyDictFacts.get_Some_In_keys in E.
    apply MergeFacts.seen_symbol in E. unfold PyDict.keys in E. congruence.
Qed.

Lemma X27_merged_has_one_row_per_listing_witness :
  let symbols_df :=
    [ CliMerge.mkListing "AAPL" (Some "Apple Inc.") (Some "NASDAQ") None;
      CliMerge.mkListing "ZZZZ" None (Some "NYSE") None;
      CliMerge.mkListing "BRK.B" None (Some "NYSE") None ] in
  let r :=
    VendorYahoo.mkRun
      [("AAPL", Scripted.d2000); ("BRK.B", Scripted.d1999)]
      (Some (VendorYahoo.Rows
               [(Some "AAPL", VendorYahoo.DateText Scripted.d2000);
                (Some "BRK.B", VendorYahoo.DateText Scripted.d1999)])) in
  VendorYahoo.earliest_vendor_dates_with_cache Scripted.world
    Scripted.download Scripted.download_one
    (map CliMerge.lSymbol symbols_df) true (Some Scripted.cache_aapl) 50 1 0
    false (Scripted.start Scripted.knows_brk)
  = (Returned r,
     VendorYahoo.mkState Scripted.world ([], [])
       [Download ["ZZZZ"; "BRK-B"]; DownloadOne "ZZZZ"; Sleep (1 # 10);
        Sleep 1]) /\
  CliMerge.merge_vendor symbols_df (VendorYahoo.returned r)
  = [ CliMerge.mkMerged "AAPL" (Some "Apple Inc.") (Some "NASDAQ") None true
        (Some Scripted.d2000) None;
      CliMerge.mkMerged "ZZZZ" None (Some "NYSE") None true None None;
      CliMerge.mkMerged "BRK.B" None (Some "NYSE") None true
        (Some Scripted.d1999) None ].
Proof.
  intros symbols_df r.
  assert (H : VendorYahoo.earliest_vendor_dates_with_cache Scripted.world
                Scripted.download Scripted.download_one
                (map CliMerge.lSymbol symbols_df) true
                (Some Scripted.cache_aapl) 50 1 0 false
                (Scripted.start Scripted.knows_brk)
              = (Returned r,
                 VendorYahoo.mkState Scripted.world ([], [])
                   [Download ["ZZZZ"; "BRK-B"]; DownloadOne "ZZZZ";
                    Sleep (1 # 10); Sleep 1]))
    by (vm_compute; reflexivity).
  split; [exact H |].
  rewrite (proj1 (X27_merged_has_one_row_per_listing _ _ _ _ _ _ _ _ _ _ _ _
                    _ H)).
  reflexivity.
Defined.

(** X28.  The IPO step (lines 202-212) on a returned IPO frame keeps the
    rows of [merged] as they are, row for row and in order, filling in
    only [IPODate], and appends one row for each IPO symbol that
    [merged] lacks: these rows have pairwise different symbols, are
    marked as not listed and carry no vendor date.  Every symbol of the
    IPO frame is in the result.  When the IPO fetch raised, [merged] is
    left unchanged. *)
Theorem X28_ipo_rows_are_appended_once (merged : list CliMerge.merged_row)
    (ipo_df : list IpoNasdaq.frame_row) :
  (exists dated extra,
     CliMerge.enrich merged (Returned ipo_df) = (dated ++ extra)%list /\
     map (fun r => CliMerge.set_ipo r None) dated
     = map (fun r => CliMerge.set_ipo r None) merged /\
     NoDup (map CliMerge.Symbol extra) /\
     (forall r, In r extra ->
        CliMerge.ListedCurrently r = false /\
        CliMerge.EarliestVendorDate r = None /\
        ~ In (CliMerge.Symbol r) (map CliMerge.Symbol merged) /\
        In (CliMerge.Symbol r) (map CliMerge.ipo_symbol ipo_df)) /\
     (forall i, In i ipo_df ->
        In (CliMerge.ipo_symbol i)
           (map CliMerge.Symbol (dated ++ extra)%list))) /\
  forall e, CliMerge.enrich merged (Raised e) = merged.
Proof.
  split; [|reflexivity].
  exists (CliMerge.add_ipo_dates merged ipo_df),
         (CliMerge.ipo_only (CliMerge.add_ipo_dates merged ipo_df) ipo_df).
  assert (Hsym : forall rows,
            map CliMerge.Symbol
              (map (fun i => CliMerge.mkMerged (CliMerge.ipo_symbol i)
                               (Some (CliMerge.ipo_company i)) None None
                               false None (Some (CliMerge.ipo_date i)))
                 rows)
            = map CliMerge.ipo_symbol rows).
  { intros rows. rewrite map_map. reflexivity. }
  split; [reflexivity|].
  split; [apply MergeFacts.add_ipo_dates_rows|].
  unfold CliMerge.ipo_only. rewrite MergeFacts.symbols_add_ipo_dates.
  split; [|split].
  - rewrite Hsym. apply MergeFacts.NoDup_first_per_symbol.
  - intros r Hr. apply in_map_iff in Hr. destruct Hr as (i & <- & Hi).
    apply MergeFacts.In_first_per_symbol in Hi. destruct Hi as [Hi _].
    apply filter_In in Hi. destruct Hi as [Hi Hn]. cbn.
    repeat split; trivial.
    + intros Hin. apply MergeFacts.seen_symbol in Hin.
      now rewrite Hin in Hn.
    + now apply in_map.
  - intros i Hi. rewrite map_app, in_app_iff, Hsym,
      MergeFacts.symbols_add_ipo_dates.
    destruct (existsb (String.eqb (CliMerge.ipo_symbol i))
                (map CliMerge.Symbol merged)) eqn:E.
    + left. now apply MergeFacts.seen_symbol.
    + right. apply MergeFacts.first_per_symbol_keeps; [|easy].
      apply in_map, filter_In. split; [exact Hi | now rewrite E].
Qed.

(* ================================================================== *)
(** * sources.py: the screener fallback *)

Module ScreenerFacts.
Import PyStr Json FileCache Sources SourcesObserve.

Lemma rec_of_good include_etf common_only ex_name allowed row r :
  In ex_name allowed ->
  rec_of include_etf common_only ex_name row = Returned (Some r) ->
  good include_etf common_only allowed r.
Proof.
  intros Hex. unfold rec_of, IpoNasdaq.bind.
  destruct (IpoNasdaq.first_true row _) as [s|]; [|discriminate].
  destruct (text s) as [s'|]; [|discriminate].
  destruct (IpoNasdaq.first_true row _) as [n|]; [|discriminate].
  destruct (text n) as [n'|]; [|discriminate].
  destruct (PyStr.truthy (upper (strip s'))) eqn:Es; [|discriminate].
  cbn [negb].
  destruct (negb include_etf && etf_name (upper (strip n'))) eqn:Ee;
    [discriminate|].
  destruct (common_only && excluded_name (upper (strip n'))) eqn:Ec;
    [discriminate|].
  intros E. injection E as <-. unfold good. cbn.
  repeat split; trivial.
  - intros E0. now rewrite E0 in Es.
  - apply PyStrFacts.upper_strip_idem.
  - apply PyStrFacts.strip_idem.
  - intros ->. exact Ee.
  - intros ->. exact Ec.
Qed.

Lemma recs_loop_good include_etf common_only ex_name allowed rows recs recs' :
  In ex_name allowed ->
  Forall (good include_etf common_only allowed) recs ->
  recs_loop include_etf common_only ex_name rows recs = Returned recs' ->
  Forall (good include_etf common_only allowed) recs'.
Proof.
  intros Hex. revert recs.
  induction rows as [|row rest IH]; intros recs Hg; cbn.
  - intros E. now injection E as <-.
  - unfold IpoNasdaq.bind.
    destruct (rec_of _ _ _ row) as [o|] eqn:Er; [|discriminate].
    apply IH. destruct o as [r|]; [|exact Hg].
    apply Forall_app. split; [exact Hg|]. constructor; [|constructor].
    exact (rec_of_good _ _ _ _ _ _ Hex Er).
Qed.

Lemma In_unique_symbols seen rows r :
  In r (drop_duplicates seen rows) -> In r rows /\ ~ In (Symbol r) seen.
Proof.
  revert seen. induction rows as [|x rest IH]; intros seen; cbn; [easy|].
  destruct (existsb (String.eqb (Symbol x)) seen) eqn:E.
  - intros H. apply IH in H. tauto.
  - intros [<- | H].
    + split; [now left|]. intros Hin. apply MergeFacts.seen_symbol in Hin. congruence.
    + apply IH in H. destruct H as [Hin Hs]. split; [now right|].
      intros Hs'. apply Hs. now right.
Qed.

Lemma NoDup_unique_symbols seen rows :
  NoDup (map Symbol (drop_duplicates seen rows)).
Proof.
  revert seen. induction rows as [|x rest IH]; intros seen; cbn;
    [constructor|].
  destruct (existsb (String.eqb (Symbol x)) seen); [apply IH|].
  cbn. constructor; [|apply IH].
  intros H. apply in_map_iff in H. destruct H as (r & Er & Hr).
  apply In_unique_symbols in Hr. destruct Hr as [_ Hr]. apply Hr.
  rewrite Er. now left.
Qed.

Section Screener.
Variable World : Type.
Variable loads : string -> result json.
Variable dumps : json -> string.
Variable get_json : World -> string -> result json * World.

Lemma exchanges_loop_good exs include_etf common_only refresh cache_dir
    allowed frames fs w frames' fs' w' :
  incl (map snd exs) allowed ->
  Forall (fun f => f <> [] /\ Forall (good include_etf common_only allowed) f)
    frames ->
  exchanges_loop World loads dumps get_json exs include_etf common_only
    refresh cache_dir frames fs w = (Returned frames', fs', w') ->
  Forall (fun f => f <> [] /\ Forall (good include_etf common_only allowed) f)
    frames'.
Proof.
  revert frames fs w.
  induction exs as [|[ex_param ex_name] rest IH]; intros frames fs w Hin Hg.
  - cbn. intros E. now injection E as <- _ _.
  - cbn [exchanges_loop].
    assert (Hex : In ex_name allowed) by (apply Hin; now left).
    assert (Hrest : incl (map snd rest) allowed)
      by (intros x Hx; apply Hin; now right).
    destruct (read_json_cached _ _ _ _ _ _ _ _) as [[[j|] fs1] w1];
      [|discriminate].
    destruct (negb (truthy (rows_of j))); [now apply IH|].
    destruct (IpoNasdaq.bind _ _) as [recs|] eqn:Er; [|discriminate].
    apply IH; [exact Hrest|].
    unfold IpoNasdaq.bind in Er.
    destruct (iterate (rows_of j)) as [items|]; [|discriminate].
    apply (recs_loop_good _ _ _ allowed) in Er; [|exact Hex|constructor].
    destruct recs as [|r recs]; [exact Hg|].
    apply Forall_app. split; [exact Hg|].
    constructor; [|constructor]. split; [discriminate | exact Er].
Qed.

End Screener.

(** ** Substrings *)

Lemma append_assoc (a b c : string) : (a ++ b) ++ c = a ++ b ++ c.
Proof. induction a as [|x a IH]; cbn; [reflexivity | now rewrite IH]. Qed.

Lemma prefix_split (sub s : string) :
  String.prefix sub s = true <-> exists q, s = sub ++ q.
Proof.
  revert s. induction sub as [|c sub IH]; intros s.
  - split; [intros _; now exists s | now destruct s].
  - destruct s as [|d s]; cbn.
    + split; [discriminate | intros [q E]; discriminate E].
    + destruct (Ascii.ascii_dec c d) as [-> | Hne].
      * rewrite IH. split; intros [q E]; exists q.
        -- now rewrite E.
        -- now injection E.
      * split; [discriminate|]. intros [q E]. injection E as E _.
        now destruct Hne.
Qed.

Lemma has_split (sub s : string) :
  has sub s = true <-> exists p q, s = p ++ sub ++ q.
Proof.
  induction s as [|c s IH]; cbn [has]; rewrite orb_true_iff, prefix_split.
  - split.
    + intros [[q E] | H]; [|discriminate]. now exists EmptyString, q.
    + intros (p & q & E). left. destruct p; [now exists q | discriminate E].
  - rewrite IH. split.
    + intros [[q E] | (p & q & E)].
      * now exists EmptyString, q.
      * exists (String c p), q. cbn. now rewrite E.
    + intros (p & q & E). destruct p as [|d p]; cbn in E.
      * left. now exists q.
      * right. injection E as _ E. now exists p, q.
Qed.

Lemma has_trans (a b s : string) :
  has a b = true -> has b s = true -> has a s = true.
Proof.
  rewrite !has_split. intros (p1 & q1 & ->) (p2 & q2 & ->).
  exists (p2 ++ p1), (q1 ++ q2). now rewrite !append_assoc.
Qed.

Lemma core_terms_cover (x : string) :
  In x excl_terms -> exists y, In y core_terms /\ has y x = true.
Proof.
  intros H. unfold excl_terms in H. cbn [In] in H.
  repeat (destruct H as [<- | H];
          [match goal with
           | |- exists y, _ /\ has y ?t = true =>
               first
                 [ exists t; split; [cbn; tauto | reflexivity]
                 | exists "WARRANT"; split; [cbn; tauto | reflexivity]
                 | exists "UNIT"; split; [cbn; tauto | reflexivity]
                 | exists "RIGHT"; split; [cbn; tauto | reflexivity]
                 | exists "PREFERRED"; split; [cbn; tauto | reflexivity]
                 | exists "NOTE"; split; [cbn; tauto | reflexivity]
                 | exists "BOND"; split; [cbn; tauto | reflexivity]
                 | exists "DEBENTURE"; split; [cbn; tauto | reflexivity] ]
           end |]).
  destruct H.
Qed.

Lemma core_terms_incl : incl core_terms excl_terms.
Proof. intros x H. cbn in H. cbn. tauto. Qed.

End ScreenerFacts.

(** X29.  When the fallback call of [cli.py] (line 74) returns, its
    table is not empty and no two rows have the same symbol; every row
    has a non-empty symbol in stripped upper-case form, a stripped name
    and one of the exchanges NASDAQ, NYSE, AMEX; with [--exclude-etf] no
    name looks like an ETF or ETN, and without [--common-only] no name
    contains an exclusion term (the flag is passed negated). *)
Theorem X29_screener_fallback_table (World : Type)
    (loads : string -> result Json.json) (dumps : Json.json -> string)
    (get_json : World -> string -> result Json.json * World)
    (exclude_etf common_only refresh : bool) (cache_dir : string)
    (fs fs' : FileCache.files) (w w' : IpoNasdaq.web World)
    (df : list Sources.rec)
    (H : Sources.screener_fallback World loads dumps get_json exclude_etf
           common_only refresh cache_dir fs w = (Returned df, fs', w')) :
  df <> [] /\ NoDup (map Sources.Symbol df) /\
  forall r, In r df ->
    Sources.Symbol r <> EmptyString /\
    PyStr.upper (PyStr.strip (Sources.Symbol r)) = Sources.Symbol r /\
    PyStr.strip (Sources.SecurityName r) = Sources.SecurityName r /\
    In (Sources.Exchange r) ["NASDAQ"; "NYSE"; "AMEX"] /\
    (exclude_etf = true ->
     Sources.etf_name (PyStr.upper (Sources.SecurityName r)) = false) /\
    (common_only = false ->
     Sources.excluded_name (PyStr.upper (Sources.SecurityName r)) = false).
Proof.
  unfold Sources.screener_fallback, Sources.load_nasdaq_screener in H.
  destruct (Sources.exchanges_loop _ _ _ _ _ _ _ _ _ _ _ _)
    as [[[frames|] fs1] w1] eqn:E; [|discriminate].
  apply (ScreenerFacts.exchanges_loop_good World loads dumps get_json _ _ _ _
           _ ["NASDAQ"; "NYSE"; "AMEX"]) in E;
    [| intros x Hx; exact Hx | constructor].
  destruct frames as [|f frames]; [discriminate|].
  injection H as <- _ _.
  split; [|split].
  - inversion E as [|? ? [Hf _] _]; subst.
    destruct f as [|r f]; [contradiction|]. cbn. discriminate.
  - apply ScreenerFacts.NoDup_unique_symbols.
  - intros r Hr. apply ScreenerFacts.In_unique_symbols in Hr.
    destruct Hr as [Hr _].
    change (In r (List.concat (f :: frames))) in Hr. apply in_concat in Hr.
    destruct Hr as (g & Hg & Hr).
    apply (proj1 (Forall_forall _ _) E) in Hg. destruct Hg as [_ Hg].
    apply (proj1 (Forall_forall _ _) Hg) in Hr.
    destruct Hr as (H1 & H2 & H3 & H4 & H5 & H6).
    repeat split; trivial.
    + intros ->. now apply H5.
    + intros ->. now apply H6.
Qed.

Lemma X29_screener_fallback_table_witness :
  let df :=
    [ Sources.mkRec "AAPL" "Apple Inc. Common Stock" "NASDAQ";
      Sources.mkRec "QQQ" "Invesco QQQ ETF" "NASDAQ";
      Sources.mkRec "IBM" "International Business Machines" "NYSE" ] in
  Sources.screener_fallback unit Screens.loads Screens.dumps
    Screens.get_json false false false "data/cache" Screens.cached
    Screens.offline
  = (Returned df, Screens.cached, Screens.offline) /\
  NoDup (map Sources.Symbol df).
Proof.
  intros df.
  assert (H : Sources.screener_fallback unit Screens.loads Screens.dumps
                Screens.get_json false false false "data/cache"
                Screens.cached Screens.offline
              = (Returned df, Screens.cached, Screens.offline))
    by (vm_compute; reflexivity).
  split; [exact H |].
  exact (proj1 (proj2 (X29_screener_fallback_table _ _ _ _ _ _ _ _ _ _ _ _ _
                         H))).
Defined.

(** X30.  The name filter of the screener fallback depends on eleven of
    its nineteen terms only: a name contains one of the exclusion terms
    exactly when it contains one of WARRANT, WTS, UNIT, RIGHT, PREFERRED,
    PFD, DEPOSITARY SHARE, DEPOSITARY SHS, NOTE, BOND, DEBENTURE, as a
    substring anywhere (so UNIT also matches within UNITED). *)
Theorem X30_exclusion_terms_reduce_to_core (nm : string) :
  Sources.excluded_name nm
  = existsb (fun x => Sources.has x nm) Sources.core_terms.
Proof.
  unfold Sources.excluded_name. apply eq_true_iff_eq.
  rewrite !existsb_exists. split.
  - intros (x & Hx & Hh).
    destruct (ScreenerFacts.core_terms_cover x Hx) as (y & Hy & Hyx).
    exists y. split; [exact Hy|]. exact (ScreenerFacts.has_trans _ _ _ Hyx Hh).
  - intros (x & Hx & Hh). exists x. split; [|exact Hh].
    now apply ScreenerFacts.core_terms_incl.
Qed.
